(** * Verification of Digital Green Certificates: the decoding and checking pipeline

    Shallow embedding of [src/lib/digital_green_certificate.ts].

    The TypeScript module is a chain of asynchronous functions that either
    return a value or throw.  Each of them is embedded as a function into
    [result A = exn + A]; [await] is sequencing in that monad.  The npm
    packages the module imports (base45-ts, pako, cbor-web, ajv, buffer,
    @peculiar/x509, isomorphic-webcrypto, cosette), the two bundled JSON
    assets and the clock are gathered in one record, [Env], over which every
    definition is parametric.  Module [Fixture] at the end of the definitions
    builds one concrete environment, used to run the pipeline on explicit
    documents. *)

From Stdlib Require Import ZArith NArith String Ascii List Bool Lia.
From Stdlib.Strings Require Import Byte.
From stdpp Require Import base option list strings gmap.

Set Warnings "-register-all".

Local Open Scope string_scope.
Local Open Scope Z_scope.

(** ** JavaScript values

    What the CBOR decoder hands back and what the module then passes around
    is dynamically typed.  Of the numbers, only the integral ones are
    represented.  [VNum n] is the number [n] or, for an integer that the
    CBOR decoder cannot deliver as a number (2^53 and beyond, in either
    direction), the BigInt [n]: truthiness and comparison with a number,
    which is all this module does with such a value, treat the two alike.
    [JSON.stringify], which throws on a BigInt, is a function of the
    environment. *)

Inductive value : Type :=
| VUndefined
| VNull
| VBool (b : bool)
| VNum (n : Z)
| VStr (s : string)
| VBytes (b : list byte)                 (* Uint8Array, Buffer *)
| VArr (items : list value)              (* Array *)
| VMap (entries : list (value * value))  (* Map *)
| VObj (fields : list (string * value))  (* plain object *)
| VTagged (tag : Z) (val : value)        (* cbor Tagged *)
| VBuiltin (name : string).              (* a built-in reached through a prototype *)

(** ToBoolean. *)
Definition truthy (v : value) : bool :=
  match v with
  | VUndefined | VNull => false
  | VBool b => b
  | VNum n => negb (n =? 0)
  | VStr s => negb (String.eqb s "")
  | _ => true
  end.

(** [a || b] and [!a], for operands whose evaluation cannot throw. *)
Definition js_or (a b : value) : value := if truthy a then a else b.
Definition js_not (a : value) : bool := negb (truthy a).

Definition nullish (v : value) : bool :=
  match v with VUndefined | VNull => true | _ => false end.

Definition is_null (v : value) : bool :=
  match v with VNull => true | _ => false end.

Definition isArray (v : value) : bool :=
  match v with VArr _ => true | _ => false end.

(** The elements of an array, and [a[i]] on an array. *)
Definition items_of (v : value) : list value :=
  match v with VArr items => items | _ => [] end.
Definition item (v : value) (i : nat) : value := nth i (items_of v) VUndefined.

(** [v === s] for a string literal [s]. *)
Definition strict_eq_str (v : value) (s : string) : bool :=
  match v with VStr x => String.eqb x s | _ => false end.

Fixpoint assoc (fields : list (string * value)) (p : string) : value :=
  match fields with
  | [] => VUndefined
  | (k, v) :: rest => if String.eqb k p then v else assoc rest p
  end.

(** Same-value-zero comparison of a Map key with a number. *)
Definition key_is (k : value) (n : Z) : bool :=
  match k with VNum m => m =? n | _ => false end.

Fixpoint map_find (entries : list (value * value)) (n : Z) : value :=
  match entries with
  | [] => VUndefined
  | (k, v) :: rest => if key_is k n then v else map_find rest n
  end.

(** ** Exceptions *)

Inductive library : Type :=
| LBase45 | LCbor | LBuffer | LX509 | LWebCrypto | LCosette.

Record UnsafeDGC : Type := {
  hcert : value;
  kid : string;
  issuer : value;
  issuedAt : value;
  expiresAt : value
}.

Inductive exn : Type :=
| Error (message : string)                    (* [throw Error(...)] of this module *)
| TypeError                                   (* raised by the runtime itself *)
| Thrown (origin : library) (message : string)  (* whatever a call into an npm package
                                                   throws, of whichever class *)
| DgcIssuedInFutureError (dgc : UnsafeDGC)
| ExpiredDgcError (dgc : UnsafeDGC)
| UnknownKidError (dgc : UnsafeDGC)
| InvalidCertificateError (dgc : UnsafeDGC).

Definition result (A : Type) : Type := (exn + A)%type.

Definition ret {A} (a : A) : result A := inr a.
Definition throw {A} (e : exn) : result A := inl e.
Definition bind {A B} (m : result A) (k : A -> result B) : result B :=
  match m with
  | inl e => inl e
  | inr a => k a
  end.

Notation "'let*' x ':=' m 'in' k" := (bind m (fun x => k))
  (at level 10, x name, m at level 100, k at level 200).
Notation "'let*' ' p ':=' m 'in' k" := (bind m (fun x => match x with p => k end))
  (at level 10, p pattern, m at level 100, k at level 200).

(** What a call into a package returns: the message it throws, or a value. *)
Definition from_lib {A} (l : library) (r : string + A) : result A :=
  match r with
  | inl msg => inl (Thrown l msg)
  | inr a => inr a
  end.

(** The failure of a computation, if it fails. *)
Definition failure {A} (r : result A) : option exn :=
  match r with inl e => Some e | inr _ => None end.

(** ** Property access and method calls *)

(** [v.p] for the property names the module reads.  Reading a property of
    [undefined] or [null] is a TypeError; a missing property is
    [undefined]. *)
Definition get (v : value) (p : string) : result value :=
  match v with
  | VUndefined | VNull => throw TypeError
  | VObj fields => ret (assoc fields p)
  | VTagged t x =>
      ret (if String.eqb p "tag" then VNum t
           else if String.eqb p "value" then x else VUndefined)
  | VArr items =>
      ret (if String.eqb p "length" then VNum (Z.of_nat (length items)) else VUndefined)
  | VStr s =>
      ret (if String.eqb p "length" then VNum (Z.of_nat (String.length s)) else VUndefined)
  | VBytes b =>
      ret (if String.eqb p "length" then VNum (Z.of_nat (length b)) else VUndefined)
  | _ => ret VUndefined
  end.

(** [v?.p] *)
Definition get_opt (v : value) (p : string) : result value :=
  if nullish v then ret VUndefined else get v p.

(** [v[0]] *)
Definition first (v : value) : result value :=
  match v with
  | VUndefined | VNull => throw TypeError
  | VArr items => ret (match items with x :: _ => x | [] => VUndefined end)
  | VObj fields => ret (assoc fields "0")
  | VStr s => ret (match s with String c _ => VStr (String c "") | EmptyString => VUndefined end)
  | VBytes b => ret (match b with x :: _ => VNum (Z.of_N (Byte.to_N x)) | [] => VUndefined end)
  | _ => ret VUndefined
  end.

(** [m.get(n)]: only a Map has the method. *)
Definition map_get (m : value) (n : Z) : result value :=
  match m with
  | VMap entries => ret (map_find entries n)
  | _ => throw TypeError
  end.

(** [m?.get(n)] *)
Definition map_get_opt (m : value) (n : Z) : result value :=
  if nullish m then ret VUndefined else map_get m n.

(** ** Strings and byte buffers *)

Definition LF : string := String "010"%char "".

(** [parts.join(sep)] *)
Fixpoint join (sep : string) (parts : list string) : string :=
  match parts with
  | [] => ""
  | [x] => x
  | x :: rest => x +:+ sep +:+ join sep rest
  end.

(** [s.startsWith(p)] *)
Definition startsWith (s p : string) : bool := String.prefix p s.

Fixpoint drop_chars (n : nat) (s : string) : string :=
  match n, s with
  | O, _ => s
  | S n', String _ s' => drop_chars n' s'
  | S _, EmptyString => EmptyString
  end.

(** [s.replace(pat, repl)] with a string pattern: the first occurrence only. *)
Fixpoint replace (s pat repl : string) : string :=
  if String.prefix pat s then repl +:+ drop_chars (String.length pat) s
  else match s with
       | EmptyString => EmptyString
       | String c s' => String c (replace s' pat repl)
       end.

(** [s.replace(/</g, ' ')] *)
Fixpoint replace_lt_by_space (s : string) : string :=
  match s with
  | EmptyString => EmptyString
  | String c s' =>
      String (if Ascii.eqb c "<"%char then " "%char else c) (replace_lt_by_space s')
  end.

(** The method [replace] exists on strings only. *)
Definition call_replace_lt (v : value) : result value :=
  match v with
  | VStr s => ret (VStr (replace_lt_by_space s))
  | _ => throw TypeError
  end.

(** [buf.toString('base64')] *)
Definition b64_alphabet : string :=
  "ABCDEFGHIJKLMNOPQRSTUVWXYZabcdefghijklmnopqrstuvwxyz0123456789+/".

Definition b64_char (n : N) : ascii :=
  match String.get (N.to_nat n) b64_alphabet with
  | Some c => c
  | None => "="%char
  end.

Fixpoint toString_base64 (b : list byte) : string :=
  match b with
  | [] => ""
  | [x] =>
      let n := (Byte.to_N x * 16)%N in
      String (b64_char (n / 64)) (String (b64_char (n mod 64)) "==")
  | [x; y] =>
      let n := ((Byte.to_N x * 256 + Byte.to_N y) * 4)%N in
      String (b64_char (n / 4096))
        (String (b64_char (n / 64 mod 64)) (String (b64_char (n mod 64)) "="))
  | x :: y :: z :: rest =>
      let n := ((Byte.to_N x * 256 + Byte.to_N y) * 256 + Byte.to_N z)%N in
      String (b64_char (n / 262144))
        (String (b64_char (n / 4096 mod 64))
           (String (b64_char (n / 64 mod 64))
              (String (b64_char (n mod 64)) (toString_base64 rest))))
  end.

(** [buf.toString('hex')] *)
Definition hex_digit (n : N) : ascii :=
  match String.get (N.to_nat n) "0123456789abcdef" with
  | Some c => c
  | None => "0"%char
  end.

Fixpoint toString_hex (b : list byte) : string :=
  match b with
  | [] => ""
  | x :: rest =>
      String (hex_digit (Byte.to_N x / 16))
        (String (hex_digit (Byte.to_N x mod 16)) (toString_hex rest))
  end.

(** [s.match(/.{1,64}/g)]: consecutive pieces of at most 64 characters, or
    [None] ([null]) when there is no match at all.  The fuel bounds the
    number of pieces; [String.length s] is always enough. *)
Fixpoint take_chars (n : nat) (s : string) : string :=
  match n, s with
  | S n', String c s' => String c (take_chars n' s')
  | _, _ => EmptyString
  end.

Fixpoint pieces64 (fuel : nat) (s : string) : list string :=
  match fuel, s with
  | _, EmptyString => []
  | O, _ => []
  | S fuel', _ => take_chars 64 s :: pieces64 fuel' (drop_chars 64 s)
  end.

Definition match_lines64 (s : string) : option (list string) :=
  match pieces64 (String.length s) s with
  | [] => None
  | l => Some l
  end.

(** ** The environment: imported packages, bundled assets, clock *)

(** [ajv.errors] entries; only [message] is read. *)
Record ErrorObject : Type := { message_of : option string }.

(** What [new X509Certificate(pem)] exposes.  Dates are in milliseconds
    since the epoch, the value a JavaScript [Date] compares by. *)
Record X509Certificate : Type := {
  x_serialNumber : string;
  x_subject : string;
  x_issuer : string;
  x_notBefore : Z;
  x_notAfter : Z;
  x_signatureAlgorithm : string;
  x_signature : list byte;
  x_publicKeyAlgorithm : string
}.

Record CryptoKey : Type := { key_material : list byte }.

Module DSC.
(** Per specification, a DSC is a certificate that contains a public key
    used to sign DGCs. *)
Record t : Type := {
  serialNumber : string;
  subject : string;
  issuer : string;
  notBefore : string;
  notAfter : string;
  signatureAlgorithm : string;
  fingerprint : string;
  signature : string;
  publicKeyAlgorithm : string;
  publicKeyFingerprint : string;
  publicKeyPem : string
}.
End DSC.

Record DGC : Type := {
  unsafe : UnsafeDGC;          (* [...dgc] *)
  certificate : DSC.t;
  code : string
}.

Record Env : Type := {
  (* base45-ts *)
  decodeb45 : string -> string + list byte;
  (* pako: [None] when it throws (the thrown message is never read), else
     what it returns: bytes, or [undefined] for an input that ends before
     the stream does *)
  inflate : list byte -> option value;
  (* cbor-web *)
  cbor_decodeFirst : value -> string + value;
  (* buffer *)
  Buffer_from : value -> string + list byte;
  (* ajv, with the two formats and the keyword registered:
     [ajv.validate(DCCSchema, data)] and [ajv.errors] afterwards *)
  ajv_validate : value -> bool * option (list ErrorObject);
  (* assets/dccCerts.json *)
  DCCCerts : gmap string string;
  (* @peculiar/x509 *)
  new_X509Certificate : value -> string + X509Certificate;
  publicKey_export : X509Certificate -> string + CryptoKey;
  getThumbprint : X509Certificate -> string + list byte;
  publicKey_getThumbprint : X509Certificate -> string + list byte;
  (* isomorphic-webcrypto: [crypto.subtle.exportKey('spki', pk)] *)
  exportKey_spki : CryptoKey -> string + list byte;
  (* cosette *)
  verify : value -> CryptoKey -> string + unit;
  (* built-ins *)
  Date_now : Z;                              (* milliseconds *)
  toISOString : Z -> string;
  (* [JSON.stringify(dgc, null, '\t')] and [JSON.stringify(cert)]: [None]
     when it throws its TypeError, as it does on a BigInt *)
  JSON_stringify_tab : UnsafeDGC -> option string;
  JSON_stringify : DGC -> option string;
  ToNumber_other : value -> option Z          (* ToNumber of strings and objects; [None] is NaN *)
}.

(** ToNumber; [None] stands for NaN. *)
Definition ToNumber (E : Env) (v : value) : option Z :=
  match v with
  | VNum n => Some n
  | VNull => Some 0
  | VUndefined => None
  | VBool b => Some (if b then 1 else 0)
  | _ => ToNumber_other E v
  end.

(** [n < v] and [v < n] for a number [n]: false as soon as one side is NaN. *)
Definition num_lt (E : Env) (n : Z) (v : value) : bool :=
  match ToNumber E v with Some m => n <? m | None => false end.
Definition lt_num (E : Env) (v : value) (n : Z) : bool :=
  match ToNumber E v with Some m => m <? n | None => false end.

(** Property names every plain object inherits from [Object.prototype]:
    the operator [in] sees them too. *)
Definition Object_prototype : list string :=
  [ "constructor"; "__defineGetter__"; "__defineSetter__"; "hasOwnProperty";
    "__lookupGetter__"; "__lookupSetter__"; "isPrototypeOf";
    "propertyIsEnumerable"; "toString"; "valueOf"; "__proto__";
    "toLocaleString" ].

Definition inherited (k : string) : bool :=
  existsb (String.eqb k) Object_prototype.

(** [k in DCCCerts] *)
Definition js_in (k : string) (o : gmap string string) : bool :=
  match o !! k with
  | Some _ => true
  | None => inherited k
  end.

(** [DCCCerts[k]], once [k in DCCCerts] holds. *)
Definition js_index (o : gmap string string) (k : string) : value :=
  match o !! k with
  | Some pem => VStr pem
  | None => if inherited k then VBuiltin k else VUndefined
  end.

(** ** The normalized record *)

Inductive Date : Type := NewDate (arg : value).   (* [new Date(arg)] *)

Record Source : Type := { format : string; cert : DGC }.

Record Common : Type := {
  first_name : value;
  last_name : value;
  date_of_birth : Date;
  common_code : string;
  source : Source
}.

Inductive CommonCertificateInfo : Type :=
| VaccinationInfo (type : string) (vaccination_date : Date)
    (prophylactic_agent doses_received doses_expected : value) (common : Common)
| TestInfo (type : string) (test_date : Date) (is_negative : bool) (common : Common).

Definition type_of (info : CommonCertificateInfo) : string :=
  match info with
  | VaccinationInfo type _ _ _ _ _ => type
  | TestInfo type _ _ _ => type
  end.

Definition common_of (info : CommonCertificateInfo) : Common :=
  match info with
  | VaccinationInfo _ _ _ _ _ common => common
  | TestInfo _ _ _ common => common
  end.

(** ** The module *)

Module COSE_HEADERS.
Definition KID : Z := 4.
End COSE_HEADERS.

Module CWT_CLAIMS.
Definition ISSUER : Z := 1.
Definition EXPIRATION : Z := 4.
Definition ISSUED_AT : Z := 6.
Definition HCERT : Z := -260.
End CWT_CLAIMS.

Definition DGC_PREFIX : string := "HC1:".

Section Pipeline.

Variable E : Env.

Definition extractCoseFromQRCode (qrCode : string) : result value :=
  (* Strip prefix *)
  if negb (startsWith qrCode DGC_PREFIX) then
    throw (Error "HCERT must start with HC1:")
  else
    let qrCode := replace qrCode DGC_PREFIX "" in
    (* Base45 *)
    let* coseData := from_lib LBase45 (decodeb45 E qrCode) in
    (* ZLIB *)
    ret (match inflate E coseData with
         | Some inflated => inflated
         | None => VBytes coseData  (* Probably not ZLIBed, that's OK *)
         end).

(** The text of [ajv.errors?.map((err) => err.message).join('\n')] inside
    the template literal. *)
Definition validationErrors (errors : option (list ErrorObject)) : string :=
  match errors with
  | None => "undefined"
  | Some errs => join LF (map (fun err => default "" (message_of err)) errs)
  end.

(** Parse the COSE data without any signature check. *)
Definition unsafeDGCFromCoseData (rawCoseData : value) : result UnsafeDGC :=
  (* COSE is just some CBOR-serialized data. *)
  let* coseData := from_lib LCbor (cbor_decodeFirst E rawCoseData) in
  let* coseValue := get_opt coseData "value" in
  if js_not coseValue || negb (isArray coseValue)
     || negb (Z.of_nat (length (items_of coseValue)) =? 4) then
    throw (Error "Unexpected COSE data. DGC is probably invalid.")
  else
    let phdrsData := item coseValue 0 in
    let cosePayload := item coseValue 2 in
    (* Extract the KID and the payload *)
    let* phdrs := from_lib LCbor (cbor_decodeFirst E phdrsData) in
    let* rawKid := map_get phdrs COSE_HEADERS.KID in
    if js_not rawKid then
      throw (Error "Cannot find a KID in COSE Data. DGC is probably invalid.")
    else
      let* kidBuffer := from_lib LBuffer (Buffer_from E rawKid) in
      let kid := toString_base64 kidBuffer in
      let* cborData := from_lib LCbor (cbor_decodeFirst E cosePayload) in
      (* Validate the payload against the JSON schema. *)
      let* outer := map_get cborData CWT_CLAIMS.HCERT in
      let* inner := map_get_opt outer 1 in
      let hcert := js_or inner (VObj []) in
      let '(hcertValid, errors) := ajv_validate E hcert in
      if negb hcertValid then
        throw (Error ("DGC validation failed:" +:+ LF +:+ validationErrors errors +:+ "."))
      else
        let* iss := map_get cborData CWT_CLAIMS.ISSUER in
        let* iat := map_get cborData CWT_CLAIMS.ISSUED_AT in
        let* exp := map_get cborData CWT_CLAIMS.EXPIRATION in
        ret {| hcert := hcert;
               kid := kid;
               issuer := js_or iss VNull;
               issuedAt := js_or iat VNull;
               expiresAt := js_or exp VNull |}.

Definition exportPublicKeyToPEM (pk : CryptoKey) : result string :=
  let* spki := from_lib LWebCrypto (exportKey_spki E pk) in
  let pem := toString_base64 spki in
  match match_lines64 pem with
  | None => throw TypeError   (* [null!.join] *)
  | Some lines =>
      let pem := join LF lines in
      ret ("-----BEGIN PUBLIC KEY-----" +:+ LF +:+ pem +:+ LF +:+ "-----END PUBLIC KEY-----")
  end.

(** [throw new C(dgc)] for a class [C] of [DgcError].  The constructor
    first builds the message, [`Ce certificat est invalide:
    ${JSON.stringify(dgc, null, '\t')}`]; when [JSON.stringify] throws,
    its TypeError is what is thrown. *)
Definition throw_DgcError {A} (C : UnsafeDGC -> exn) (dgc : UnsafeDGC) : result A :=
  match JSON_stringify_tab E dgc with
  | Some _ => throw (C dgc)
  | None => throw TypeError
  end.

(** Verifies the CWT claims of the DGC. *)
Definition verifyDGCClaims (dgc : UnsafeDGC) : result unit :=
  let now := Date_now E / 1000 in
  if negb (is_null (issuedAt dgc)) && num_lt E now (issuedAt dgc) then
    throw_DgcError DgcIssuedInFutureError dgc
  else if negb (is_null (expiresAt dgc)) && lt_num E (expiresAt dgc) now then
    throw_DgcError ExpiredDgcError dgc
  else ret tt.

(** Find the DSC that matches this DSC KID. *)
Definition findDGCPublicKey (dgc : UnsafeDGC) : result (DSC.t * CryptoKey) :=
  (* Find the KID in known DSCs *)
  if negb (js_in (kid dgc) (DCCCerts E)) then throw_DgcError UnknownKidError dgc
  else
    let pem := js_index (DCCCerts E) (kid dgc) in
    let* x509cert := from_lib LX509 (new_X509Certificate E pem) in
    let* public_key := from_lib LX509 (publicKey_export E x509cert) in
    (* Export the certificate data. *)
    let* thumbprint := from_lib LX509 (getThumbprint E x509cert) in
    let* pkThumbprint := from_lib LX509 (publicKey_getThumbprint E x509cert) in
    let* publicKeyPem := exportPublicKeyToPEM public_key in
    let certificate :=
      {| DSC.serialNumber := x_serialNumber x509cert;
         DSC.subject := x_subject x509cert;
         DSC.issuer := x_issuer x509cert;
         DSC.notBefore := toISOString E (x_notBefore x509cert);
         DSC.notAfter := toISOString E (x_notAfter x509cert);
         DSC.signatureAlgorithm := x_signatureAlgorithm x509cert;
         DSC.signature := toString_base64 (x_signature x509cert);
         DSC.fingerprint := toString_hex thumbprint;
         DSC.publicKeyAlgorithm := x_publicKeyAlgorithm x509cert;
         DSC.publicKeyFingerprint := toString_hex pkThumbprint;
         DSC.publicKeyPem := publicKeyPem |} in
    (* Verify that the certificate is still valid. *)
    let now := Date_now E in
    if (now >? x_notAfter x509cert) || (now <? x_notBefore x509cert) then
      throw_DgcError InvalidCertificateError dgc
    else ret (certificate, public_key).

(** Verify that the DGC is authentic. *)
Definition verifyDGC (dgc : UnsafeDGC) (rawCoseData : value) (code : string)
  : result DGC :=
  let* _ := verifyDGCClaims dgc in
  let* '(certificate, public_key) := findDGCPublicKey dgc in
  let* _ := from_lib LCosette (verify E rawCoseData public_key) in
  ret {| unsafe := dgc; certificate := certificate; code := code |}.

(** [hcert.x && hcert.x.length], as a condition. *)
Definition nonempty (list_field : value) : result bool :=
  if truthy list_field then
    let* len := get list_field "length" in ret (truthy len)
  else ret false.

Definition getCertificateInfo (cert : DGC) : result CommonCertificateInfo :=
  let hcert := hcert (unsafe cert) in
  let* nam := get hcert "nam" in
  let* gn := get nam "gn" in
  let* first_name :=
    if truthy gn then ret gn
    else let* gnt := get nam "gnt" in call_replace_lt (js_or gnt (VStr "-")) in
  let* fn := get nam "fn" in
  let* last_name :=
    if truthy fn then ret fn
    else let* fnt := get nam "fnt" in call_replace_lt fnt in
  let* dob := get hcert "dob" in
  let common :=
    {| first_name := first_name;
       last_name := last_name;
       date_of_birth := NewDate dob;
       common_code := code cert;
       source := {| format := "dgc"; cert := cert |} |} in
  let* v := get hcert "v" in
  let* has_v := nonempty v in
  if has_v then
    let* v0 := first v in
    let* dt := get v0 "dt" in
    let* vp := get v0 "vp" in
    let* dn := get v0 "dn" in
    let* sd := get v0 "sd" in
    ret (VaccinationInfo "vaccination" (NewDate dt) vp dn sd common)
  else
    let* t := get hcert "t" in
    let* has_t := nonempty t in
    if has_t then
      let* t0 := first t in
      let* sc := get t0 "sc" in
      let* tr := get t0 "tr" in
      (* 260415000=not detected *)
      ret (TestInfo "test" (NewDate sc) (strict_eq_str tr "260415000") common)
    else
      let* r := get hcert "r" in
      let* has_r := nonempty r in
      if has_r then
        let* r0 := first r in
        let* fr := get r0 "fr" in
        ret (TestInfo "test" (NewDate fr) false common)   (* date of positive test *)
      else
        match JSON_stringify E cert with
        | Some text => throw (Error ("Unsupported or empty certificate: " +:+ text))
        | None => throw TypeError
        end.

Definition parse (doc : string) : result CommonCertificateInfo :=
  let* rawCoseData := extractCoseFromQRCode doc in
  (* We need to parse COSE data without verifying signature first *)
  let* unsafe_dgc := unsafeDGCFromCoseData rawCoseData in
  let* dgc := verifyDGC unsafe_dgc rawCoseData doc in
  getCertificateInfo dgc.

End Pipeline.

(** ** A concrete environment

    Instances of the imported packages, enough to run the pipeline on
    explicit documents: base45 as in RFC 9285, zlib streams made of stored
    blocks (RFC 1950, RFC 1951 section 3.2.4), inflated as pako does (an
    input that ends before its stream does gives [undefined], a malformed
    one throws), definite-length CBOR (RFC 8949) with the cbor package's
    convention that a map whose keys are all strings becomes a plain
    object, a validator for the required properties of the certificate
    schema that stops at the first violation, a [JSON.stringify] that
    throws on a BigInt, and a one-entry trust list. *)

Module Fixture.

Definition byte_of_N (n : N) : byte := default "000"%byte (Byte.of_N n).

Definition string_of_bytes (b : list byte) : string :=
  string_of_list_ascii (map ascii_of_byte b).
Definition bytes_of_string (s : string) : list byte :=
  map byte_of_ascii (list_ascii_of_string s).

Module Base45.
Definition alphabet : string := "0123456789ABCDEFGHIJKLMNOPQRSTUVWXYZ $%*+-./:".

Definition digit (n : N) : ascii :=
  match String.get (N.to_nat n) alphabet with
  | Some c => c
  | None => "0"%char
  end.

Fixpoint index_in (s : string) (c : ascii) : option N :=
  match s with
  | EmptyString => None
  | String d s' =>
      if Ascii.eqb c d then Some 0%N else N.succ <$> index_in s' c
  end.

Definition val (c : ascii) : option N := index_in alphabet c.

Fixpoint encode (b : list byte) : string :=
  match b with
  | [] => ""
  | [x] =>
      let n := Byte.to_N x in
      String (digit (n mod 45)) (String (digit (n / 45)) "")
  | x :: y :: rest =>
      let n := (Byte.to_N x * 256 + Byte.to_N y)%N in
      String (digit (n mod 45))
        (String (digit (n / 45 mod 45)) (String (digit (n / 2025)) (encode rest)))
  end.

Fixpoint decode (s : string) : string + list byte :=
  match s with
  | EmptyString => inr []
  | String _ EmptyString => inl "input has incorrect length."
  | String c (String d EmptyString) =>
      match val c, val d with
      | Some c, Some d =>
          let n := (c + 45 * d)%N in
          if (n <? 256)%N then inr [byte_of_N n] else inl "Invalid base45 value."
      | _, _ => inl "Invalid character."
      end
  | String c (String d (String e rest)) =>
      match val c, val d, val e with
      | Some c, Some d, Some e =>
          let n := (c + 45 * d + 2025 * e)%N in
          if (n <? 65536)%N then
            match decode rest with
            | inr tail => inr (byte_of_N (n / 256) :: byte_of_N (n mod 256) :: tail)
            | inl msg => inl msg
            end
          else inl "Invalid base45 value."
      | _, _, _ => inl "Invalid character."
      end
  end.
End Base45.

Module Zlib.
Definition adler32 (data : list byte) : N :=
  let '(a, b) :=
    fold_left (fun '(a, b) x =>
                 let a' := ((a + Byte.to_N x) mod 65521)%N in
                 (a', ((b + a') mod 65521)%N))
              data (1%N, 0%N) in
  (b * 65536 + a)%N.

Definition be32 (n : N) : list byte :=
  [ byte_of_N (n / 16777216); byte_of_N (n / 65536 mod 256);
    byte_of_N (n / 256 mod 256); byte_of_N (n mod 256) ]%N.

(** Where the reading of a stream stands when its input is used up. *)
Inductive outcome (A : Type) : Type :=
| Done (a : A)
| Pending          (* the input ends before the stream does *)
| Invalid.         (* the input is not a stream of stored blocks *)
Arguments Done {A} a.
Arguments Pending {A}.
Arguments Invalid {A}.

(** Stored blocks, one after the other, until the final one. *)
Fixpoint blocks (fuel : nat) (b : list byte) : outcome (list byte * list byte) :=
  match fuel with
  | O => Invalid
  | S fuel' =>
      match b with
      | [] => Pending
      | hdr :: lengths =>
          let hdr := Byte.to_N hdr in
          if negb (hdr / 2 mod 4 =? 0)%N then Invalid      (* not a stored block *)
          else
            match lengths with
            | l0 :: l1 :: n0 :: n1 :: rest =>
                let len := (Byte.to_N l0 + 256 * Byte.to_N l1)%N in
                let nlen := (Byte.to_N n0 + 256 * Byte.to_N n1)%N in
                if negb (len + nlen =? 65535)%N then Invalid
                else if (N.of_nat (length rest) <? len)%N then Pending
                else
                  let data := take (N.to_nat len) rest in
                  let rest := drop (N.to_nat len) rest in
                  if (hdr mod 2 =? 1)%N then Done (data, rest)
                  else
                    match blocks fuel' rest with
                    | Done (more, rest') => Done ((data ++ more)%list, rest')
                    | Pending => Pending
                    | Invalid => Invalid
                    end
            | _ => Pending
            end
      end
  end.

(** [inflate(b)]: [None] when it throws. *)
Definition inflate (b : list byte) : option value :=
  match b with
  | cmf :: flg :: rest =>
      let cmf := Byte.to_N cmf in
      let flg := Byte.to_N flg in
      if negb ((cmf * 256 + flg) mod 31 =? 0)%N then None
      else if negb (cmf mod 16 =? 8)%N then None
      else if (7 <? cmf / 16)%N then None
      else if negb (flg / 32 mod 2 =? 0)%N then None
      else
        match blocks (S (length rest)) rest with
        | Done (data, trailer) =>
            if (length trailer <? 4)%nat then Some VUndefined
            else if decide (map Byte.to_N (take 4 trailer)
                            = map Byte.to_N (be32 (adler32 data)))
            then Some (VBytes data) else None
        | Pending => Some VUndefined
        | Invalid => None
        end
  | _ => Some VUndefined
  end.

(** One stored block; for at most 65535 bytes. *)
Definition deflate (data : list byte) : list byte :=
  let len := N.of_nat (length data) in
  let nlen := (65535 - len)%N in
  ([ "x"%byte; byte_of_N 1; byte_of_N 1;
     byte_of_N (len mod 256); byte_of_N (len / 256);
     byte_of_N (nlen mod 256); byte_of_N (nlen / 256) ]
   ++ data ++ be32 (adler32 data))%list.
End Zlib.

Module Cbor.
Fixpoint be (acc : N) (b : list byte) : N :=
  match b with
  | [] => acc
  | x :: rest => be (acc * 256 + Byte.to_N x)%N rest
  end.

(** The argument of an initial byte: the additional information itself
    below 24, else the next 1, 2, 4 or 8 bytes. *)
Definition argument (info : N) (b : list byte) : option (N * list byte) :=
  let read (k : nat) :=
    if (length b <? k)%nat then None else Some (be 0 (take k b), drop k b) in
  if (info <? 24)%N then Some (info, b)
  else if (info =? 24)%N then read 1%nat
  else if (info =? 25)%N then read 2%nat
  else if (info =? 26)%N then read 4%nat
  else if (info =? 27)%N then read 8%nat
  else None.

Definition same_key (a b : value) : bool :=
  match a, b with
  | VNum x, VNum y => x =? y
  | VStr x, VStr y => String.eqb x y
  | VBool x, VBool y => Bool.eqb x y
  | VNull, VNull | VUndefined, VUndefined => true
  | _, _ => false
  end.

(** [map.set(k, v)] and [obj[k] = v] *)
Fixpoint map_set (entries : list (value * value)) (k v : value) :=
  match entries with
  | [] => [(k, v)]
  | (k', v') :: rest =>
      if same_key k' k then (k', v) :: rest else (k', v') :: map_set rest k v
  end.

Fixpoint obj_set (fields : list (string * value)) (k : string) (v : value) :=
  match fields with
  | [] => [(k, v)]
  | (k', v') :: rest =>
      if String.eqb k' k then (k', v) :: rest else (k', v') :: obj_set rest k v
  end.

Fixpoint pairs (l : list value) : list (value * value) :=
  match l with
  | k :: v :: rest => (k, v) :: pairs rest
  | _ => []
  end.

Definition string_key (kv : value * value) : option (string * value) :=
  match kv with
  | (VStr k, v) => if String.eqb k "__proto__" then None else Some (k, v)
  | _ => None
  end.

Definition build_map (kvs : list (value * value)) : value :=
  match mapM string_key kvs with
  | Some fields => VObj (fold_left (fun o '(k, v) => obj_set o k v) fields [])
  | None => VMap (fold_left (fun m '(k, v) => map_set m k v) kvs [])
  end.

Fixpoint decode_item (fuel : nat) (b : list byte) : option (value * list byte) :=
  match fuel with
  | O => None
  | S fuel' =>
      let items :=
        fix items (n : nat) (b : list byte) : option (list value * list byte) :=
          match n with
          | O => Some ([], b)
          | S n' =>
              match decode_item fuel' b with
              | Some (v, b') =>
                  match items n' b' with
                  | Some (vs, b'') => Some (v :: vs, b'')
                  | None => None
                  end
              | None => None
              end
          end in
      match b with
      | [] => None
      | ib :: rest =>
          let major := (Byte.to_N ib / 32)%N in
          let info := (Byte.to_N ib mod 32)%N in
          match argument info rest with
          | None => None
          | Some (arg, rest) =>
              match major with
              | 0%N => Some (VNum (Z.of_N arg), rest)
              | 1%N => Some (VNum (-1 - Z.of_N arg), rest)
              | 2%N =>
                  if (N.of_nat (length rest) <? arg)%N then None
                  else Some (VBytes (take (N.to_nat arg) rest), drop (N.to_nat arg) rest)
              | 3%N =>
                  if (N.of_nat (length rest) <? arg)%N then None
                  else Some (VStr (string_of_bytes (take (N.to_nat arg) rest)),
                             drop (N.to_nat arg) rest)
              | 4%N =>
                  match items (N.to_nat arg) rest with
                  | Some (vs, rest') => Some (VArr vs, rest')
                  | None => None
                  end
              | 5%N =>
                  match items (2 * N.to_nat arg)%nat rest with
                  | Some (vs, rest') => Some (build_map (pairs vs), rest')
                  | None => None
                  end
              | 6%N =>
                  match decode_item fuel' rest with
                  | Some (v, rest') => Some (VTagged (Z.of_N arg) v, rest')
                  | None => None
                  end
              | _ =>
                  if (info =? 20)%N then Some (VBool false, rest)
                  else if (info =? 21)%N then Some (VBool true, rest)
                  else if (info =? 22)%N then Some (VNull, rest)
                  else if (info =? 23)%N then Some (VUndefined, rest)
                  else None
              end
          end
      end
  end.

Definition decodeFirst (input : value) : string + value :=
  match input with
  | VBytes b =>
      match decode_item (S (length b)) b with
      | Some (v, _) => inr v
      | None => inl "Insufficient data"
      end
  | _ => inl "Unknown input type"
  end.
End Cbor.

(** The required properties of the certificate schema.  [validate] stops
    at the first violation, as a validator made by [new Ajv()] does;
    [validate_all] goes on and reports every violation, as one made with
    the option [allErrors] would. *)
Module Schema.
Definition missing (o : value) (p : string) : bool :=
  match o with
  | VObj fields => match assoc fields p with VUndefined => true | _ => false end
  | _ => true
  end.

Definition required (o : value) (props : list string) : list ErrorObject :=
  match filter (fun p => Is_true (missing o p)) props with
  | [] => []
  | p :: _ => [ {| message_of := Some ("must have required property '" +:+ p +:+ "'") |} ]
  end.

Definition validate (data : value) : bool * option (list ErrorObject) :=
  match data with
  | VObj fields =>
      match required data ["ver"; "nam"; "dob"] with
      | [] =>
          match required (assoc fields "nam") ["fnt"] with
          | [] => (true, None)
          | errs => (false, Some errs)
          end
      | errs => (false, Some errs)
      end
  | _ => (false, Some [ {| message_of := Some "must be object" |} ])
  end.


End Schema.

Definition from_bytes (v : value) : string + list byte :=
  match v with
  | VBytes b => inr b
  | VStr s => inr (bytes_of_string s)
  | _ => inl "The first argument must be of type string or an instance of Buffer, ArrayBuffer, or Array or an Array-like Object."
  end.

(** [Date.prototype.toISOString] for the years 0000 to 9999, with the
    civil date computed from the day count since 1970-01-01. *)
Definition digit_char (d : Z) : ascii := ascii_of_N (Z.to_N (48 + d mod 10)).

Fixpoint padded (width : nat) (n : Z) (acc : string) : string :=
  match width with
  | O => acc
  | S w => padded w (n / 10) (String (digit_char n) acc)
  end.

Definition iso_string (ms : Z) : string :=
  let days := ms / 86400000 in
  let rest := ms mod 86400000 in
  let z := days + 719468 in
  let era := z / 146097 in
  let doe := z - era * 146097 in
  let yoe := (doe - doe / 1460 + doe / 36524 - doe / 146096) / 365 in
  let doy := doe - (365 * yoe + yoe / 4 - yoe / 100) in
  let mp := (5 * doy + 2) / 153 in
  let d := doy - (153 * mp + 2) / 5 + 1 in
  let m := if mp <? 10 then mp + 3 else mp - 9 in
  let y := yoe + era * 400 + (if m <=? 2 then 1 else 0) in
  padded 4 y ("-" +:+ padded 2 m ("-" +:+ padded 2 d ("T" +:+
    padded 2 (rest / 3600000) (":" +:+ padded 2 (rest / 60000 mod 60) (":" +:+
      padded 2 (rest / 1000 mod 60) ("." +:+ padded 3 (rest mod 1000) "Z")))))).

Definition trusted_kid : list byte :=
  map byte_of_N [0; 1; 2; 3; 4; 5; 6; 7]%N.

Definition trusted_pem : string :=
  "-----BEGIN CERTIFICATE-----MIIBfixture-----END CERTIFICATE-----".

Definition trusted_cert : X509Certificate :=
  {| x_serialNumber := "01";
     x_subject := "CN=DSC, C=FR";
     x_issuer := "CN=CSCA, C=FR";
     x_notBefore := 1609459200000;     (* 2021-01-01T00:00:00Z *)
     x_notAfter := 1704067200000;      (* 2024-01-01T00:00:00Z *)
     x_signatureAlgorithm := "ECDSA";
     x_signature := map byte_of_N [48; 6; 2; 1; 1; 2; 1; 1]%N;
     x_publicKeyAlgorithm := "ECDSA" |}.

Definition trusted_key : CryptoKey :=
  {| key_material := map byte_of_N [4; 17; 34; 51]%N |}.

Definition parse_pem (pem : value) : string + X509Certificate :=
  match pem with
  | VStr s => if String.eqb s trusted_pem then inr trusted_cert
              else inl "Cannot decode PEM"
  | _ => inl "Unsupported input type"
  end.

(** Stands for the signature check: a document verifies under the trusted
    key when it ends with the four bytes [SIG1]. *)
Definition check_signature (raw : value) (key : CryptoKey) : string + unit :=
  match raw with
  | VBytes raw =>
      if decide (map Byte.to_N (key_material key)
                 = map Byte.to_N (key_material trusted_key)
                 /\ map Byte.to_N (drop (length raw - 4) raw) = [83; 73; 71; 49]%N)
      then inr tt else inl "Signature missmatch"
  | _ => inl "Unknown input type"
  end.

(** The integers that the CBOR decoder delivers as BigInt. *)
Definition is_BigInt (n : Z) : bool :=
  (9007199254740992 <=? n) || (n <? -9007199254740992).

(** Whether [JSON.stringify] meets a BigInt: it goes through arrays, plain
    objects and tagged items; a Map has no property of its own to go
    through. *)
Fixpoint holds_BigInt (v : value) : bool :=
  match v with
  | VNum n => is_BigInt n
  | VArr items => existsb holds_BigInt items
  | VObj fields => existsb (fun kv => let '(_, x) := kv in holds_BigInt x) fields
  | VTagged _ x => holds_BigInt x
  | _ => false
  end.

Definition record_holds_BigInt (dgc : UnsafeDGC) : bool :=
  holds_BigInt (hcert dgc) || holds_BigInt (issuer dgc)
  || holds_BigInt (issuedAt dgc) || holds_BigInt (expiresAt dgc).

(** The text itself is shortened to the key identifier, or the code. *)
Definition stringify_record (dgc : UnsafeDGC) : option string :=
  if record_holds_BigInt dgc then None else Some ("{kid:" +:+ kid dgc +:+ "}").

Definition stringify_certificate (cert : DGC) : option string :=
  if record_holds_BigInt (unsafe cert) then None
  else Some ("{code:" +:+ code cert +:+ "}").

Definition env (now : Z) : Env :=
  {| decodeb45 := Base45.decode;
     inflate := Zlib.inflate;
     cbor_decodeFirst := Cbor.decodeFirst;
     Buffer_from := from_bytes;
     ajv_validate := Schema.validate;
     DCCCerts := {[ toString_base64 trusted_kid := trusted_pem ]};
     new_X509Certificate := parse_pem;
     publicKey_export := fun _ => inr trusted_key;
     getThumbprint := fun _ => inr (map byte_of_N [171; 205]%N);
     publicKey_getThumbprint := fun _ => inr (map byte_of_N [239; 1]%N);
     exportKey_spki := fun k => inr (key_material k);
     verify := check_signature;
     Date_now := now;
     toISOString := iso_string;
     JSON_stringify_tab := stringify_record;
     JSON_stringify := stringify_certificate;
     ToNumber_other := fun _ => None |}.


Definition trusted_dsc : DSC.t :=
  {| DSC.serialNumber := "01";
     DSC.subject := "CN=DSC, C=FR";
     DSC.issuer := "CN=CSCA, C=FR";
     DSC.notBefore := "2021-01-01T00:00:00.000Z";
     DSC.notAfter := "2024-01-01T00:00:00.000Z";
     DSC.signatureAlgorithm := "ECDSA";
     DSC.fingerprint := "abcd";
     DSC.signature := "MAYCAQECAQE=";
     DSC.publicKeyAlgorithm := "ECDSA";
     DSC.publicKeyFingerprint := "ef01";
     DSC.publicKeyPem :=
       "-----BEGIN PUBLIC KEY-----" +:+ LF +:+ "BBEiMw==" +:+ LF
         +:+ "-----END PUBLIC KEY-----" |}.

(** A verified certificate around a given body. *)
Definition verified (body : value) : DGC :=
  {| unsafe := {| hcert := body;
                  kid := toString_base64 trusted_kid;
                  issuer := VStr "FR";
                  issuedAt := VNum 1619827200;
                  expiresAt := VNum 1682899200 |};
     certificate := trusted_dsc;
     code := "HC1:" |}.

(** The instant at which the documents below are scanned:
    2021-07-01T00:00:00Z. *)
Definition scan_time : Z := 1625097600000.

(** The envelope of a document, as transport decoding returns it. *)
Definition raw_of (doc : string) : value :=
  match extractCoseFromQRCode (env scan_time) doc with
  | inr raw => raw
  | inl _ => VUndefined
  end.

(** Its bytes. *)
Definition bytes_of (doc : string) : list byte :=
  match raw_of doc with
  | VBytes raw => raw
  | _ => []
  end.

(** A vaccination certificate signed by the trusted key, issued on
    2021-05-01 and expiring on 2023-05-01. *)
Definition doc_valid : string :=
  "HC1:RRQT 9O60GO0100KB0*M0DY08CKV*Q*702+8WY0B9C4LJFN0TUCV50D97TK0F90$PC5$CUZC$$5Y$5TPCBEC7ZKW.CWOC/0ALPCG/DWOC/0A JC0/DJH9C+9MPCG/DOUCNB8XY8GVC*JC1A6FA73W5Y96746KECTHG4KCD3DX47B46IL6646H*6Z/E5JD%96IA74R6646307Q$D.UDRYA 96NF6L/5SW6Y57B$D% D3IA4W5646946846.96XJC$+D3KC.SCXJCCWENF6OF63W5NW6746WJCT3E2+8%JCKQE+M8MB8WJC:EDHZA1+9LZAZM81G72A62+8IG7/G8HS80*8CA6 NA009".

(** The same body, signed by a key that is not in the trust list and
    expired since 2021-06-01. *)
Definition doc_expired_unknown : string :=
  "HC1:RRQT 9O60GO0Z6S96OX507H08CKV*Q*702+8WY0B9C4LJFN07ACNAFD97TK0F90$PC5$CUZC$$5Y$5TPCBEC7ZKW.CWOC/0ALPCG/DWOC/0A JC0/DJH9C+9MPCG/DOUCNB8XY8GVC*JC1A6FA73W5Y96746KECTHG4KCD3DX47B46IL6646H*6Z/E5JD%96IA74R6646307Q$D.UDRYA 96NF6L/5SW6Y57B$D% D3IA4W5646946846.96XJC$+D3KC.SCXJCCWENF6OF63W5NW6746WJCT3E2+8%JCKQE+M8MB8WJC:EDHZA1+9LZAZM81G72A62+8IG7/G8HS80*8CA6 NA009".

(** The same body and dates as [doc_valid], signed by the unknown key. *)
Definition doc_unknown : string :=
  "HC1:RRQT 9O60GO0Z6S96OX507H08CKV*Q*702+8WY0B9C4LJFN0TUCV50D97TK0F90$PC5$CUZC$$5Y$5TPCBEC7ZKW.CWOC/0ALPCG/DWOC/0A JC0/DJH9C+9MPCG/DOUCNB8XY8GVC*JC1A6FA73W5Y96746KECTHG4KCD3DX47B46IL6646H*6Z/E5JD%96IA74R6646307Q$D.UDRYA 96NF6L/5SW6Y57B$D% D3IA4W5646946846.96XJC$+D3KC.SCXJCCWENF6OF63W5NW6746WJCT3E2+8%JCKQE+M8MB8WJC:EDHZA1+9LZAZM81G72A62+8IG7/G8HS80*8CA6 NA009".

(** An envelope with the trusted key identifier whose body is the empty
    object. *)
Definition doc_schema_invalid : string :=
  "HC1:RRQT 9O60GO0100KB0*M0DY07CK0XK3JCSGA2F3*YH4006F3K:9C10Y50.FKXBK NA009".

(** An envelope with the trusted key identifier whose payload is cut after
    the header of a one-entry map. *)
Definition doc_truncated : string :=
  "HC1:RRQT 9O60GO0100KB0*M0DY0UBKJHK NA009".

(** The body and dates of [doc_valid] under the six-byte key identifier
    b6 84 ad ae 29 e0, which reads [toString] in base64. *)
Definition doc_inherited : string :=
  "HC1:RRQCP9O60EO0E3N2/LAD58CKV*Q*702+8WY0B9C4LJFN0TUCV50D97TK0F90$PC5$CUZC$$5Y$5TPCBEC7ZKW.CWOC/0ALPCG/DWOC/0A JC0/DJH9C+9MPCG/DOUCNB8XY8GVC*JC1A6FA73W5Y96746KECTHG4KCD3DX47B46IL6646H*6Z/E5JD%96IA74R6646307Q$D.UDRYA 96NF6L/5SW6Y57B$D% D3IA4W5646946846.96XJC$+D3KC.SCXJCCWENF6OF63W5NW6746WJCT3E2+8%JCKQE+M8MB8WJC:EDHZA1+9LZAZM81G72A62+8IG7/G8HS80*8CA6 NA009".

(** [doc_valid] with the expiration claim set to 0. *)
Definition doc_zero_exp : string :=
  "HC1:RRQT 9O60GO0100KB0*M0DY08CK.GQ*702+8WY0B9C4LJYM0D97TK0F90$PC5$CUZC$$5Y$5TPCBEC7ZKW.CWOC/0ALPCG/DWOC/0A JC0/DJH9C+9MPCG/DOUCNB8XY8GVC*JC1A6FA73W5Y96746KECTHG4KCD3DX47B46IL6646H*6Z/E5JD%96IA74R6646307Q$D.UDRYA 96NF6L/5SW6Y57B$D% D3IA4W5646946846.96XJC$+D3KC.SCXJCCWENF6OF63W5NW6746WJCT3E2+8%JCKQE+M8MB8WJC:EDHZA1+9LZAZM81G72A62+8IG7/G8HS80*8CA6 NA009".

End Fixture.

(** * The remote validation endpoint and the printed ticket

    [src/routes/api/validate_pass.ts] and [src/lib/ticket.ts]. *)

Module ValidatePass.

(** The JSON body of a request; a missing property reads [undefined]. *)
Record Input : Type := { code : option string; key : option string }.

Record Person : Type := {
  person_first_name : value;
  person_last_name : value;
  person_date_of_birth : Date
}.

(** The body of a response; each property may be left out. *)
Record Output : Type := {
  validated : option bool;
  error : option string;
  person : option Person
}.

Record Response : Type := { status : Z; body : Output }.

(** What the endpoint imports: the variable [ACCEPTED_KEYS] of the process
    environment, and [parse_any] and [findCertificateError] of
    [detect_certificate], which is not among the sources.  A call that
    throws yields, on the left, the [message] property of what it throws
    ([None] when there is none). *)
Record Deps : Type := {
  env_ACCEPTED_KEYS : option string;
  parse_any : string -> option string + CommonCertificateInfo;
  findCertificateError : CommonCertificateInfo -> option string + option string
}.

(** [s.split(',')] *)
Fixpoint split_commas (s : string) : list string :=
  match s with
  | EmptyString => [""]
  | String c s' =>
      if Ascii.eqb c ","%char then "" :: split_commas s'
      else match split_commas s' with
           | x :: rest => String c x :: rest
           | [] => [String c ""]
           end
  end.

(** [!s] on a string or [undefined] *)
Definition absent (s : option string) : bool :=
  match s with
  | None => true
  | Some x => String.eqb x ""
  end.

(** [new Set((process.env['ACCEPTED_KEYS'] || '').split(','))] *)
Definition ACCEPTED_KEYS (D : Deps) : list string :=
  split_commas (if absent (env_ACCEPTED_KEYS D) then ""
                else default "" (env_ACCEPTED_KEYS D)).

(** [ACCEPTED_KEYS.has(key)] *)
Definition has (keys : list string) (k : string) : bool :=
  existsb (String.eqb k) keys.

(** The handler.  The usage record it asks to be saved is neither awaited
    nor read, and is left out. *)
Definition post (D : Deps) (input : Input) : Response :=
  if absent (code input) || absent (key input) then
    {| status := 400;
       body := {| validated := None;
                  error := Some "Expected JSON body parameters: {code: string, key: string }";
                  person := None |} |}
  else
    let code := default "" (code input) in
    let key := default "" (key input) in
    if negb (has (ACCEPTED_KEYS D) key) then
      {| status := 403;
         body := {| validated := None;
                    error := Some ("Invalid API key '" +:+ key
                                     +:+ "'. contact@ophir.dev to get an API key.");
                    person := None |} |}
    else
      let '(error, person) :=
        match parse_any D code with
        | inr parsed =>
            let person :=
              Some {| person_first_name := first_name (common_of parsed);
                      person_last_name := last_name (common_of parsed);
                      person_date_of_birth := date_of_birth (common_of parsed) |} in
            match findCertificateError D parsed with
            | inr error => (error, person)
            | inl message => (message, person)
            end
        | inl message => (message, None)
        end in
      (* if (!error) validated = true *)
      {| status := 200;
         body := {| validated := Some (absent error);
                    error := error;
                    person := person |} |}.

End ValidatePass.

Module Ticket.

(** [header] and [footer] may be left out or [null]; the test
    [undefined != x] tells neither apart, and [None] stands for both. *)
Record TicketConfig : Type := {
  print : bool;
  header : option string;
  footer : option string
}.

Definition DQUOTE : string := String (ascii_of_nat 34) "".

Definition style_and_body_open : string :=
  join LF
    [ "";
      ("<style type=" +:+ DQUOTE +:+ "text/css" +:+ DQUOTE +:+ ">");
      "  body{";
      "    width: 90mm;";
      "  }";
      "  p{";
      "    padding: 0;";
      "    margin: 1mm;";
      "  }";
      "  input{";
      "    border: none;";
      "    border-bottom: 0.5mm dotted black;";
      "    width: 50mm;";
      "  }";
      "  article{";
      "    margin: 2mm 0;";
      "  }";
      "  header pre,";
      "  footer pre{";
      "    text-align: center;";
      "  }";
      "</style>";
      "";
      "<body>";
      "  " ].

Definition article_open : string :=
  join LF
    [ "";
      "  <article>";
      "    <p>👤 " ].

Definition article_birth : string :=
  join LF
    [ "</p>";
      "    <p>🎂 Né(e) le " ].

Definition article_checked : string :=
  join LF
    [ "</p>";
      "    <p>📱 Tél: <input></p>";
      "    <p>✓ Vérifié le " ].

Definition article_close : string :=
  join LF
    [ "</p>";
      "  </article>";
      "  " ].

Definition body_close : string :=
  join LF
    [ "";
      "</body>";
      "" ].

(** [getTicketHtml(name, date_of_birth, config)]; [checked] is the text of
    [new Date().toLocaleString('fr-FR')].  Reading [config.header] of a
    missing [config] is a TypeError. *)
Definition getTicketHtml (checked : string) (name date_of_birth : string)
    (config : option TicketConfig) : result string :=
  let html := style_and_body_open in
  match config with
  | None => throw TypeError
  | Some config =>
      let html :=
        match header config with
        | Some h => html +:+ "<header><pre>" +:+ h +:+ "</pre></header>"
        | None => html
        end in
      let html :=
        html +:+ article_open +:+ name +:+ article_birth +:+ date_of_birth
          +:+ article_checked +:+ checked +:+ article_close in
      let html :=
        match footer config with
        | Some f => html +:+ "<footer><pre>" +:+ f +:+ "</pre></footer>"
        | None => html
        end in
      ret (html +:+ body_close)
  end.

(** What the printing window is asked to do. *)
Inductive Effect : Type :=
| SetTitle (title : string)      (* [printingWindow.document.title = ...] *)
| SetBody (html : string)        (* [printingWindow.document.body.innerHTML = ...] *)
| Print                          (* [printingWindow.print()] *)
| Close.                         (* [printingWindow.close()] *)

(** The handler that [printTicket] puts in [printingWindow.onload], run at
    a time that reads [checked]: what it has done to the window when it
    ends, and the exception it ends with, if any. *)
Definition onload (name date_of_birth : string) (config : option TicketConfig)
    (checked : string) : list Effect * option exn :=
  match getTicketHtml checked name date_of_birth config with
  | inl e => ([SetTitle "Sanipasse impression"], Some e)
  | inr html => ([SetTitle "Sanipasse impression"; SetBody html; Print; Close], None)
  end.

(** [printTicket(name, date_of_birth, config)].  A missing [config] is
    warned about on the console and passed on as it is.  [opened] tells
    whether [window.open] returns a window: it returns [null] otherwise,
    and setting [onload] on [null] is a TypeError.  The function returns
    once the handler is installed; the handler runs later, if ever. *)
Definition printTicket (opened : bool) (name date_of_birth : string)
    (config : option TicketConfig) : result (string -> list Effect * option exn) :=
  if opened then ret (onload name date_of_birth config)
  else throw TypeError.

End Ticket.

(** ** The certificate view ([routes/_Certificate.svelte]) *)

Module CertificateView.

(** What the view takes from the browser. *)
Record Browser : Type := {
  toLocaleLowerCase : string -> string;
  ToString_other : value -> string;         (* ToString of what is not a string *)
  toLocaleDateString : Date -> string;      (* with the locale [fr] *)
  window_open : bool                        (* whether [window.open] returns a window *)
}.

(** [" " + v] appends the text of [v]. *)
Definition ToString (B : Browser) (v : value) : string :=
  match v with VStr s => s | _ => ToString_other B v end.

(** [info.type === 'vaccination' ? '💉' : '🧪'] *)
Definition emoji (info : CommonCertificateInfo) : string :=
  if String.eqb (type_of info) "vaccination" then "💉" else "🧪".

(** The heading of the view. *)
Definition heading (info : CommonCertificateInfo) : string :=
  if String.eqb (type_of info) "vaccination" then "Vaccin"
  else if String.eqb (type_of info) "test" then "Test de dépistage"
  else "Certificat de rétablissement".

(** [launchPrint()]: nothing when the ticket is already printed ([None]);
    otherwise the outcome of [printTicket], called with a name and a date
    and no configuration. *)
Definition launchPrint (B : Browser) (info : CommonCertificateInfo)
    (allreadyPrinted : bool)
  : option (result (string -> list Ticket.Effect * option exn)) :=
  (* check if allready printed or not *)
  if allreadyPrinted then None
  else
    Some (let* lower :=
            match first_name (common_of info) with
            | VStr s => ret (toLocaleLowerCase B s)
            | _ => throw TypeError
            end in
          Ticket.printTicket (window_open B)
            (lower +:+ " " +:+ ToString B (last_name (common_of info)))
            (toLocaleDateString B (date_of_birth (common_of info)))
            None).

End CertificateView.

(** * Vocabulary of the statements *)

(** ** Classes of failure *)

(** Failures are classed by where they are raised, not by the class of
    the object thrown: what a package throws may well be a plain [Error]
    object, as with cosette. *)
Inductive error_class : Type :=
| ModuleError           (* [throw Error(...)] of this module, told apart by
                           its message only *)
| RuntimeTypeError
| PackageError          (* thrown inside a package *)
| IssuedInFuture
| Expired
| UnknownKid
| InvalidCertificate.

Definition class_of (e : exn) : error_class :=
  match e with
  | Error _ => ModuleError
  | TypeError => RuntimeTypeError
  | Thrown _ _ => PackageError
  | DgcIssuedInFutureError _ => IssuedInFuture
  | ExpiredDgcError _ => Expired
  | UnknownKidError _ => UnknownKid
  | InvalidCertificateError _ => InvalidCertificate
  end.

Definition raises {A} (r : result A) (c : error_class) : Prop :=
  exists e, r = inl e /\ class_of e = c.

(** ** Temporal claims *)

(** A temporal claim as the decoder records it: a number, or [null]. *)
Definition recorded (claim : option Z) : value :=
  match claim with Some n => VNum n | None => VNull end.

Definition claims_record (h : value) (k : string) (iss : value)
    (issued_at expires_at : option Z) : UnsafeDGC :=
  {| hcert := h; kid := k; issuer := iss;
     issuedAt := recorded issued_at; expiresAt := recorded expires_at |}.

(** The clock of [verifyDGCClaims], in seconds. *)
Definition now_seconds (E : Env) : Z := Date_now E / 1000.

Definition issued_in_future (E : Env) (issued_at : option Z) : Prop :=
  exists i, issued_at = Some i /\ now_seconds E < i.

Definition is_expired (E : Env) (expires_at : option Z) : Prop :=
  exists x, expires_at = Some x /\ x < now_seconds E.

(** ** Texts *)



(** ** The successive parts of [unsafeDGCFromCoseData] *)

Section Parts.

Variable E : Env.

(** Top-level item, its shape, and the protected headers: yields the
    decoded headers and the still encoded payload. *)
Definition decode_envelope (rawCoseData : value) : result (value * value) :=
  let* coseData := from_lib LCbor (cbor_decodeFirst E rawCoseData) in
  let* coseValue := get_opt coseData "value" in
  if js_not coseValue || negb (isArray coseValue)
     || negb (Z.of_nat (length (items_of coseValue)) =? 4) then
    throw (Error "Unexpected COSE data. DGC is probably invalid.")
  else
    let* phdrs := from_lib LCbor (cbor_decodeFirst E (item coseValue 0)) in
    ret (phdrs, item coseValue 2).

Definition extract_kid (phdrs : value) : result string :=
  let* rawKid := map_get phdrs COSE_HEADERS.KID in
  if js_not rawKid then
    throw (Error "Cannot find a KID in COSE Data. DGC is probably invalid.")
  else
    let* kidBuffer := from_lib LBuffer (Buffer_from E rawKid) in
    ret (toString_base64 kidBuffer).

(** The claims map and the certificate body found in it. *)
Definition decode_claims (cosePayload : value) : result (value * value) :=
  let* cborData := from_lib LCbor (cbor_decodeFirst E cosePayload) in
  let* outer := map_get cborData CWT_CLAIMS.HCERT in
  let* inner := map_get_opt outer 1 in
  ret (cborData, js_or inner (VObj [])).

Definition validate_schema (hcert : value) : result unit :=
  let '(hcertValid, errors) := ajv_validate E hcert in
  if negb hcertValid then
    throw (Error ("DGC validation failed:" +:+ LF +:+ validationErrors errors +:+ "."))
  else ret tt.

(** [cborData.get(n)] on the claims map. *)
Definition claim (cborData : value) (n : Z) : value :=
  match cborData with VMap entries => map_find entries n | _ => VUndefined end.

Definition unverified (kid : string) (cborData hcert : value) : UnsafeDGC :=
  {| hcert := hcert;
     kid := kid;
     issuer := js_or (claim cborData CWT_CLAIMS.ISSUER) VNull;
     issuedAt := js_or (claim cborData CWT_CLAIMS.ISSUED_AT) VNull;
     expiresAt := js_or (claim cborData CWT_CLAIMS.EXPIRATION) VNull |}.

End Parts.

(** ** Certificate bodies *)

Module HCert.
(** Modelled from the spec: the type [HCert] of a certificate body is
    declared in [digital_green_certificate_types.ts], which is not among
    the sources.  The record has the schema version, which every body
    carries, and the fields [getCertificateInfo] reads: a primary and a
    transliterated form of each name, of which only the transliterated
    family name is mandatory, the date of birth, and the three optional
    lists of vaccination, test and recovery entries.  An entry is an
    object. *)
Record Nam : Type := {
  fn : option string;
  fnt : string;
  gn : option string;
  gnt : option string
}.

Definition entry : Type := list (string * value).

Record body : Type := {
  ver : string;
  nam : Nam;
  dob : string;
  v : option (list entry);
  t : option (list entry);
  r : option (list entry)
}.



(** Reading a body off the object that the decoder delivers.  Properties
    are looked up by name, in whatever order the object has them, and
    those the type does not list are passed over. *)
Definition text (fields : list (string * value)) (p : string) : option string :=
  match assoc fields p with VStr x => Some x | _ => None end.

Definition text_opt (fields : list (string * value)) (p : string)
  : option (option string) :=
  match assoc fields p with
  | VUndefined => Some None
  | VStr x => Some (Some x)
  | _ => None
  end.

Definition entry_of (x : value) : option entry :=
  match x with VObj e => Some e | _ => None end.

Definition entries_opt (fields : list (string * value)) (p : string)
  : option (option (list entry)) :=
  match assoc fields p with
  | VUndefined => Some None
  | VArr items => Some <$> mapM entry_of items
  | _ => None
  end.

Definition of_value (x : value) : option body :=
  match x with
  | VObj fields =>
      match assoc fields "nam" with
      | VObj names =>
          ver ← text fields "ver";
          fn ← text_opt names "fn";
          fnt ← text names "fnt";
          gn ← text_opt names "gn";
          gnt ← text_opt names "gnt";
          dob ← text fields "dob";
          v ← entries_opt fields "v";
          t ← entries_opt fields "t";
          r ← entries_opt fields "r";
          Some {| ver := ver;
                  nam := {| fn := fn; fnt := fnt; gn := gn; gnt := gnt |};
                  dob := dob; v := v; t := t; r := r |}
      | _ => None
      end
  | _ => None
  end.

Definition opt_string (name : string) (o : option string) : list (string * value) :=
  match o with Some x => [(name, VStr x)] | None => [] end.

Definition opt_list (name : string) (o : option (list entry)) : list (string * value) :=
  match o with Some l => [(name, VArr (map VObj l))] | None => [] end.

(** One object that reads as the body [h]: its properties in the order of
    the type. *)
Definition to_value (h : body) : value :=
  VObj ([ ("ver", VStr (ver h));
          ("nam", VObj (opt_string "fn" (fn (nam h)) ++ [("fnt", VStr (fnt (nam h)))]
                          ++ opt_string "gn" (gn (nam h))
                          ++ opt_string "gnt" (gnt (nam h)))%list);
          ("dob", VStr (dob h)) ]
        ++ opt_list "v" (v h) ++ opt_list "t" (t h) ++ opt_list "r" (r h))%list.


End HCert.





(** ** Two bodies *)

(** A recovery certificate: no vaccination, no test, one recovery entry. *)
Definition recovery_body : HCert.body :=
  {| HCert.ver := "1.3.0";
     HCert.nam := {| HCert.fn := Some "DOE"; HCert.fnt := "DOE";
                     HCert.gn := Some "JANE"; HCert.gnt := Some "JANE" |};
     HCert.dob := "1990-01-01";
     HCert.v := None;
     HCert.t := None;
     HCert.r := Some [ [ ("tg", VStr "840539006"); ("fr", VStr "2021-03-01");
                         ("co", VStr "FR"); ("is", VStr "CNAM");
                         ("df", VStr "2021-03-12"); ("du", VStr "2021-09-01");
                         ("ci", VStr "URN:UVCI:01:FR:RECOVERY#1") ] ] |}.

(** A test certificate whose holder has no primary given name and an
    empty transliterated one. *)
Definition nameless_body : HCert.body :=
  {| HCert.ver := "1.3.0";
     HCert.nam := {| HCert.fn := None; HCert.fnt := "VAN<DER<DOE";
                     HCert.gn := None; HCert.gnt := Some "" |};
     HCert.dob := "1990-01-01";
     HCert.v := None;
     HCert.t := Some [ [ ("tg", VStr "840539006"); ("tt", VStr "LP6464-4");
                         ("sc", VStr "2021-06-30T08:00:00Z");
                         ("tr", VStr "260415000"); ("tc", VStr "LAB");
                         ("co", VStr "FR"); ("is", VStr "CNAM");
                         ("ci", VStr "URN:UVCI:01:FR:TEST#1") ] ];
     HCert.r := None |}.

(** ** The validity window of a signing certificate *)

Definition within_window (E : Env) (c : X509Certificate) : Prop :=
  x_notBefore c <= Date_now E <= x_notAfter c.

(** A later scan: 2025-01-01T00:00:00Z. *)
Definition late_scan_time : Z := 1735689600000.

(** ** Encoding for transport *)

(** The text a document is scanned from, given an encoder to base45. *)
Definition transport (encodeb45 : list byte -> string) (b : list byte) : string :=
  DGC_PREFIX +:+ encodeb45 b.

(** A byte sequence that is itself a zlib stream. *)
Definition zlib_shaped : list byte :=
  Fixture.Zlib.deflate (Fixture.bytes_of_string "abc").

(** ** Stages of the pipeline *)

Inductive Stage : Type :=
| TransportDecode          (* prefix, base45, zlib *)
| EnvelopeDecode           (* top-level item, its shape, protected headers *)
| KeyIdExtraction
| ClaimsDecode             (* the claims map inside the payload *)
| SchemaValidation
| ClaimsValidation
| TrustStoreLookup         (* with the validity window of the certificate *)
| SignatureVerification
| Normalization.

(** The order the specification gives; its structured payload decoding
    covers both the envelope and the claims map. *)
Definition specified_order : list Stage :=
  [ TransportDecode; EnvelopeDecode; ClaimsDecode; KeyIdExtraction;
    TrustStoreLookup; SignatureVerification; ClaimsValidation;
    SchemaValidation; Normalization ].

Definition performed_order : list Stage :=
  [ TransportDecode; EnvelopeDecode; KeyIdExtraction; ClaimsDecode;
    SchemaValidation; ClaimsValidation; TrustStoreLookup;
    SignatureVerification; Normalization ].

Definition available {A} (r : result A) : option A :=
  match r with inr a => Some a | inl _ => None end.

Section Stages.

Variable E : Env.
Variable doc : string.

(** What a stage works on, when the stages that produce it succeed. *)
Definition raw_data : option value :=
  available (extractCoseFromQRCode E doc).

Definition envelope : option (value * value) :=
  raw ← raw_data; available (decode_envelope E raw).

Definition key_id : option string :=
  env ← envelope; available (extract_kid E env.1).

Definition claims : option (value * value) :=
  env ← envelope; available (decode_claims E env.2).

Definition record : option UnsafeDGC :=
  kid ← key_id; c ← claims; Some (unverified kid c.1 c.2).

Definition signer : option (DSC.t * CryptoKey) :=
  dgc ← record; available (findDGCPublicKey E dgc).

(** The failure of one stage taken alone: the stage is run on its inputs,
    whatever the other checks say of the document.  A stage whose inputs
    cannot be produced cannot be run, and rejects nothing. *)
Definition stage_failure (s : Stage) : option exn :=
  match s with
  | TransportDecode => failure (extractCoseFromQRCode E doc)
  | EnvelopeDecode => raw ← raw_data; failure (decode_envelope E raw)
  | KeyIdExtraction => env ← envelope; failure (extract_kid E env.1)
  | ClaimsDecode => env ← envelope; failure (decode_claims E env.2)
  | SchemaValidation => c ← claims; failure (validate_schema E c.2)
  | ClaimsValidation => dgc ← record; failure (verifyDGCClaims E dgc)
  | TrustStoreLookup => dgc ← record; failure (findDGCPublicKey E dgc)
  | SignatureVerification =>
      raw ← raw_data; found ← signer;
      failure (from_lib LCosette (verify E raw found.2))
  | Normalization =>
      dgc ← record; found ← signer;
      failure (getCertificateInfo E
                 {| unsafe := dgc; certificate := found.1; code := doc |})
  end.

(** The failure of the earliest rejecting stage of an order. *)
Fixpoint earliest_failure (order : list Stage) : option exn :=
  match order with
  | [] => None
  | s :: rest =>
      match stage_failure s with
      | Some e => Some e
      | None => earliest_failure rest
      end
  end.

End Stages.

(** ** More documents *)

Module Documents.

(** [Fixture.doc_valid] with another key identifier in the unprotected
    headers and the four signature bytes [XXXX]. *)
Definition doc_resigned : string :=
  "HC1:RRQT 9O60GO0100KB0*M0DY00GKO99I/LU9UKB0WO0V*Q*702+8WY0B9C4LJFN0TUCV50D97TK0F90$PC5$CUZC$$5Y$5TPCBEC7ZKW.CWOC/0ALPCG/DWOC/0A JC0/DJH9C+9MPCG/DOUCNB8XY8GVC*JC1A6FA73W5Y96746KECTHG4KCD3DX47B46IL6646H*6Z/E5JD%96IA74R6646307Q$D.UDRYA 96NF6L/5SW6Y57B$D% D3IA4W5646946846.96XJC$+D3KC.SCXJCCWENF6OF63W5NW6746WJCT3E2+8%JCKQE+M8MB8WJC:EDHZA1+9LZAZM81G72A62+8IG7/G8HS80*8CA6Q7BQ7B".

(** An envelope whose claims map has an issuer and the two dates, and no
    certificate body. *)
Definition doc_no_hcert : string :=
  "HC1:RRQT 9O60GO0100KB0*M0DY01CKERK3JCSGA2F3*YH4006F3K:9N10 NA009".

(** An envelope whose claim -260 is the text [none]. *)
Definition doc_text_hcert : string :=
  "HC1:RRQT 9O60GO0100KB0*M0DY08CK*A3*702+8WY0B9C4LJFN0TUCV50D97DJ0B/D1/DVS8*B941".

(** A recovery certificate, with the body [recovery_body], and a test
    certificate, with the body [nameless_body], both signed by the trusted
    key, issued on 2021-05-01 and expiring on 2023-05-01. *)
Definition doc_recovery : string :=
  "HC1:RRQT 9O60GO0100KB0*M0DY08CK7%N*702+8WY0B9C4LJFN0TUCV50D97TK0F90$PC5$CUZC$$5Y$5TPCBEC7ZKW.CWOC/0ALPCG/DWOC/0A JC0/DJH9C+9MPCG/DOUCNB8XY8GVC*JC1A6FA73W5Y96746GECQHG4KCD3DX47B46IL6646H*6 .C6JD846Y969463W5.A6UPC3JCUIA+EDHUC8+9AZ97VC6JD846Y969464W5SG6MVC6JD846Y96F463W5.A6OPCA8FHZA1+9LZAZM81G72A62+8ZG71Y8F1AGY84CBCA6 NA009".

Definition doc_nameless : string :=
  "HC1:RRQT 9O60GO0100KB0*M0DY08CKZQN*702+8WY0B9C4LJFN0TUCV50D97TK0F90$PC5$CUZC$$5Y$5TPCBEC NKW.CDWEV+A3+9HS8$HARS8XY8I3D2WEJPCT3E5JDOA73467463W5-A6ZWE-CL9WEQDD+Q6TW6FA7C464KCAWE6T9G%6G%67W53KCZPCNF6OF63W59%69L6.SA*476461G73564KC*KETF6A46.96646B565WE+OCBB8WJCT3E2+8%JCKQE+M8MB8WJC.EDHZA1+9LZAZM81G72A62+8$G7HY8TSACA6 NA009".

(** [Fixture.doc_valid] with the issue date 2^64 - 1, in seconds: an
    integer that the CBOR decoder delivers as a BigInt. *)
Definition doc_issued_far_ahead : string :=
  "HC1:RRQT 9O60GO0100KB0*M0DY08CKKHR*702+8XY0FGWFGWFGWFGWFN0TUCV50D97TK0F90$PC5$CUZC$$5Y$5TPCBEC7ZKW.CWOC/0ALPCG/DWOC/0A JC0/DJH9C+9MPCG/DOUCNB8XY8GVC*JC1A6FA73W5Y96746KECTHG4KCD3DX47B46IL6646H*6Z/E5JD%96IA74R6646307Q$D.UDRYA 96NF6L/5SW6Y57B$D% D3IA4W5646946846.96XJC$+D3KC.SCXJCCWENF6OF63W5NW6746WJCT3E2+8%JCKQE+M8MB8WJC:EDHZA1+9LZAZM81G72A62+8IG7/G8HS80*8CA6 NA009".

(** The record decoded from a document, and the certificate made of it when
    it is verified under the trusted key. *)
Definition decoded (doc : string) : UnsafeDGC :=
  match unsafeDGCFromCoseData (Fixture.env Fixture.scan_time) (Fixture.raw_of doc) with
  | inr dgc => dgc
  | inl _ => unsafe (Fixture.verified VNull)
  end.


End Documents.

(** ** Values of a decoded record *)

(** [null], or a truthy value: what [x || null] can be. *)
Definition null_or_truthy (v : value) : bool := is_null v || truthy v.

(** The characters of a string. *)
Fixpoint chars (s : string) : list ascii :=
  match s with
  | EmptyString => []
  | String c s' => c :: chars s'
  end.

(** * Properties *)

Lemma raises_inl {A} (e : exn) (c : error_class) :
  raises (inl e : result A) c <-> class_of e = c.
Proof.
  split.
  - intros (e' & Heq & Hc). injection Heq as <-. exact Hc.
  - intros Hc. exists e. split; [reflexivity | exact Hc].
Qed.

Lemma raises_inr {A} (a : A) (c : error_class) : ~ raises (inr a : result A) c.
Proof. intros (e & Heq & _). discriminate Heq. Qed.

Ltac settle_raises :=
  unfold throw_DgcError, throw, ret in *; cbn [bind from_lib] in *;
  repeat match goal with
    | H : context [match JSON_stringify_tab ?E ?d with _ => _ end] |- _ =>
        destruct (JSON_stringify_tab E d); cbn [bind from_lib] in *
    | H : raises (inl _) _ |- _ => apply raises_inl in H; try discriminate H
    | H : raises (inr _) _ |- _ => exfalso; exact (raises_inr _ _ H)
    | H : inl _ = inr _ |- _ => discriminate H
    | H : inr _ = inl _ |- _ => discriminate H
    | |- raises (inl _) _ => apply raises_inl; reflexivity
    end.

(** [unsafeDGCFromCoseData] is the sequence of its parts. *)
Lemma unsafeDGCFromCoseData_parts (E : Env) (rawCoseData : value) :
  unsafeDGCFromCoseData E rawCoseData =
  let* '(phdrs, cosePayload) := decode_envelope E rawCoseData in
  let* kid := extract_kid E phdrs in
  let* '(cborData, hcert) := decode_claims E cosePayload in
  let* _ := validate_schema E hcert in
  ret (unverified kid cborData hcert).
Proof.
  unfold unsafeDGCFromCoseData, decode_envelope, extract_kid, decode_claims,
    validate_schema, unverified.
  destruct (from_lib LCbor (cbor_decodeFirst E rawCoseData))
    as [e|coseData]; [reflexivity|]; cbn [bind].
  destruct (get_opt coseData "value") as [e|coseValue]; [reflexivity|]; cbn [bind].
  destruct (js_not coseValue || negb (isArray coseValue)
            || negb (Z.of_nat (length (items_of coseValue)) =? 4));
    [reflexivity|].
  destruct (from_lib LCbor (cbor_decodeFirst E (item coseValue 0)))
    as [e|phdrs]; [reflexivity|]; cbn [bind ret].
  destruct (map_get phdrs COSE_HEADERS.KID) as [e|rawKid]; [reflexivity|]; cbn [bind].
  destruct (js_not rawKid); [reflexivity|].
  destruct (from_lib LBuffer (Buffer_from E rawKid)) as [e|kidBuffer];
    [reflexivity|]; cbn [bind ret].
  destruct (from_lib LCbor (cbor_decodeFirst E (item coseValue 2)))
    as [e|cborData]; [reflexivity|]; cbn [bind].
  destruct cborData; try reflexivity. cbn [map_get bind ret].
  destruct (map_get_opt (map_find entries CWT_CLAIMS.HCERT) 1) as [e|inner];
    [reflexivity|]; cbn [bind ret].
  destruct (ajv_validate E (js_or inner (VObj []))) as [[|] errors];
    reflexivity.
Qed.

(** ** Claims validation *)

Lemma verifyDGCClaims_cases (E : Env) (h : value) (k : string) (iss : value)
    (ia ea : option Z) :
  let dgc := claims_record h k iss ia ea in
  (issued_in_future E ia
   /\ verifyDGCClaims E dgc = throw_DgcError E DgcIssuedInFutureError dgc)
  \/ (~ issued_in_future E ia /\ is_expired E ea
      /\ verifyDGCClaims E dgc = throw_DgcError E ExpiredDgcError dgc)
  \/ (~ issued_in_future E ia /\ ~ is_expired E ea /\ verifyDGCClaims E dgc = inr tt).
Proof.
  intros dgc. unfold verifyDGCClaims, issued_in_future, is_expired.
  fold (now_seconds E). subst dgc. cbn [issuedAt expiresAt claims_record].
  destruct ia as [i|]; cbn [recorded is_null negb andb num_lt ToNumber].
  - destruct (Z.ltb_spec (now_seconds E) i) as [Hi|Hi].
    + left. split; [exists i; auto | reflexivity].
    + right.
      assert (Hnf : ~ (exists i0, Some i = Some i0 /\ now_seconds E < i0)).
      { intros (i0 & [= <-] & Hlt). lia. }
      destruct ea as [x|]; cbn [recorded is_null negb andb lt_num ToNumber].
      * destruct (Z.ltb_spec x (now_seconds E)) as [Hx|Hx].
        -- left. repeat split; [exact Hnf | exists x; auto].
        -- right. repeat split; [exact Hnf |].
           intros (x0 & [= <-] & Hlt). lia.
      * right. repeat split; [exact Hnf |].
        intros (x0 & Hx & _). discriminate Hx.
  - right.
    assert (Hnf : ~ (exists i0, @None Z = Some i0 /\ now_seconds E < i0)).
    { intros (i0 & Hi & _). discriminate Hi. }
    destruct ea as [x|]; cbn [recorded is_null negb andb lt_num ToNumber].
    + destruct (Z.ltb_spec x (now_seconds E)) as [Hx|Hx].
      * left. repeat split; [exact Hnf | exists x; auto].
      * right. repeat split; [exact Hnf |].
        intros (x0 & [= <-] & Hlt). lia.
    + right. repeat split; [exact Hnf |].
      intros (x0 & Hx & _). discriminate Hx.
Qed.

(** What the construction of an error of the class [DgcError] throws. *)
Lemma throw_DgcError_cases {A} (E : Env) (C : UnsafeDGC -> exn) (dgc : UnsafeDGC) :
  ((exists text, JSON_stringify_tab E dgc = Some text)
   /\ throw_DgcError E C dgc = (inl (C dgc) : result A))
  \/ (JSON_stringify_tab E dgc = None
      /\ throw_DgcError E C dgc = (inl TypeError : result A)).
Proof.
  unfold throw_DgcError. destruct (JSON_stringify_tab E dgc) as [text|];
    [left; split; [exists text|]; reflexivity | right; split; reflexivity].
Qed.

Lemma throw_DgcError_inr {A} (E : Env) (C : UnsafeDGC -> exn) (dgc : UnsafeDGC)
    (a : A) :
  throw_DgcError E C dgc <> inr a.
Proof. unfold throw_DgcError. destruct (JSON_stringify_tab E dgc); discriminate. Qed.

Lemma throw_DgcError_text {A} (E : Env) (C : UnsafeDGC -> exn) (dgc : UnsafeDGC)
    (text : string) :
  JSON_stringify_tab E dgc = Some text ->
  throw_DgcError E C dgc = (inl (C dgc) : result A).
Proof. intros H. unfold throw_DgcError. rewrite H. reflexivity. Qed.

(** Claims validation is decided by (issued_at, expires_at, now).  It
    succeeds exactly when issued_at is null or not in the future and
    expires_at is null or not in the past, in particular when both are
    null.  For a record that [JSON.stringify] accepts, it raises
    [DgcIssuedInFutureError] exactly when issued_at is set and
    now < issued_at, and [ExpiredDgcError] exactly when that is not the
    case, expires_at is set and expires_at < now; when both violations
    hold the error is [DgcIssuedInFutureError].  For a record that
    [JSON.stringify] refuses, either violation ends in its TypeError. *)
Theorem claims_validation_decision (E : Env) (h : value) (k : string)
    (iss : value) (issued_at expires_at : option Z) :
  let dgc := claims_record h k iss issued_at expires_at in
  (verifyDGCClaims E dgc = inr tt <->
   ~ issued_in_future E issued_at /\ ~ is_expired E expires_at)
  /\ verifyDGCClaims E (claims_record h k iss None None) = inr tt
  /\ (forall text, JSON_stringify_tab E dgc = Some text ->
      (raises (verifyDGCClaims E dgc) IssuedInFuture <-> issued_in_future E issued_at)
      /\ (raises (verifyDGCClaims E dgc) Expired <->
          ~ issued_in_future E issued_at /\ is_expired E expires_at)
      /\ (issued_in_future E issued_at /\ is_expired E expires_at ->
          verifyDGCClaims E dgc = inl (DgcIssuedInFutureError dgc)))
  /\ (JSON_stringify_tab E dgc = None ->
      issued_in_future E issued_at \/ is_expired E expires_at ->
      verifyDGCClaims E dgc = inl TypeError).
Proof.
  intros dgc.
  assert (Hnone : verifyDGCClaims E (claims_record h k iss None None) = inr tt).
  { destruct (verifyDGCClaims_cases E h k iss None None)
      as [[(i & Hi & _) _]|[(_ & (x & Hx & _) & _)|(_ & _ & Heq)]];
      [discriminate Hi | discriminate Hx | exact Heq]. }
  destruct (verifyDGCClaims_cases E h k iss issued_at expires_at)
    as [[Hf Heq]|[(Hnf & Hx & Heq)|(Hnf & Hnx & Heq)]];
    fold dgc in Heq; rewrite Heq.
  - split; [|split; [exact Hnone|split]].
    + unfold throw_DgcError. destruct (JSON_stringify_tab E dgc);
        (split; [discriminate | tauto]).
    + intros text Htext. rewrite (throw_DgcError_text _ _ _ _ Htext).
      repeat split; try intros Hyp; settle_raises; tauto.
    + intros Hno _. unfold throw_DgcError. rewrite Hno. reflexivity.
  - split; [|split; [exact Hnone|split]].
    + unfold throw_DgcError. destruct (JSON_stringify_tab E dgc);
        (split; [discriminate | tauto]).
    + intros text Htext. rewrite (throw_DgcError_text _ _ _ _ Htext).
      repeat split; try intros Hyp; settle_raises; tauto.
    + intros Hno _. unfold throw_DgcError. rewrite Hno. reflexivity.
  - split; [|split; [exact Hnone|split]].
    + tauto.
    + intros text _.
      repeat split; try intros Hyp; settle_raises; tauto.
    + intros _ [Hf|Hx]; contradiction.
Qed.

(** C4.  The claim fails on a record that holds a BigInt.  The document
    [Documents.doc_issued_far_ahead] decodes and passes schema validation;
    its issue date, 2^64 - 1, is in the future, and claims validation ends
    in a TypeError instead of [DgcIssuedInFutureError]: the error is thrown
    by [JSON.stringify] while the constructor of the error builds its
    message.  [parse] surfaces the same TypeError. *)
Lemma far_ahead_issue_date_raises_type_error :
  unsafeDGCFromCoseData (Fixture.env Fixture.scan_time)
    (Fixture.raw_of Documents.doc_issued_far_ahead)
  = inr (Documents.decoded Documents.doc_issued_far_ahead)
  /\ issuedAt (Documents.decoded Documents.doc_issued_far_ahead)
     = recorded (Some 18446744073709551615)
  /\ issued_in_future (Fixture.env Fixture.scan_time) (Some 18446744073709551615)
  /\ verifyDGCClaims (Fixture.env Fixture.scan_time)
       (Documents.decoded Documents.doc_issued_far_ahead) = inl TypeError
  /\ ~ raises (verifyDGCClaims (Fixture.env Fixture.scan_time)
                 (Documents.decoded Documents.doc_issued_far_ahead)) IssuedInFuture
  /\ parse (Fixture.env Fixture.scan_time) Documents.doc_issued_far_ahead
     = inl TypeError.
Proof.
  split; [vm_compute; reflexivity|].
  split; [vm_compute; reflexivity|].
  split; [eexists; split; [reflexivity | vm_compute; reflexivity]|].
  assert (Hclaims : verifyDGCClaims (Fixture.env Fixture.scan_time)
                      (Documents.decoded Documents.doc_issued_far_ahead)
                    = inl TypeError) by (vm_compute; reflexivity).
  split; [exact Hclaims|].
  split; [rewrite Hclaims; intros Hr; settle_raises|].
  vm_compute. reflexivity.
Qed.

(** ** Zero-valued temporal claims *)

(** C6.  When the claims map holds the number 0 under key 4 (expiration)
    or key 6 (issued-at), the decoder records [null] for that claim, as it
    does when the key is absent.  A document whose expiration is epoch
    second 0 therefore never raises [ExpiredDgcError], and passes claims
    validation whenever its issue date is not in the future. *)
Theorem zero_claim_recorded_as_null (E : Env) (rawCoseData : value)
    (phdrs cosePayload : value) (kid : string) (cborData hcert : value) :
  decode_envelope E rawCoseData = inr (phdrs, cosePayload) ->
  extract_kid E phdrs = inr kid ->
  decode_claims E cosePayload = inr (cborData, hcert) ->
  validate_schema E hcert = inr tt ->
  let dgc := unverified kid cborData hcert in
  unsafeDGCFromCoseData E rawCoseData = inr dgc
  /\ (claim cborData CWT_CLAIMS.EXPIRATION = VUndefined -> expiresAt dgc = VNull)
  /\ (claim cborData CWT_CLAIMS.ISSUED_AT = VUndefined -> issuedAt dgc = VNull)
  /\ (claim cborData CWT_CLAIMS.EXPIRATION = VNum 0 ->
      expiresAt dgc = VNull
      /\ ~ raises (verifyDGCClaims E dgc) Expired
      /\ (forall i, claim cborData CWT_CLAIMS.ISSUED_AT = VNum i ->
          i <= now_seconds E -> verifyDGCClaims E dgc = inr tt))
  /\ (claim cborData CWT_CLAIMS.ISSUED_AT = VNum 0 ->
      issuedAt dgc = VNull
      /\ ~ raises (verifyDGCClaims E dgc) IssuedInFuture).
Proof.
  intros Henv Hkid Hclaims Hschema dgc.
  split.
  { rewrite unsafeDGCFromCoseData_parts, Henv. cbn [bind].
    rewrite Hkid. cbn [bind]. rewrite Hclaims. cbn [bind].
    rewrite Hschema. reflexivity. }
  subst dgc. unfold verifyDGCClaims, unverified. cbn [issuedAt expiresAt].
  split; [intros ->; reflexivity|].
  split; [intros ->; reflexivity|].
  split.
  - intros Hexp. rewrite Hexp. cbn [js_or truthy Z.eqb negb is_null andb].
    split; [reflexivity|]. split.
    + intros Hr.
      destruct (negb (is_null (js_or (claim cborData CWT_CLAIMS.ISSUED_AT) VNull))
                && num_lt E (Date_now E / 1000)
                     (js_or (claim cborData CWT_CLAIMS.ISSUED_AT) VNull));
        cbn in Hr; settle_raises.
    + intros i Hi Hle. rewrite Hi. unfold now_seconds in Hle.
      unfold js_or, truthy.
      destruct (Z.eqb_spec i 0) as [->|Hne]; cbn [negb is_null andb]; [reflexivity|].
      unfold num_lt, ToNumber.
      destruct (Z.ltb_spec (Date_now E / 1000) i); [lia | reflexivity].
  - intros Hiat. rewrite Hiat. cbn [js_or truthy Z.eqb negb is_null andb].
    split; [reflexivity|].
    intros Hr.
    destruct (negb (is_null (js_or (claim cborData CWT_CLAIMS.EXPIRATION) VNull))
              && lt_num E (js_or (claim cborData CWT_CLAIMS.EXPIRATION) VNull)
                   (Date_now E / 1000));
      cbn in Hr; settle_raises.
Qed.

Lemma zero_claim_recorded_as_null_witness :
  exists dgc,
    unsafeDGCFromCoseData (Fixture.env Fixture.scan_time)
      (Fixture.raw_of Fixture.doc_zero_exp) = inr dgc
    /\ expiresAt dgc = VNull
    /\ verifyDGCClaims (Fixture.env Fixture.scan_time) dgc = inr tt.
Proof.
  edestruct (zero_claim_recorded_as_null (Fixture.env Fixture.scan_time)
               (Fixture.raw_of Fixture.doc_zero_exp))
    as (Hdgc & _ & _ & Hexp & _).
  - lazy. reflexivity.
  - lazy. reflexivity.
  - lazy. reflexivity.
  - lazy. reflexivity.
  - eexists. split; [exact Hdgc|].
    destruct Hexp as (Hnull & _ & Hpass); [reflexivity|].
    split; [exact Hnull|].
    apply (Hpass 1619827200); [reflexivity | vm_compute; discriminate].
Defined.

(** ** Schema validation failures *)


Lemma append_empty_r (a : string) : a +:+ "" = a.
Proof.
  induction a as [|x a IH]; [reflexivity|].
  change (String x (a +:+ "") = String x a). f_equal. exact IH.
Qed.










(** ** Normalization *)






(** An object made from a body reads as this body. *)
Lemma of_value_to_value (h : HCert.body) :
  HCert.of_value (HCert.to_value h) = Some h.
Proof.
  destruct h as [ver [fn fnt gn gnt] dob v t r].
  assert (Hm : forall l : list HCert.entry, mapM HCert.entry_of (map VObj l) = Some l).
  { induction l as [|e l IH]; [reflexivity|]. cbn. rewrite IH. reflexivity. }
  destruct fn, gn, gnt, v as [lv|], t as [lt|], r as [lr|];
    cbn -[mapM]; unfold HCert.entries_opt; cbn -[mapM]; rewrite ?Hm; reflexivity.
Qed.


(** The bodies [recovery_body] and [nameless_body] are those that the
    decoder returns, after schema validation, for the documents
    [Documents.doc_recovery] and [Documents.doc_nameless]. *)
Remark decoded_bodies :
  unsafeDGCFromCoseData (Fixture.env Fixture.scan_time)
    (Fixture.raw_of Documents.doc_recovery)
  = inr (Documents.decoded Documents.doc_recovery)
  /\ hcert (Documents.decoded Documents.doc_recovery) = HCert.to_value recovery_body
  /\ unsafeDGCFromCoseData (Fixture.env Fixture.scan_time)
       (Fixture.raw_of Documents.doc_nameless)
     = inr (Documents.decoded Documents.doc_nameless)
  /\ hcert (Documents.decoded Documents.doc_nameless) = HCert.to_value nameless_body.
Proof. repeat split; vm_compute; reflexivity. Qed.




(** ** Names *)

(** [replace_lt_by_space] turns every '<' into a space and nothing else. *)
Lemma replace_lt_by_space_get (s : string) (i : nat) :
  String.get i (replace_lt_by_space s) =
  (fun c => if Ascii.eqb c "<"%char then " "%char else c) <$> String.get i s.
Proof.
  revert i. induction s as [|c s IH]; intros [|i]; cbn; auto.
Qed.




(** ** The envelope *)

(** The value of the top-level item and the protected headers of a raw
    envelope, when they decode. *)
Lemma envelope_shape (E : Env) (rawCoseData : value)
    (coseData a b c d phdrs : value) :
  cbor_decodeFirst E rawCoseData = inr coseData ->
  get_opt coseData "value" = inr (VArr [a; b; c; d]) ->
  cbor_decodeFirst E a = inr phdrs ->
  decode_envelope E rawCoseData = inr (phdrs, c).
Proof.
  intros Htop Hval Hph. unfold decode_envelope.
  rewrite Htop. cbn [from_lib bind]. rewrite Hval. cbn [bind].
  cbn. rewrite Hph. reflexivity.
Qed.

(** C8, as stated, fails: an envelope that is a 4-element array and
    carries a key identifier under header key 4 need not yield a record.
    Here the first one has a body that fails validation, the second a
    payload that does not decode. *)
Lemma well_shaped_envelope_without_record :
  (exists a b c d coseData phdrs kid,
      cbor_decodeFirst (Fixture.env Fixture.scan_time)
        (Fixture.raw_of Fixture.doc_schema_invalid) = inr coseData
      /\ get_opt coseData "value" = inr (VArr [a; b; c; d])
      /\ cbor_decodeFirst (Fixture.env Fixture.scan_time) a = inr phdrs
      /\ map_get phdrs COSE_HEADERS.KID = inr (VBytes kid))
  /\ unsafeDGCFromCoseData (Fixture.env Fixture.scan_time)
       (Fixture.raw_of Fixture.doc_schema_invalid)
     = inl (Error ("DGC validation failed:" +:+ LF
                     +:+ "must have required property 'ver'" +:+ "."))
  /\ (exists a b c d coseData phdrs kid,
      cbor_decodeFirst (Fixture.env Fixture.scan_time)
        (Fixture.raw_of Fixture.doc_truncated) = inr coseData
      /\ get_opt coseData "value" = inr (VArr [a; b; c; d])
      /\ cbor_decodeFirst (Fixture.env Fixture.scan_time) a = inr phdrs
      /\ map_get phdrs COSE_HEADERS.KID = inr (VBytes kid))
  /\ unsafeDGCFromCoseData (Fixture.env Fixture.scan_time)
       (Fixture.raw_of Fixture.doc_truncated)
     = inl (Thrown LCbor "Insufficient data").
Proof.
  split; [do 7 eexists; repeat split; lazy; reflexivity|].
  split; [lazy; reflexivity|].
  split; [do 7 eexists; repeat split; lazy; reflexivity|].
  lazy; reflexivity.
Qed.

(** C8, amended.  Once the top-level item is decoded: if its value is not
    a 4-element array the decoder throws "Unexpected COSE data"; if it is
    and the decoded protected headers are a map with no entry under key 4
    (which reads as [undefined]) or a falsy one, the decoder throws
    "Cannot find a KID in COSE Data", and a TypeError when the headers are
    not a map at all; and if the
    entry under key 4 is a byte string, the claims map decodes and the body
    passes schema validation, the decoder returns a record whose kid is
    the base64 encoding of those bytes. *)
Theorem envelope_decoding (E : Env) (rawCoseData : value)
    (coseData coseValue : value) :
  cbor_decodeFirst E rawCoseData = inr coseData ->
  get_opt coseData "value" = inr coseValue ->
  ((forall a b c d, coseValue <> VArr [a; b; c; d]) ->
   unsafeDGCFromCoseData E rawCoseData =
   inl (Error "Unexpected COSE data. DGC is probably invalid."))
  /\ (forall a b c d entries,
      coseValue = VArr [a; b; c; d] ->
      cbor_decodeFirst E a = inr (VMap entries) ->
      truthy (map_find entries COSE_HEADERS.KID) = false ->
      unsafeDGCFromCoseData E rawCoseData =
      inl (Error "Cannot find a KID in COSE Data. DGC is probably invalid."))
  /\ (forall a b c d phdrs,
      coseValue = VArr [a; b; c; d] ->
      cbor_decodeFirst E a = inr phdrs ->
      (forall entries, phdrs <> VMap entries) ->
      unsafeDGCFromCoseData E rawCoseData = inl TypeError)
  /\ (forall a b c d phdrs rawKid cborData hcert,
      coseValue = VArr [a; b; c; d] ->
      cbor_decodeFirst E a = inr phdrs ->
      map_get phdrs COSE_HEADERS.KID = inr (VBytes rawKid) ->
      Buffer_from E (VBytes rawKid) = inr rawKid ->
      decode_claims E c = inr (cborData, hcert) ->
      validate_schema E hcert = inr tt ->
      exists dgc, unsafeDGCFromCoseData E rawCoseData = inr dgc
                  /\ kid dgc = toString_base64 rawKid).
Proof.
  intros Htop Hval. split; [|split; [|split]].
  - intros Hshape. unfold unsafeDGCFromCoseData.
    rewrite Htop. cbn [from_lib bind]. rewrite Hval. cbn [bind].
    destruct coseValue as [| |? |? |? |? |items |? |? |? ? |?];
      try (cbn [isArray negb]; rewrite orb_true_r; reflexivity).
    destruct items as [|a [|b [|c [|d [|e rest]]]]]; try reflexivity.
    + exfalso. exact (Hshape a b c d eq_refl).
    + cbn [js_not truthy negb isArray orb items_of].
      destruct (Z.eqb_spec (Z.of_nat (length (a :: b :: c :: d :: e :: rest))) 4)
        as [Hlen|Hlen]; [cbn [length] in Hlen; lia | reflexivity].
  - intros a b c d entries -> Hph Hnone.
    rewrite unsafeDGCFromCoseData_parts,
      (envelope_shape E rawCoseData coseData a b c d _ Htop Hval Hph).
    cbn [bind]. unfold extract_kid. cbn [map_get bind ret].
    unfold js_not. rewrite Hnone. reflexivity.
  - intros a b c d phdrs -> Hph Hnomap.
    rewrite unsafeDGCFromCoseData_parts,
      (envelope_shape E rawCoseData coseData a b c d _ Htop Hval Hph).
    cbn [bind]. unfold extract_kid.
    destruct phdrs; try reflexivity.
    exfalso. exact (Hnomap _ eq_refl).
  - intros a b c d phdrs rawKid cborData hcert -> Hph Hkid Hbuf Hclaims Hschema.
    exists (unverified (toString_base64 rawKid) cborData hcert).
    split; [|reflexivity].
    rewrite unsafeDGCFromCoseData_parts,
      (envelope_shape E rawCoseData coseData a b c d _ Htop Hval Hph).
    cbn [bind]. unfold extract_kid. rewrite Hkid. cbn [bind js_not truthy negb].
    rewrite Hbuf. cbn [from_lib bind ret]. rewrite Hclaims. cbn [bind].
    rewrite Hschema. reflexivity.
Qed.

Lemma envelope_decoding_witness :
  exists dgc,
    unsafeDGCFromCoseData (Fixture.env Fixture.scan_time)
      (Fixture.raw_of Fixture.doc_valid) = inr dgc
    /\ kid dgc = toString_base64 Fixture.trusted_kid.
Proof.
  edestruct (envelope_decoding (Fixture.env Fixture.scan_time)
               (Fixture.raw_of Fixture.doc_valid)) as (_ & _ & _ & Hrecord).
  - lazy. reflexivity.
  - lazy. reflexivity.
  - eapply (Hrecord _ _ _ _ _ Fixture.trusted_kid); lazy; reflexivity.
Defined.

(** ** The signing certificate *)

Lemma js_in_found (o : gmap string string) (k pem : string) :
  o !! k = Some pem -> js_in k o = true /\ js_index o k = VStr pem.
Proof. intros H. unfold js_in, js_index. rewrite H. split; reflexivity. Qed.

Lemma js_in_missing (o : gmap string string) (k : string) :
  o !! k = None -> inherited k = false -> js_in k o = false.
Proof. intros H Hi. unfold js_in. rewrite H. exact Hi. Qed.

(** The lookup, once the certificate of the key identifier is read. *)
Lemma findDGCPublicKey_found (E : Env) (dgc : UnsafeDGC) (pem : string)
    (c : X509Certificate) :
  DCCCerts E !! kid dgc = Some pem ->
  new_X509Certificate E (VStr pem) = inr c ->
  findDGCPublicKey E dgc =
  let* public_key := from_lib LX509 (publicKey_export E c) in
  let* thumbprint := from_lib LX509 (getThumbprint E c) in
  let* pkThumbprint := from_lib LX509 (publicKey_getThumbprint E c) in
  let* publicKeyPem := exportPublicKeyToPEM E public_key in
  if (Date_now E >? x_notAfter c) || (Date_now E <? x_notBefore c)
  then throw_DgcError E InvalidCertificateError dgc
  else ret ({| DSC.serialNumber := x_serialNumber c;
               DSC.subject := x_subject c;
               DSC.issuer := x_issuer c;
               DSC.notBefore := toISOString E (x_notBefore c);
               DSC.notAfter := toISOString E (x_notAfter c);
               DSC.signatureAlgorithm := x_signatureAlgorithm c;
               DSC.signature := toString_base64 (x_signature c);
               DSC.fingerprint := toString_hex thumbprint;
               DSC.publicKeyAlgorithm := x_publicKeyAlgorithm c;
               DSC.publicKeyFingerprint := toString_hex pkThumbprint;
               DSC.publicKeyPem := publicKeyPem |}, public_key).
Proof.
  intros Hfound Hc. destruct (js_in_found _ _ _ Hfound) as [Hin Hidx].
  unfold findDGCPublicKey. rewrite Hin, Hidx. cbn [negb].
  rewrite Hc. reflexivity.
Qed.

(** C7, as stated, fails: the claims of a document are checked before its
    signer is looked up.  Scanned on 2025-01-01, [Fixture.doc_valid] has a
    key identifier in the trust store whose certificate has lapsed, and is
    itself expired: the lookup alone would raise
    [InvalidCertificateError], and verification raises
    [ExpiredDgcError]. *)
Lemma expired_document_of_lapsed_signer :
  exists dgc,
    unsafeDGCFromCoseData (Fixture.env late_scan_time)
      (Fixture.raw_of Fixture.doc_valid) = inr dgc
    /\ DCCCerts (Fixture.env late_scan_time) !! kid dgc = Some Fixture.trusted_pem
    /\ new_X509Certificate (Fixture.env late_scan_time) (VStr Fixture.trusted_pem)
       = inr Fixture.trusted_cert
    /\ ~ within_window (Fixture.env late_scan_time) Fixture.trusted_cert
    /\ findDGCPublicKey (Fixture.env late_scan_time) dgc
       = inl (InvalidCertificateError dgc)
    /\ parse (Fixture.env late_scan_time) Fixture.doc_valid
       = inl (ExpiredDgcError dgc)
    /\ ~ raises (parse (Fixture.env late_scan_time) Fixture.doc_valid)
         InvalidCertificate.
Proof.
  eexists. split; [lazy; reflexivity|].
  split; [vm_compute; reflexivity|].
  split; [vm_compute; reflexivity|].
  split; [unfold within_window; vm_compute; intros [_ H]; apply H; reflexivity|].
  split; [vm_compute; reflexivity|].
  match goal with
  | |- ?surfaced /\ _ => assert (Hparse : surfaced) by (vm_compute; reflexivity)
  end.
  split; [exact Hparse|].
  rewrite Hparse. intros Hr. settle_raises.
Qed.

(** C7, amended.  For a document whose key identifier has an entry in the
    trust store, the certificate of which is read: when the current time
    is within [notBefore, notAfter] of this certificate, neither the
    lookup nor verification as a whole raises [InvalidCertificateError];
    when it is outside, the lookup raises this error, and so does
    verification when the claims of the document, which are checked
    first, are in order, provided the key and the thumbprints of the
    certificate are exported and [JSON.stringify] accepts the record. *)
Theorem certificate_validity_window (E : Env) (dgc : UnsafeDGC) (pem : string)
    (c : X509Certificate) :
  DCCCerts E !! kid dgc = Some pem ->
  new_X509Certificate E (VStr pem) = inr c ->
  (within_window E c ->
   ~ raises (findDGCPublicKey E dgc) InvalidCertificate
   /\ forall rawCoseData code,
        ~ raises (verifyDGC E dgc rawCoseData code) InvalidCertificate)
  /\ (~ within_window E c ->
      forall public_key thumbprint pkThumbprint publicKeyPem text,
        publicKey_export E c = inr public_key ->
        getThumbprint E c = inr thumbprint ->
        publicKey_getThumbprint E c = inr pkThumbprint ->
        exportPublicKeyToPEM E public_key = inr publicKeyPem ->
        JSON_stringify_tab E dgc = Some text ->
        findDGCPublicKey E dgc = inl (InvalidCertificateError dgc)
        /\ (verifyDGCClaims E dgc = inr tt ->
            forall rawCoseData code,
              verifyDGC E dgc rawCoseData code = inl (InvalidCertificateError dgc))).
Proof.
  intros Hfound Hc. pose proof (findDGCPublicKey_found E dgc pem c Hfound Hc) as Hfind.
  unfold within_window. split.
  - intros Hwin.
    assert (Hlookup : ~ raises (findDGCPublicKey E dgc) InvalidCertificate).
    { rewrite Hfind. intros Hr.
      destruct (publicKey_export E c) as [m|public_key]; [settle_raises|].
      destruct (getThumbprint E c) as [m|thumbprint]; [settle_raises|].
      destruct (publicKey_getThumbprint E c) as [m|pkThumbprint]; [settle_raises|].
      cbn [from_lib bind] in Hr. unfold exportPublicKeyToPEM in Hr.
      destruct (exportKey_spki E public_key) as [m|spki]; [settle_raises|].
      cbn [from_lib bind] in Hr.
      destruct (match_lines64 (toString_base64 spki)); [|settle_raises].
      cbn [bind ret] in Hr.
      destruct (Z.gtb_spec (Date_now E) (x_notAfter c)) as [Hgt|Hle]; [lia|].
      destruct (Z.ltb_spec (Date_now E) (x_notBefore c)) as [Hlt|Hge]; [lia|].
      cbn [orb] in Hr. settle_raises. }
    split; [exact Hlookup|].
    intros rawCoseData code Hr. unfold verifyDGC in Hr.
    unfold verifyDGCClaims in Hr.
    destruct (negb (is_null (issuedAt dgc))
              && num_lt E (Date_now E / 1000) (issuedAt dgc)); [settle_raises|].
    destruct (negb (is_null (expiresAt dgc))
              && lt_num E (expiresAt dgc) (Date_now E / 1000)); [settle_raises|].
    cbn [bind ret] in Hr.
    destruct (findDGCPublicKey E dgc) as [e|[certificate public_key]] eqn:Hf.
    + cbn [bind] in Hr. apply Hlookup. apply raises_inl.
      apply raises_inl in Hr. exact Hr.
    + cbn [bind] in Hr.
      destruct (verify E rawCoseData public_key) as [m|[]]; settle_raises.
  - intros Hout public_key thumbprint pkThumbprint publicKeyPem text
      Hpk Ht1 Ht2 Hpem Htext.
    rewrite Hpk, Ht1, Ht2 in Hfind. cbn [from_lib bind] in Hfind.
    rewrite Hpem in Hfind. cbn [bind] in Hfind.
    assert (Hcond : (Date_now E >? x_notAfter c) || (Date_now E <? x_notBefore c)
                    = true).
    { destruct (Z.gtb_spec (Date_now E) (x_notAfter c)) as [Hgt|Hle]; [reflexivity|].
      destruct (Z.ltb_spec (Date_now E) (x_notBefore c)) as [Hlt|Hge]; [reflexivity|].
      exfalso. apply Hout. lia. }
    rewrite Hcond, (throw_DgcError_text _ _ _ _ Htext) in Hfind.
    split; [exact Hfind|].
    intros Hclaims rawCoseData code. unfold verifyDGC.
    rewrite Hclaims, Hfind. reflexivity.
Qed.

Lemma certificate_validity_window_witness :
  verifyDGC (Fixture.env late_scan_time)
    (Documents.decoded Fixture.doc_zero_exp) (Fixture.raw_of Fixture.doc_zero_exp)
    Fixture.doc_zero_exp
  = inl (InvalidCertificateError (Documents.decoded Fixture.doc_zero_exp)).
Proof.
  refine (proj2 (proj2 (certificate_validity_window (Fixture.env late_scan_time)
                          (Documents.decoded Fixture.doc_zero_exp)
                          Fixture.trusted_pem Fixture.trusted_cert _ _) _
                   Fixture.trusted_key
                   (map Fixture.byte_of_N [171; 205]%N)
                   (map Fixture.byte_of_N [239; 1]%N)
                   (DSC.publicKeyPem Fixture.trusted_dsc)
                   ("{kid:" +:+ kid (Documents.decoded Fixture.doc_zero_exp) +:+ "}")
                   _ _ _ _ _) _ _ _);
    try (vm_compute; reflexivity).
  unfold within_window. vm_compute. intros [_ H]. apply H. reflexivity.
Defined.

(** ** Unknown signers *)

(** C1, as stated, fails: a document signed by a key that is not in the
    trust store and that has expired is rejected with [ExpiredDgcError];
    the claims are checked before the key is looked up. *)
Lemma expired_document_of_unknown_signer :
  exists dgc,
    unsafeDGCFromCoseData (Fixture.env Fixture.scan_time)
      (Fixture.raw_of Fixture.doc_expired_unknown) = inr dgc
    /\ DCCCerts (Fixture.env Fixture.scan_time) !! kid dgc = None
    /\ js_in (kid dgc) (DCCCerts (Fixture.env Fixture.scan_time)) = false
    /\ parse (Fixture.env Fixture.scan_time) Fixture.doc_expired_unknown
       = inl (ExpiredDgcError dgc)
    /\ ~ raises (parse (Fixture.env Fixture.scan_time) Fixture.doc_expired_unknown)
         UnknownKid.
Proof.
  eexists. split; [lazy; reflexivity|].
  split; [vm_compute; reflexivity|].
  split; [vm_compute; reflexivity|].
  match goal with
  | |- ?surfaced /\ _ => assert (Hparse : surfaced) by (vm_compute; reflexivity)
  end.
  split; [exact Hparse|].
  rewrite Hparse. intros Hr. settle_raises.
Qed.

(** The operator [in] also finds what every object inherits: the six-byte
    key identifier that reads [toString] in base64 is not in the trust
    list, and yet is not reported as unknown. *)
Remark inherited_name_as_key_identifier :
  toString_base64 (map Fixture.byte_of_N [182; 132; 173; 174; 41; 224]%N) = "toString"
  /\ DCCCerts (Fixture.env Fixture.scan_time) !! "toString" = None
  /\ js_in "toString" (DCCCerts (Fixture.env Fixture.scan_time)) = true
  /\ parse (Fixture.env Fixture.scan_time) Fixture.doc_inherited
     = inl (Thrown LX509 "Unsupported input type").
Proof. repeat split; vm_compute; reflexivity. Qed.

(** C1, amended.  A document that decodes, passes schema validation and
    whose claims are in order (not issued in the future, not expired) is
    rejected with [UnknownKidError] whenever its key identifier is neither
    a key of the trust store nor the name of a property every object
    inherits, whatever its signature and its body are, provided
    [JSON.stringify] accepts the decoded record.  A document that fails to
    decode or to pass schema validation, or whose claims validation
    fails, is rejected with that earlier failure instead. *)
Theorem unknown_signer_rejected (E : Env) (doc : string) (rawCoseData : value) :
  extractCoseFromQRCode E doc = inr rawCoseData ->
  (forall e, unsafeDGCFromCoseData E rawCoseData = inl e -> parse E doc = inl e)
  /\ (forall dgc, unsafeDGCFromCoseData E rawCoseData = inr dgc ->
      (forall e, verifyDGCClaims E dgc = inl e -> parse E doc = inl e)
      /\ (verifyDGCClaims E dgc = inr tt ->
          DCCCerts E !! kid dgc = None ->
          inherited (kid dgc) = false ->
          forall text, JSON_stringify_tab E dgc = Some text ->
          parse E doc = inl (UnknownKidError dgc))).
Proof.
  intros Hraw. unfold parse. rewrite Hraw. cbn [bind]. split.
  - intros e ->. reflexivity.
  - intros dgc ->. cbn [bind]. unfold verifyDGC. split.
    + intros e ->. reflexivity.
    + intros Hclaims Hnone Hinh text Htext. rewrite Hclaims. cbn [bind].
      unfold findDGCPublicKey. rewrite (js_in_missing _ _ Hnone Hinh).
      cbn [negb]. rewrite (throw_DgcError_text _ _ _ _ Htext). reflexivity.
Qed.

Lemma unknown_signer_rejected_witness :
  parse (Fixture.env Fixture.scan_time) Fixture.doc_unknown
  = inl (UnknownKidError (Documents.decoded Fixture.doc_unknown)).
Proof.
  refine (proj2 (proj2 (unknown_signer_rejected (Fixture.env Fixture.scan_time)
                          Fixture.doc_unknown (Fixture.raw_of Fixture.doc_unknown) _)
                   (Documents.decoded Fixture.doc_unknown) _)
            _ _ _ ("{kid:" +:+ kid (Documents.decoded Fixture.doc_unknown) +:+ "}") _);
    vm_compute; reflexivity.
Defined.

(** ** The codecs of the concrete environment *)

Section Codecs.

Import Fixture.
Local Open Scope N_scope.

Lemma byte_of_to_N (x : byte) : byte_of_N (Byte.to_N x) = x.
Proof. unfold byte_of_N. rewrite Byte.of_to_N. reflexivity. Qed.

Lemma to_N_lt (x : byte) : Byte.to_N x < 256.
Proof. pose proof (Byte.to_N_bounded x). lia. Qed.

Lemma to_N_byte_of_N (k : N) : k < 256 -> Byte.to_N (byte_of_N k) = k.
Proof.
  intros Hk. unfold byte_of_N. destruct (Byte.of_N k) as [x|] eqn:Hx.
  - apply Byte.to_of_N. exact Hx.
  - apply Byte.of_N_None_iff in Hx. lia.
Qed.

Lemma val_digit (n : N) : n < 45 -> Base45.val (Base45.digit n) = Some n.
Proof.
  intros Hn. rewrite <- (N2Nat.id n). assert (Hk : (N.to_nat n < 45)%nat) by lia.
  revert Hk. generalize (N.to_nat n). clear n Hn. intros k Hk.
  do 45 (destruct k as [|k]; [reflexivity|]). lia.
Qed.

Lemma pairs_ind {A} (P : list A -> Prop) :
  P [] -> (forall x, P [x]) -> (forall x y l, P l -> P (x :: y :: l)) ->
  forall l, P l.
Proof.
  intros H0 H1 H2. fix IH 1. intros [|x [|y l]]; [exact H0 | apply H1 |].
  apply H2. apply IH.
Qed.

(** Base45 decoding inverts base45 encoding. *)
Lemma base45_decode_encode (b : list byte) :
  Base45.decode (Base45.encode b) = inr b.
Proof.
  induction b as [|x|x y rest IH] using pairs_ind.
  - reflexivity.
  - cbn [Base45.encode Base45.decode].
    pose proof (to_N_lt x) as Hx.
    rewrite !val_digit.
    2:{ apply N.Div0.div_lt_upper_bound. lia. }
    2:{ apply N.mod_lt. lia. }
    assert (Hsum : Byte.to_N x mod 45 + 45 * (Byte.to_N x / 45) = Byte.to_N x).
    { pose proof (N.div_mod' (Byte.to_N x) 45). lia. }
    rewrite Hsum.
    destruct (N.ltb_spec (Byte.to_N x) 256); [|lia].
    rewrite byte_of_to_N. reflexivity.
  - cbn [Base45.encode Base45.decode].
    pose proof (to_N_lt x) as Hx. pose proof (to_N_lt y) as Hy.
    set (n := Byte.to_N x * 256 + Byte.to_N y).
    assert (Hn : n < 65536) by (subst n; lia).
    rewrite !val_digit.
    2:{ apply N.Div0.div_lt_upper_bound. lia. }
    2:{ apply N.mod_lt. lia. }
    2:{ apply N.mod_lt. lia. }
    assert (Hsum : n mod 45 + 45 * (n / 45 mod 45) + 2025 * (n / 2025) = n).
    { replace (n / 2025) with (n / 45 / 45) by (rewrite N.Div0.div_div; reflexivity).
      pose proof (N.div_mod' n 45). pose proof (N.div_mod' (n / 45) 45). lia. }
    rewrite Hsum.
    destruct (N.ltb_spec n 65536); [|lia].
    rewrite IH.
    assert (Hq : n / 256 = Byte.to_N x).
    { subst n. rewrite N.div_add_l by lia. rewrite N.div_small by lia. lia. }
    assert (Hr : n mod 256 = Byte.to_N y).
    { subst n. rewrite N.add_comm, N.Div0.mod_add. apply N.mod_small. lia. }
    rewrite Hq, Hr, !byte_of_to_N. reflexivity.
Qed.

(** Inflating inverts the stored-block compression. *)
Lemma zlib_inflate_deflate (data : list byte) :
  N.of_nat (length data) <= 65535 ->
  Zlib.inflate (Zlib.deflate data) = Some (VBytes data).
Proof.
  intros Hl. unfold Zlib.deflate.
  set (len := N.of_nat (length data)) in *.
  set (trailer := Zlib.be32 (Zlib.adler32 data)).
  cbn [app]. unfold Zlib.inflate.
  change (Byte.to_N "x"%byte) with 120.
  change (Byte.to_N (byte_of_N 1)) with 1.
  change (negb ((120 * 256 + 1) mod 31 =? 0)) with false.
  change (negb (120 mod 16 =? 8)) with false.
  change (7 <? 120 / 16) with false.
  change (negb (1 / 32 mod 2 =? 0)) with false.
  cbv iota. cbn [Zlib.blocks].
  change (Byte.to_N (byte_of_N 1)) with 1.
  change (negb (1 / 2 mod 4 =? 0)) with false.
  change (1 mod 2 =? 1) with true.
  cbv iota.
  rewrite !to_N_byte_of_N.
  2:{ apply N.Div0.div_lt_upper_bound. lia. }
  2:{ apply N.mod_lt. lia. }
  2:{ apply N.Div0.div_lt_upper_bound. lia. }
  2:{ apply N.mod_lt. lia. }
  assert (H1 : len mod 256 + 256 * (len / 256) = len).
  { pose proof (N.div_mod' len 256). lia. }
  assert (H2 : (65535 - len) mod 256 + 256 * ((65535 - len) / 256) = 65535 - len).
  { pose proof (N.div_mod' (65535 - len) 256). lia. }
  rewrite H1, H2.
  replace (len + (65535 - len)) with 65535 by lia.
  change (negb (65535 =? 65535)) with false. cbv iota.
  destruct (N.ltb_spec (N.of_nat (length (data ++ trailer)%list)) len) as [Hlt|_].
  { rewrite length_app in Hlt. subst len. lia. }
  assert (Hn : N.to_nat len = length data) by (subst len; lia).
  rewrite Hn, take_app_length, drop_app_length.
  change (length trailer <? 4)%nat with false. cbv iota.
  change (take 4 trailer) with trailer.
  destruct (decide (map Byte.to_N trailer
                    = map Byte.to_N (Zlib.be32 (Zlib.adler32 data))))
    as [_|Hne]; [reflexivity|].
  exfalso. apply Hne. reflexivity.
Qed.

(** No zlib stream starts with the byte d2, the CBOR tag 18 every signed
    envelope starts with: inflating an envelope throws. *)
Lemma tagged_envelope_not_inflated (x : byte) (rest : list byte) :
  Zlib.inflate ("210"%byte :: x :: rest) = None.
Proof.
  unfold Zlib.inflate. change (Byte.to_N "210"%byte) with 210.
  destruct (negb ((210 * 256 + Byte.to_N x) mod 31 =? 0)); reflexivity.
Qed.

End Codecs.

(** ** Transport *)

Lemma strip_prefix (s : string) :
  startsWith (DGC_PREFIX +:+ s) DGC_PREFIX = true
  /\ replace (DGC_PREFIX +:+ s) DGC_PREFIX "" = s.
Proof. destruct s; split; vm_compute; reflexivity. Qed.

(** What the transport decoder returns on a prefixed base45 text. *)
Lemma extractCoseFromQRCode_prefixed (E : Env) (text : string) (b : list byte) :
  decodeb45 E text = inr b ->
  extractCoseFromQRCode E (DGC_PREFIX +:+ text) =
  inr (match inflate E b with Some inflated => inflated | None => VBytes b end).
Proof.
  intros Hb. unfold extractCoseFromQRCode.
  destruct (strip_prefix text) as [-> ->]. cbn [negb].
  rewrite Hb. reflexivity.
Qed.

(** In the concrete environment, a compressed payload always comes back,
    and so does an uncompressed signed envelope. *)
Lemma fixture_round_trip_compressed (now : Z) (b : list byte) :
  (N.of_nat (length b) <= 65535)%N ->
  extractCoseFromQRCode (Fixture.env now)
    (DGC_PREFIX +:+ Fixture.Base45.encode (Fixture.Zlib.deflate b)) = inr (VBytes b).
Proof.
  intros Hlen.
  rewrite (extractCoseFromQRCode_prefixed (Fixture.env now) _ _
             (base45_decode_encode (Fixture.Zlib.deflate b))).
  cbn [inflate Fixture.env]. rewrite (zlib_inflate_deflate b Hlen). reflexivity.
Qed.

Lemma fixture_round_trip_envelope (now : Z) (x : byte) (rest : list byte) :
  extractCoseFromQRCode (Fixture.env now)
    (DGC_PREFIX +:+ Fixture.Base45.encode ("210"%byte :: x :: rest))
  = inr (VBytes ("210"%byte :: x :: rest)).
Proof.
  rewrite (extractCoseFromQRCode_prefixed (Fixture.env now) _ _
             (base45_decode_encode ("210"%byte :: x :: rest))).
  cbn [inflate Fixture.env]. rewrite tagged_envelope_not_inflated. reflexivity.
Qed.

(** C9, as stated, fails on the branch without compression: a byte
    sequence that happens to be a zlib stream is inflated by the decoder.
    Here the fourteen bytes 78 01 01 03 00 fc ff 61 62 63 02 4d 01 27, the
    zlib stream of the three bytes 61 62 63, come back as these three
    bytes. *)
Lemma zlib_shaped_bytes_do_not_round_trip :
  map Byte.to_N zlib_shaped
  = [120; 1; 1; 3; 0; 252; 255; 97; 98; 99; 2; 77; 1; 39]%N
  /\ transport Fixture.Base45.encode zlib_shaped = "HC1:V7FY50R50$CWWJC4D0P60"
  /\ decodeb45 (Fixture.env Fixture.scan_time) (Fixture.Base45.encode zlib_shaped)
     = inr zlib_shaped
  /\ extractCoseFromQRCode (Fixture.env Fixture.scan_time)
       (transport Fixture.Base45.encode zlib_shaped)
     = inr (VBytes (Fixture.bytes_of_string "abc"))
  /\ extractCoseFromQRCode (Fixture.env Fixture.scan_time)
       (transport Fixture.Base45.encode zlib_shaped)
     <> inr (VBytes zlib_shaped).
Proof.
  split; [vm_compute; reflexivity|].
  split; [vm_compute; reflexivity|].
  split; [vm_compute; reflexivity|].
  split; [vm_compute; reflexivity|].
  vm_compute. discriminate.
Qed.

(** Nor do the empty byte sequence and the first two bytes of a zlib
    stream come back: the inflation of an input that ends before its
    stream does returns [undefined] without throwing, and [undefined] is
    what the decoder returns. *)
Remark unfinished_streams_come_back_undefined :
  transport Fixture.Base45.encode [] = "HC1:"
  /\ extractCoseFromQRCode (Fixture.env Fixture.scan_time) "HC1:" = inr VUndefined
  /\ transport Fixture.Base45.encode (map Fixture.byte_of_N [120; 1]%N) = "HC1:V7F"
  /\ extractCoseFromQRCode (Fixture.env Fixture.scan_time) "HC1:V7F"
     = inr VUndefined.
Proof. repeat split; vm_compute; reflexivity. Qed.

(** C9, amended.  For every byte sequence [b] and every pair of encoders
    that the decoders of the environment invert on it: the text made of
    the prefix and the base45 encoding of the compressed [b] decodes to
    [b]; and the text made of the prefix and the base45 encoding of [b]
    itself decodes to [b] when the inflation of [b] throws, and otherwise
    to what the inflation of [b] returns. *)
Theorem transport_round_trip (E : Env) (encodeb45 : list byte -> string)
    (deflate : list byte -> list byte) (b : list byte) :
  (decodeb45 E (encodeb45 (deflate b)) = inr (deflate b) ->
   inflate E (deflate b) = Some (VBytes b) ->
   extractCoseFromQRCode E (transport encodeb45 (deflate b)) = inr (VBytes b))
  /\ (decodeb45 E (encodeb45 b) = inr b ->
      inflate E b = None ->
      extractCoseFromQRCode E (transport encodeb45 b) = inr (VBytes b))
  /\ (decodeb45 E (encodeb45 b) = inr b ->
      forall returned, inflate E b = Some returned ->
      extractCoseFromQRCode E (transport encodeb45 b) = inr returned).
Proof.
  unfold transport. repeat split.
  - intros Hb45 Hz. rewrite (extractCoseFromQRCode_prefixed E _ _ Hb45), Hz.
    reflexivity.
  - intros Hb45 Hz. rewrite (extractCoseFromQRCode_prefixed E _ _ Hb45), Hz.
    reflexivity.
  - intros Hb45 returned Hz.
    rewrite (extractCoseFromQRCode_prefixed E _ _ Hb45), Hz. reflexivity.
Qed.

Lemma transport_round_trip_witness :
  extractCoseFromQRCode (Fixture.env Fixture.scan_time)
    (transport Fixture.Base45.encode
       (Fixture.Zlib.deflate (Fixture.bytes_of Fixture.doc_valid)))
  = inr (VBytes (Fixture.bytes_of Fixture.doc_valid))
  /\ extractCoseFromQRCode (Fixture.env Fixture.scan_time)
       (transport Fixture.Base45.encode (Fixture.bytes_of Fixture.doc_valid))
     = inr (VBytes (Fixture.bytes_of Fixture.doc_valid)).
Proof.
  split.
  - refine (proj1 (transport_round_trip (Fixture.env Fixture.scan_time)
                     Fixture.Base45.encode Fixture.Zlib.deflate
                     (Fixture.bytes_of Fixture.doc_valid)) _ _);
      vm_compute; reflexivity.
  - refine (proj1 (proj2 (transport_round_trip (Fixture.env Fixture.scan_time)
                            Fixture.Base45.encode Fixture.Zlib.deflate
                            (Fixture.bytes_of Fixture.doc_valid))) _ _);
      vm_compute; reflexivity.
Defined.

(** ** Order of the stages *)

(** C2, as stated, fails: the expired document of an unknown signer is
    rejectable both by the trust-store lookup and by claims validation;
    the lookup comes first in the specified order, and the failure that
    surfaces is that of claims validation. *)
Lemma specified_order_not_followed :
  exists dgc,
    stage_failure (Fixture.env Fixture.scan_time) Fixture.doc_expired_unknown
      ClaimsValidation = Some (ExpiredDgcError dgc)
    /\ stage_failure (Fixture.env Fixture.scan_time) Fixture.doc_expired_unknown
         TrustStoreLookup = Some (UnknownKidError dgc)
    /\ earliest_failure (Fixture.env Fixture.scan_time) Fixture.doc_expired_unknown
         specified_order = Some (UnknownKidError dgc)
    /\ failure (parse (Fixture.env Fixture.scan_time) Fixture.doc_expired_unknown)
       = Some (ExpiredDgcError dgc)
    /\ failure (parse (Fixture.env Fixture.scan_time) Fixture.doc_expired_unknown)
       <> earliest_failure (Fixture.env Fixture.scan_time)
            Fixture.doc_expired_unknown specified_order.
Proof.
  eexists. split; [lazy; reflexivity|].
  split; [vm_compute; reflexivity|].
  split; [vm_compute; reflexivity|].
  split; [vm_compute; reflexivity|].
  vm_compute. discriminate.
Qed.

(** C2, amended.  The pipeline performs its stages in the order:
    transport decode, envelope decode, key-id extraction, claims-map
    decode, schema validation, claims validation, trust-store lookup,
    signature verification, normalization; the failure of [parse] is that
    of the earliest stage of this order that rejects the document, and
    [parse] succeeds when no stage rejects it. *)
Theorem performed_order_followed (E : Env) (doc : string) :
  failure (parse E doc) = earliest_failure E doc performed_order.
Proof.
  unfold parse, performed_order, earliest_failure, stage_failure, signer,
    record, key_id, claims, envelope, raw_data.
  destruct (extractCoseFromQRCode E doc) as [e|raw]; cbn; [reflexivity|].
  rewrite unsafeDGCFromCoseData_parts.
  destruct (decode_envelope E raw) as [e|[phdrs payload]]; cbn; [reflexivity|].
  destruct (extract_kid E phdrs) as [e|kid]; cbn; [reflexivity|].
  destruct (decode_claims E payload) as [e|[cborData hcert]]; cbn; [reflexivity|].
  destruct (validate_schema E hcert) as [e|[]]; cbn; [reflexivity|].
  unfold verifyDGC.
  destruct (verifyDGCClaims E (unverified kid cborData hcert)) as [e|[]]; cbn;
    [reflexivity|].
  destruct (findDGCPublicKey E (unverified kid cborData hcert))
    as [e|[certificate key]]; cbn; [reflexivity|].
  destruct (verify E raw key) as [m|[]]; cbn; [reflexivity|].
  destruct (getCertificateInfo E _); reflexivity.
Qed.

(** * Further properties *)

(** ** Transport decoding *)

Lemma prefix_split (p s : string) :
  String.prefix p s = true -> s = p +:+ drop_chars (String.length p) s.
Proof.
  revert s. induction p as [|c p IH]; intros s H.
  - reflexivity.
  - destruct s as [|d s]; [discriminate H|].
    cbn in H. destruct (ascii_dec c d) as [->|]; [|discriminate H].
    change (String d s = String d (p +:+ drop_chars (String.length p) s)).
    f_equal. apply IH. exact H.
Qed.

(** X1.  Transport decoding fails in two ways only: with the error "HCERT
    must start with HC1:" exactly when the text does not start with the
    prefix (and then [parse] fails with it, whatever the environment), and
    with the error of the base45 decoder on the text that follows the
    prefix.  An inflation that throws never fails the decoding, which
    then returns the decoded bytes as they are; when the inflation
    returns, the decoding returns what it returned, bytes or
    [undefined]. *)
Theorem transport_failures (E : Env) (doc : string) :
  (startsWith doc DGC_PREFIX = false <->
   extractCoseFromQRCode E doc = inl (Error "HCERT must start with HC1:"))
  /\ (startsWith doc DGC_PREFIX = false ->
      parse E doc = inl (Error "HCERT must start with HC1:"))
  /\ (forall e, extractCoseFromQRCode E doc = inl e ->
      e = Error "HCERT must start with HC1:"
      \/ exists text msg, doc = DGC_PREFIX +:+ text
                          /\ decodeb45 E text = inl msg
                          /\ e = Thrown LBase45 msg)
  /\ (forall text b, doc = DGC_PREFIX +:+ text -> decodeb45 E text = inr b ->
      exists raw, extractCoseFromQRCode E doc = inr raw
                  /\ ((inflate E b = None /\ raw = VBytes b)
                      \/ inflate E b = Some raw)).
Proof.
  unfold parse, extractCoseFromQRCode.
  destruct (startsWith doc DGC_PREFIX) eqn:Hp; cbn [negb].
  - pose proof (prefix_split _ _ Hp) as Hdoc.
    set (text := drop_chars (String.length DGC_PREFIX) doc) in *.
    assert (Hrep : replace doc DGC_PREFIX "" = text).
    { rewrite Hdoc. apply strip_prefix. }
    rewrite Hrep.
    split; [|split; [|split]].
    + split; [discriminate|].
      destruct (decodeb45 E text); discriminate.
    + discriminate.
    + intros e He. right. exists text.
      destruct (decodeb45 E text) as [msg|b] eqn:Hd; [|discriminate He].
      exists msg. injection He as <-. auto.
    + intros text' b Hdoc' Hb.
      assert (text' = text) as ->.
      { rewrite Hdoc' in Hdoc. apply (String.app_inj DGC_PREFIX) in Hdoc.
        exact Hdoc. }
      rewrite Hb. cbn [from_lib bind ret].
      destruct (inflate E b) as [raw|]; eexists; (split; [reflexivity|]);
        [right | left; split]; reflexivity.
  - split; [|split; [|split]].
    + split; reflexivity.
    + reflexivity.
    + intros e [= <-]. left. reflexivity.
    + intros text b -> _. destruct (strip_prefix text) as [Hs _].
      rewrite Hs in Hp. discriminate Hp.
Qed.

Lemma transport_failures_witness :
  parse (Fixture.env Fixture.scan_time) "HC2:RRQT 9O60" =
  inl (Error "HCERT must start with HC1:").
Proof.
  apply (transport_failures (Fixture.env Fixture.scan_time) "HC2:RRQT 9O60").
  reflexivity.
Defined.

(** ** The unverified record *)

(** X2.  The decoder reads the protected headers and the payload only: two
    envelopes that differ in their unprotected headers or in their
    signature decode to the same record, or fail alike.  In particular a
    key identifier placed in the unprotected headers is never used. *)
Theorem unsigned_parts_ignored (E : Env) (raw1 raw2 : value)
    (top1 top2 a c b1 d1 b2 d2 : value) :
  cbor_decodeFirst E raw1 = inr top1 ->
  get_opt top1 "value" = inr (VArr [a; b1; c; d1]) ->
  cbor_decodeFirst E raw2 = inr top2 ->
  get_opt top2 "value" = inr (VArr [a; b2; c; d2]) ->
  unsafeDGCFromCoseData E raw1 = unsafeDGCFromCoseData E raw2.
Proof.
  intros H1 V1 H2 V2. unfold unsafeDGCFromCoseData.
  rewrite H1, H2. cbn [from_lib bind]. rewrite V1, V2. reflexivity.
Qed.

Lemma unsigned_parts_ignored_witness :
  unsafeDGCFromCoseData (Fixture.env Fixture.scan_time)
    (Fixture.raw_of Fixture.doc_valid)
  = unsafeDGCFromCoseData (Fixture.env Fixture.scan_time)
      (Fixture.raw_of Documents.doc_resigned).
Proof.
  eapply (unsigned_parts_ignored (Fixture.env Fixture.scan_time));
    lazy; reflexivity.
Defined.

Lemma triples_ind {A} (P : list A -> Prop) :
  P [] -> (forall x, P [x]) -> (forall x y, P [x; y]) ->
  (forall x y z l, P l -> P (x :: y :: z :: l)) ->
  forall l, P l.
Proof.
  intros H0 H1 H2 H3. fix IH 1.
  intros [|x [|y [|z l]]]; [exact H0 | apply H1 | apply H2 |].
  apply H3. apply IH.
Qed.

(** Base64 text comes in groups of four characters. *)
Lemma toString_base64_length (b : list byte) :
  (String.length (toString_base64 b) = 4 * ((length b + 2) / 3))%nat.
Proof.
  induction b as [| x | x y | x y z rest IH] using triples_ind;
    try reflexivity.
  cbn [toString_base64 String.length length]. rewrite IH.
  replace (S (S (S (length rest))) + 2)%nat with (length rest + 2 + 1 * 3)%nat by lia.
  rewrite Nat.div_add by lia. lia.
Qed.

Lemma js_or_null (x : value) : null_or_truthy (js_or x VNull) = true.
Proof. unfold null_or_truthy, js_or. destruct (truthy x) eqn:H; [rewrite H; apply orb_true_r | reflexivity]. Qed.

(** X3.  Whenever the decoder returns a record: its body is truthy and
    has passed schema validation; its issuer, issue date and expiration
    date are each [null] or truthy, never [undefined], 0 or the empty
    text; and its key identifier is the base64 text of a byte buffer, of a
    length that is a multiple of four. *)
Theorem decoded_record_invariants (E : Env) (rawCoseData : value)
    (dgc : UnsafeDGC) :
  unsafeDGCFromCoseData E rawCoseData = inr dgc ->
  (ajv_validate E (hcert dgc)).1 = true
  /\ truthy (hcert dgc) = true
  /\ null_or_truthy (issuer dgc) = true
  /\ null_or_truthy (issuedAt dgc) = true
  /\ null_or_truthy (expiresAt dgc) = true
  /\ (exists kidBuffer, kid dgc = toString_base64 kidBuffer)
  /\ (String.length (kid dgc) mod 4 = 0)%nat.
Proof.
  rewrite unsafeDGCFromCoseData_parts.
  destruct (decode_envelope E rawCoseData) as [e|[phdrs payload]];
    [discriminate|]; cbn [bind].
  unfold extract_kid.
  destruct (map_get phdrs COSE_HEADERS.KID) as [e|rawKid]; [discriminate|];
    cbn [bind].
  destruct (js_not rawKid); [discriminate|].
  destruct (Buffer_from E rawKid) as [m|kidBuffer]; [discriminate|];
    cbn [from_lib bind ret].
  unfold decode_claims.
  destruct (cbor_decodeFirst E payload) as [m|cborData]; [discriminate|];
    cbn [from_lib bind].
  destruct (map_get cborData CWT_CLAIMS.HCERT) as [e|outer]; [discriminate|];
    cbn [bind].
  destruct (map_get_opt outer 1) as [e|inner]; [discriminate|]; cbn [bind ret].
  unfold validate_schema.
  destruct (ajv_validate E (js_or inner (VObj []))) as [[|] errors] eqn:Hajv;
    [|discriminate]; cbn [negb bind ret].
  intros [= <-]. unfold unverified. cbn [hcert issuer issuedAt expiresAt kid].
  rewrite Hajv. repeat split; try apply js_or_null.
  - unfold js_or. destruct (truthy inner) eqn:Hi; [exact Hi | reflexivity].
  - exists kidBuffer. reflexivity.
  - rewrite toString_base64_length, Nat.mul_comm. apply Nat.Div0.mod_mul.
Qed.

Lemma decoded_record_invariants_witness :
  exists dgc,
    unsafeDGCFromCoseData (Fixture.env Fixture.scan_time)
      (Fixture.raw_of Fixture.doc_zero_exp) = inr dgc
    /\ null_or_truthy (expiresAt dgc) = true
    /\ (String.length (kid dgc) mod 4 = 0)%nat.
Proof.
  eexists. split; [lazy; reflexivity|].
  match goal with
  | |- null_or_truthy (expiresAt ?d) = _ /\ _ =>
      pose proof (decoded_record_invariants (Fixture.env Fixture.scan_time)
                    (Fixture.raw_of Fixture.doc_zero_exp) d) as H
  end.
  destruct H as (_ & _ & _ & _ & Hexp & _ & Hkid); [lazy; reflexivity|].
  split; [exact Hexp | exact Hkid].
Defined.

(** What a returned record is made of. *)
Lemma unsafeDGCFromCoseData_inr (E : Env) (rawCoseData : value)
    (dgc : UnsafeDGC) :
  unsafeDGCFromCoseData E rawCoseData = inr dgc ->
  exists phdrs payload rawKid kidBuffer cborData hcert,
    decode_envelope E rawCoseData = inr (phdrs, payload)
    /\ map_get phdrs COSE_HEADERS.KID = inr rawKid
    /\ truthy rawKid = true
    /\ Buffer_from E rawKid = inr kidBuffer
    /\ decode_claims E payload = inr (cborData, hcert)
    /\ validate_schema E hcert = inr tt
    /\ dgc = unverified (toString_base64 kidBuffer) cborData hcert.
Proof.
  rewrite unsafeDGCFromCoseData_parts.
  destruct (decode_envelope E rawCoseData) as [e|[phdrs payload]];
    [discriminate|]; cbn [bind].
  unfold extract_kid.
  destruct (map_get phdrs COSE_HEADERS.KID) as [e|rawKid] eqn:Hget;
    [discriminate|]; cbn [bind].
  unfold js_not. destruct (truthy rawKid) eqn:Hkid; [|discriminate]; cbn [negb].
  destruct (Buffer_from E rawKid) as [m|kidBuffer] eqn:Hbuf; [discriminate|];
    cbn [from_lib bind ret].
  destruct (decode_claims E payload) as [e|[cborData hcert]] eqn:Hclaims;
    [discriminate|]; cbn [bind].
  destruct (validate_schema E hcert) as [e|[]] eqn:Hschema; [discriminate|];
    cbn [bind ret].
  intros [= <-]. exists phdrs, payload, rawKid, kidBuffer, cborData, hcert.
  repeat split; auto.
Qed.

Lemma b64_char_not_underscore (n : N) : b64_char n <> "_"%char.
Proof.
  unfold b64_char. generalize (N.to_nat n). intros k.
  unfold b64_alphabet.
  do 64 (destruct k as [|k]; [discriminate|]; cbn [String.get Nat.eqb]).
  discriminate.
Qed.

Lemma toString_base64_head (b : list byte) (c : ascii) (s : string) :
  toString_base64 b = String c s -> c <> "_"%char.
Proof.
  destruct b as [|x [|y [|z rest]]]; cbn [toString_base64];
    [discriminate| | |]; intros [= <- _]; apply b64_char_not_underscore.
Qed.

Lemma length_mod4 (b : list byte) :
  (String.length (toString_base64 b) mod 4 = 0)%nat.
Proof. rewrite toString_base64_length, Nat.mul_comm. apply Nat.Div0.mod_mul. Qed.

(** X4.  Of the property names every object inherits, only [toString] and
    [propertyIsEnumerable] can be the key identifier of a decoded record:
    the others are not base64 texts.  These two are the only key
    identifiers that the operator [in] finds in a trust list that does not
    hold them. *)
Theorem inherited_key_identifiers (E : Env) (rawCoseData : value)
    (dgc : UnsafeDGC) :
  unsafeDGCFromCoseData E rawCoseData = inr dgc ->
  DCCCerts E !! kid dgc = None ->
  js_in (kid dgc) (DCCCerts E) = true ->
  kid dgc = "toString" \/ kid dgc = "propertyIsEnumerable".
Proof.
  intros Hdgc Hnone Hin.
  destruct (unsafeDGCFromCoseData_inr E rawCoseData dgc Hdgc)
    as (phdrs & payload & rawKid & kidBuffer & cborData & hcert & _ & _ & _ & _ & _ & _ & ->).
  cbn [kid unverified] in *.
  unfold js_in in Hin. rewrite Hnone in Hin.
  pose proof (length_mod4 kidBuffer) as Hlen.
  pose proof (toString_base64_head kidBuffer) as Hhead.
  revert Hin Hlen Hhead. generalize (toString_base64 kidBuffer). intros k Hin Hlen Hhead.
  unfold inherited in Hin. apply existsb_exists in Hin as (name & Hname & Heq).
  apply String.eqb_eq in Heq. subst name.
  unfold Object_prototype in Hname. cbn [In] in Hname.
  repeat (destruct Hname as [Hname|Hname];
          [subst k;
           first [ left; reflexivity | right; reflexivity
                 | exfalso; discriminate Hlen
                 | exfalso; exact (Hhead _ _ eq_refl eq_refl) ] |]).
  destruct Hname.
Qed.

Lemma inherited_key_identifiers_witness :
  exists dgc,
    unsafeDGCFromCoseData (Fixture.env Fixture.scan_time)
      (Fixture.raw_of Fixture.doc_inherited) = inr dgc
    /\ kid dgc = "toString".
Proof.
  eexists. split; [lazy; reflexivity|].
  match goal with
  | |- kid ?d = _ =>
      destruct (inherited_key_identifiers (Fixture.env Fixture.scan_time)
                  (Fixture.raw_of Fixture.doc_inherited) d) as [H|H]
  end.
  - lazy. reflexivity.
  - vm_compute. reflexivity.
  - vm_compute. reflexivity.
  - exact H.
  - vm_compute in H. discriminate H.
Defined.

Lemma decoder_failure_cases (E : Env) (rawCoseData : value) (e : exn) :
  unsafeDGCFromCoseData E rawCoseData = inl e ->
  e = Error "Unexpected COSE data. DGC is probably invalid."
  \/ e = Error "Cannot find a KID in COSE Data. DGC is probably invalid."
  \/ (exists errors,
        e = Error ("DGC validation failed:" +:+ LF +:+ validationErrors errors +:+ "."))
  \/ e = TypeError
  \/ (exists m, e = Thrown LCbor m)
  \/ (exists m, e = Thrown LBuffer m).
Proof.
  unfold unsafeDGCFromCoseData.
  destruct (cbor_decodeFirst E rawCoseData) as [m|coseData];
    cbn [from_lib bind]; [intros [= <-]; eauto 10|].
  unfold get_opt. destruct (nullish coseData).
  - cbn. intros [= <-]. auto.
  - destruct (get coseData "value") as [x|coseValue] eqn:Hget; cbn [bind].
    { intros [= <-]. destruct coseData; cbn in Hget; try discriminate Hget;
        injection Hget as <-; auto 10. }
    destruct (js_not coseValue || negb (isArray coseValue)
              || negb (Z.of_nat (length (items_of coseValue)) =? 4));
      [intros [= <-]; auto|].
    destruct (cbor_decodeFirst E (item coseValue 0)) as [m|phdrs];
      cbn [from_lib bind]; [intros [= <-]; eauto 10|].
    destruct phdrs; cbn [map_get bind throw ret];
      try (intros [= <-]; auto 10).
    destruct (js_not (map_find entries COSE_HEADERS.KID));
      [intros [= <-]; auto|].
    destruct (Buffer_from E (map_find entries COSE_HEADERS.KID)) as [m|kidBuffer];
      cbn [from_lib bind]; [intros [= <-]; eauto 10|].
    destruct (cbor_decodeFirst E (item coseValue 2)) as [m|cborData];
      cbn [from_lib bind]; [intros [= <-]; eauto 10|].
    destruct cborData; cbn [map_get bind throw ret];
      try (intros [= <-]; auto 10).
    unfold map_get_opt.
    destruct (nullish (map_find entries0 CWT_CLAIMS.HCERT)); cbn [bind ret].
    + destruct (ajv_validate E (js_or VUndefined (VObj []))) as [[|] errors];
        cbn [negb]; [discriminate | intros [= <-]; eauto 10].
    + destruct (map_find entries0 CWT_CLAIMS.HCERT); cbn [map_get bind throw ret];
        try (intros [= <-]; auto 10).
      destruct (ajv_validate E (js_or (map_find entries1 1) (VObj [])))
        as [[|] errors]; cbn [negb]; [discriminate | intros [= <-]; eauto 10].
Qed.

(** X5.  The decoder fails with one of its three own errors, with a
    TypeError, or with an error of the CBOR or buffer package; it never
    raises one of the four certificate errors (issued in the future,
    expired, unknown signer, invalid signing certificate). *)
Theorem decoder_failures (E : Env) (rawCoseData : value) (e : exn) :
  unsafeDGCFromCoseData E rawCoseData = inl e ->
  (e = Error "Unexpected COSE data. DGC is probably invalid."
   \/ e = Error "Cannot find a KID in COSE Data. DGC is probably invalid."
   \/ (exists errors,
         e = Error ("DGC validation failed:" +:+ LF +:+ validationErrors errors +:+ "."))
   \/ e = TypeError
   \/ (exists m, e = Thrown LCbor m)
   \/ (exists m, e = Thrown LBuffer m))
  /\ class_of e <> IssuedInFuture /\ class_of e <> Expired
  /\ class_of e <> UnknownKid /\ class_of e <> InvalidCertificate.
Proof.
  intros He. pose proof (decoder_failure_cases E rawCoseData e He) as Hcases.
  split; [exact Hcases|].
  destruct Hcases as [->|[->|[[? ->]|[->|[[? ->]|[? ->]]]]]];
    repeat split; discriminate.
Qed.

Lemma decoder_failures_witness :
  class_of (Thrown LCbor "Insufficient data") <> UnknownKid.
Proof.
  apply (decoder_failures (Fixture.env Fixture.scan_time)
           (Fixture.raw_of Fixture.doc_truncated)).
  lazy. reflexivity.
Defined.

(** X6.  When the claims map has no claim -260, or a [null] one, the body
    is taken to be the empty object and it is this object that is
    validated: the decoder returns a record with an empty body if the
    schema accepts the empty object and the validation error otherwise.
    A claim -260 that is neither missing nor a map is a TypeError. *)
Theorem missing_certificate_body (E : Env) (rawCoseData : value)
    (phdrs cosePayload : value) (kid : string)
    (entries : list (value * value)) :
  decode_envelope E rawCoseData = inr (phdrs, cosePayload) ->
  extract_kid E phdrs = inr kid ->
  cbor_decodeFirst E cosePayload = inr (VMap entries) ->
  (nullish (map_find entries CWT_CLAIMS.HCERT) = true ->
   unsafeDGCFromCoseData E rawCoseData =
   if (ajv_validate E (VObj [])).1
   then inr (unverified kid (VMap entries) (VObj []))
   else inl (Error ("DGC validation failed:" +:+ LF
                      +:+ validationErrors (ajv_validate E (VObj [])).2 +:+ ".")))
  /\ (nullish (map_find entries CWT_CLAIMS.HCERT) = false ->
      (forall inner, map_find entries CWT_CLAIMS.HCERT <> VMap inner) ->
      unsafeDGCFromCoseData E rawCoseData = inl TypeError).
Proof.
  intros Henv Hkid Hpayload.
  rewrite unsafeDGCFromCoseData_parts, Henv. cbn [bind]. rewrite Hkid. cbn [bind].
  unfold decode_claims. rewrite Hpayload. cbn [from_lib bind map_get ret].
  unfold map_get_opt. split.
  - intros ->. cbn [bind ret]. unfold validate_schema.
    change (js_or VUndefined (VObj [])) with (VObj []).
    destruct (ajv_validate E (VObj [])) as [[|] errors]; reflexivity.
  - intros -> Hnomap.
    destruct (map_find entries CWT_CLAIMS.HCERT); try reflexivity.
    exfalso. exact (Hnomap _ eq_refl).
Qed.

Lemma missing_certificate_body_witness :
  unsafeDGCFromCoseData (Fixture.env Fixture.scan_time)
    (Fixture.raw_of Documents.doc_no_hcert)
  = inl (Error ("DGC validation failed:" +:+ LF
                  +:+ "must have required property 'ver'" +:+ "."))
  /\ unsafeDGCFromCoseData (Fixture.env Fixture.scan_time)
       (Fixture.raw_of Documents.doc_text_hcert) = inl TypeError.
Proof.
  split.
  - edestruct (missing_certificate_body (Fixture.env Fixture.scan_time)
                 (Fixture.raw_of Documents.doc_no_hcert)) as [Hmissing _].
    + lazy. reflexivity.
    + lazy. reflexivity.
    + lazy. reflexivity.
    + rewrite Hmissing by (vm_compute; reflexivity). vm_compute. reflexivity.
  - edestruct (missing_certificate_body (Fixture.env Fixture.scan_time)
                 (Fixture.raw_of Documents.doc_text_hcert)) as [_ Htext].
    + lazy. reflexivity.
    + lazy. reflexivity.
    + lazy. reflexivity.
    + apply Htext; [vm_compute; reflexivity | vm_compute; discriminate].
Defined.

(** ** The validity interval of the claims, in milliseconds *)

Lemma seconds_lt (d i : Z) : d / 1000 < i <-> d < 1000 * i.
Proof.
  pose proof (Z.div_mod d 1000 ltac:(lia)).
  pose proof (Z.mod_pos_bound d 1000 ltac:(lia)). lia.
Qed.

(** X7.  The claims of a document are in order exactly from the first
    millisecond of the second it was issued at up to the last millisecond
    of the second it expires at: the clock is read in milliseconds and
    rounded down to the second before both comparisons.  A missing claim
    puts no bound. *)
Theorem claims_validity_interval (E : Env) (h : value) (k : string) (iss : value)
    (issued_at expires_at : option Z) :
  verifyDGCClaims E (claims_record h k iss issued_at expires_at) = inr tt
  <-> match issued_at with Some i => 1000 * i <= Date_now E | None => True end
      /\ match expires_at with Some x => Date_now E < 1000 * (x + 1) | None => True end.
Proof.
  destruct (verifyDGCClaims_cases E h k iss issued_at expires_at)
    as [[(i & -> & Hi) Heq]|[(Hnf & (x & -> & Hx) & Heq)|(Hnf & Hnx & Heq)]];
    cbv zeta in Heq; rewrite Heq; unfold now_seconds in *.
  - apply seconds_lt in Hi.
    split; [intros H; destruct (throw_DgcError_inr _ _ _ _ H) | intros [? _]; lia].
  - split; [intros H; destruct (throw_DgcError_inr _ _ _ _ H)|].
    intros [_ Hlt]. exfalso.
    pose proof (proj2 (seconds_lt (Date_now E) (x + 1)) Hlt). lia.
  - split; [intros _ | reflexivity]. split.
    + destruct issued_at as [i|]; [|exact I].
      destruct (Z_lt_le_dec (Date_now E) (1000 * i)) as [Hlt|Hle]; [|exact Hle].
      exfalso. apply Hnf. exists i. split; [reflexivity|].
      apply seconds_lt. exact Hlt.
    + destruct expires_at as [x|]; [|exact I].
      destruct (Z_lt_le_dec (Date_now E) (1000 * (x + 1))) as [Hlt|Hle]; [exact Hlt|].
      exfalso. apply Hnx. exists x. split; [reflexivity|].
      unfold now_seconds.
      destruct (Z_lt_le_dec x (Date_now E / 1000)) as [?|Hge]; [assumption|].
      exfalso. assert (Hs : Date_now E / 1000 < x + 1) by lia.
      apply seconds_lt in Hs. lia.
Qed.

(** ** The exported key *)

Lemma take_drop_chars (n : nat) (s : string) :
  take_chars n s +:+ drop_chars n s = s.
Proof.
  revert s. induction n as [|n IH]; intros [|c s]; try reflexivity.
  cbn [take_chars drop_chars]. change (String c (take_chars n s) +:+ drop_chars n s)
    with (String c (take_chars n s +:+ drop_chars n s)). now rewrite IH.
Qed.

Lemma length_take_chars (n : nat) (s : string) :
  String.length (take_chars n s) = Nat.min n (String.length s).
Proof.
  revert s. induction n as [|n IH]; intros [|c s]; try reflexivity.
  cbn [take_chars String.length]. now rewrite IH.
Qed.

Lemma length_drop_chars (n : nat) (s : string) :
  String.length (drop_chars n s) = (String.length s - n)%nat.
Proof.
  revert s. induction n as [|n IH]; intros [|c s]; try reflexivity.
  cbn [drop_chars String.length]. now rewrite IH.
Qed.

Lemma length_zero_empty (s : string) : String.length s = 0%nat -> s = "".
Proof. destruct s; [reflexivity | discriminate]. Qed.

Lemma pieces64_empty (fuel : nat) : pieces64 fuel "" = [].
Proof. destruct fuel; reflexivity. Qed.

Lemma pieces64_step (fuel : nat) (c : ascii) (s : string) :
  pieces64 (S fuel) (String c s)
  = take_chars 64 (String c s) :: pieces64 fuel (drop_chars 64 (String c s)).
Proof. reflexivity. Qed.

Lemma join_empty_cons (x : string) (l : list string) :
  join "" (x :: l) = x +:+ join "" l.
Proof.
  destruct l as [|y l]; cbn [join]; [now rewrite append_empty_r | reflexivity].
Qed.

Lemma pieces64_layout (fuel : nat) (s : string) :
  (String.length s <= fuel)%nat -> s <> "" ->
  exists lines last,
    pieces64 fuel s = (lines ++ [last])%list
    /\ join "" (lines ++ [last])%list = s
    /\ Forall (fun l => String.length l = 64%nat) lines
    /\ (1 <= String.length last <= 64)%nat.
Proof.
  revert s. induction fuel as [|fuel IH]; intros s Hlen Hne.
  - exfalso. apply Hne, length_zero_empty. lia.
  - destruct s as [|c s]; [congruence|]. rewrite pieces64_step.
    pose proof (take_drop_chars 64 (String c s)) as Htd.
    pose proof (length_take_chars 64 (String c s)) as Hlt.
    pose proof (length_drop_chars 64 (String c s)) as Hld.
    remember (String c s) as whole eqn:Hwhole.
    assert (Hpos : (1 <= String.length whole)%nat)
      by (subst whole; cbn [String.length]; lia).
    assert (Hfuel : (String.length (drop_chars 64 whole) <= fuel)%nat) by lia.
    clear Hwhole.
    destruct (drop_chars 64 whole) as [|d rest] eqn:Hdrop.
    + exists [], (take_chars 64 whole). rewrite pieces64_empty.
      rewrite append_empty_r in Htd. cbn [String.length] in Hld.
      repeat split.
      * cbn [app join]. exact Htd.
      * constructor.
      * lia.
      * lia.
    + destruct (IH (String d rest) Hfuel ltac:(discriminate))
        as (lines & last & Hp & Hj & Hall & Hlast).
      exists (take_chars 64 whole :: lines), last. rewrite Hp.
      cbn [String.length] in Hld. repeat split.
      * change ((take_chars 64 whole :: lines) ++ [last])%list
          with (take_chars 64 whole :: (lines ++ [last]))%list.
        rewrite join_empty_cons, Hj. exact Htd.
      * constructor; [lia | exact Hall].
      * lia.
      * lia.
Qed.

Lemma toString_base64_nonempty (b : list byte) : b <> [] -> toString_base64 b <> "".
Proof.
  destruct b as [|x [|y [|z rest]]]; [congruence| | |];
    intros _; cbn [toString_base64]; discriminate.
Qed.

(** X8.  The exported key is the base64 text of its SPKI encoding between
    the two PEM marker lines, cut into lines of exactly 64 characters with
    a last line of 1 to 64 characters: the lines put end to end give the
    base64 text back.  When the SPKI encoding is empty there is no line
    at all and the export is a TypeError. *)
Theorem exported_key_layout (E : Env) (pk : CryptoKey) (spki : list byte) :
  exportKey_spki E pk = inr spki ->
  (spki = [] -> exportPublicKeyToPEM E pk = inl TypeError)
  /\ (spki <> [] ->
      exists lines last,
        exportPublicKeyToPEM E pk
        = inr ("-----BEGIN PUBLIC KEY-----" +:+ LF
                 +:+ join LF (lines ++ [last])%list +:+ LF
                 +:+ "-----END PUBLIC KEY-----")
        /\ join "" (lines ++ [last])%list = toString_base64 spki
        /\ Forall (fun l => String.length l = 64%nat) lines
        /\ (1 <= String.length last <= 64)%nat).
Proof.
  intros Hspki. unfold exportPublicKeyToPEM. rewrite Hspki. cbn [from_lib bind].
  split.
  - intros ->. reflexivity.
  - intros Hne.
    destruct (pieces64_layout (String.length (toString_base64 spki))
                (toString_base64 spki) ltac:(lia) (toString_base64_nonempty _ Hne))
      as (lines & last & Hp & Hj & Hall & Hlast).
    exists lines, last. unfold match_lines64. rewrite Hp.
    destruct (lines ++ [last])%list as [|l0 ls] eqn:Hl.
    + destruct lines; discriminate Hl.
    + split; [reflexivity|]. split; [exact Hj|]. split; [exact Hall | exact Hlast].
Qed.

Lemma exported_key_layout_witness :
  exists lines last,
    exportPublicKeyToPEM (Fixture.env Fixture.scan_time) Fixture.trusted_key
    = inr ("-----BEGIN PUBLIC KEY-----" +:+ LF
             +:+ join LF (lines ++ [last])%list +:+ LF
             +:+ "-----END PUBLIC KEY-----")
    /\ join "" (lines ++ [last])%list
       = toString_base64 (key_material Fixture.trusted_key)
    /\ Forall (fun l => String.length l = 64%nat) lines
    /\ (1 <= String.length last <= 64)%nat.
Proof.
  refine (proj2 (exported_key_layout (Fixture.env Fixture.scan_time)
                   Fixture.trusted_key (key_material Fixture.trusted_key) _) _).
  - vm_compute. reflexivity.
  - vm_compute. discriminate.
Defined.

(** ** What each step can fail with *)

Lemma get_failure (v : value) (p : string) (e : exn) :
  get v p = inl e -> e = TypeError.
Proof.
  destruct v; cbv [get first call_replace_lt ret throw]; intros H;
    (discriminate H || (injection H as <-; reflexivity)).
Qed.

Lemma first_failure (v : value) (e : exn) : first v = inl e -> e = TypeError.
Proof.
  destruct v; cbv [get first call_replace_lt ret throw]; intros H;
    (discriminate H || (injection H as <-; reflexivity)).
Qed.

Lemma call_replace_lt_failure (v : value) (e : exn) :
  call_replace_lt v = inl e -> e = TypeError.
Proof.
  destruct v; cbv [get first call_replace_lt ret throw]; intros H;
    (discriminate H || (injection H as <-; reflexivity)).
Qed.

Lemma nonempty_failure (v : value) (e : exn) :
  nonempty v = inl e -> e = TypeError.
Proof.
  unfold nonempty. destruct (truthy v); [|discriminate].
  destruct (get v "length") as [e'|len] eqn:Hlen; cbn; [|discriminate].
  intros [= <-]. exact (get_failure _ _ _ Hlen).
Qed.

Lemma throw_DgcError_failure {A} (E : Env) (C : UnsafeDGC -> exn) (dgc : UnsafeDGC)
    (e : exn) :
  throw_DgcError E C dgc = (inl e : result A) -> e = C dgc \/ e = TypeError.
Proof.
  unfold throw_DgcError. destruct (JSON_stringify_tab E dgc);
    intros [= <-]; auto.
Qed.

Lemma verifyDGCClaims_failure (E : Env) (dgc : UnsafeDGC) (e : exn) :
  verifyDGCClaims E dgc = inl e ->
  e = DgcIssuedInFutureError dgc \/ e = ExpiredDgcError dgc \/ e = TypeError.
Proof.
  unfold verifyDGCClaims.
  destruct (negb (is_null (issuedAt dgc)) && _);
    [intros H; destruct (throw_DgcError_failure _ _ _ _ H); auto|].
  destruct (negb (is_null (expiresAt dgc)) && _);
    [intros H; destruct (throw_DgcError_failure _ _ _ _ H); auto|].
  discriminate.
Qed.

Lemma exportPublicKeyToPEM_failure (E : Env) (pk : CryptoKey) (e : exn) :
  exportPublicKeyToPEM E pk = inl e ->
  e = TypeError \/ exists m, e = Thrown LWebCrypto m.
Proof.
  unfold exportPublicKeyToPEM.
  destruct (exportKey_spki E pk) as [m|spki]; cbn [from_lib bind];
    [intros [= <-]; eauto|].
  destruct (match_lines64 (toString_base64 spki)); [discriminate|].
  intros [= <-]. auto.
Qed.

(** What a returned signer was obtained from. *)
Lemma findDGCPublicKey_inr (E : Env) (dgc : UnsafeDGC) (certificate : DSC.t)
    (public_key : CryptoKey) :
  findDGCPublicKey E dgc = inr (certificate, public_key) ->
  js_in (kid dgc) (DCCCerts E) = true
  /\ exists c thumbprint pkThumbprint publicKeyPem,
       new_X509Certificate E (js_index (DCCCerts E) (kid dgc)) = inr c
       /\ publicKey_export E c = inr public_key
       /\ getThumbprint E c = inr thumbprint
       /\ publicKey_getThumbprint E c = inr pkThumbprint
       /\ exportPublicKeyToPEM E public_key = inr publicKeyPem
       /\ x_notBefore c <= Date_now E <= x_notAfter c
       /\ certificate =
          {| DSC.serialNumber := x_serialNumber c;
             DSC.subject := x_subject c;
             DSC.issuer := x_issuer c;
             DSC.notBefore := toISOString E (x_notBefore c);
             DSC.notAfter := toISOString E (x_notAfter c);
             DSC.signatureAlgorithm := x_signatureAlgorithm c;
             DSC.signature := toString_base64 (x_signature c);
             DSC.fingerprint := toString_hex thumbprint;
             DSC.publicKeyAlgorithm := x_publicKeyAlgorithm c;
             DSC.publicKeyFingerprint := toString_hex pkThumbprint;
             DSC.publicKeyPem := publicKeyPem |}.
Proof.
  unfold findDGCPublicKey.
  destruct (js_in (kid dgc) (DCCCerts E)); cbn [negb];
    [|intros H; destruct (throw_DgcError_inr _ _ _ _ H)].
  destruct (new_X509Certificate E _) as [m|c] eqn:Hc; cbn [from_lib bind];
    [discriminate|].
  destruct (publicKey_export E c) as [m|pk] eqn:Hpk; cbn [from_lib bind];
    [discriminate|].
  destruct (getThumbprint E c) as [m|t1] eqn:Ht1; cbn [from_lib bind];
    [discriminate|].
  destruct (publicKey_getThumbprint E c) as [m|t2] eqn:Ht2; cbn [from_lib bind];
    [discriminate|].
  destruct (exportPublicKeyToPEM E pk) as [e|pem] eqn:Hpem; cbn [bind];
    [discriminate|].
  destruct (Z.gtb_spec (Date_now E) (x_notAfter c)) as [Hgt|Hle]; cbn [orb];
    [intros H; destruct (throw_DgcError_inr _ _ _ _ H)|].
  destruct (Z.ltb_spec (Date_now E) (x_notBefore c)) as [Hlt|Hge];
    [intros H; destruct (throw_DgcError_inr _ _ _ _ H)|].
  intros [= <- <-]. split; [reflexivity|].
  exists c, t1, t2, pem. repeat split; try assumption; lia.
Qed.

Lemma findDGCPublicKey_failure (E : Env) (dgc : UnsafeDGC) (e : exn) :
  findDGCPublicKey E dgc = inl e ->
  (js_in (kid dgc) (DCCCerts E) = false
   /\ (e = UnknownKidError dgc \/ e = TypeError))
  \/ (js_in (kid dgc) (DCCCerts E) = true
      /\ (e = InvalidCertificateError dgc \/ e = TypeError
          \/ (exists m, e = Thrown LX509 m) \/ (exists m, e = Thrown LWebCrypto m))).
Proof.
  unfold findDGCPublicKey.
  destruct (js_in (kid dgc) (DCCCerts E)); cbn [negb];
    [right; split; [reflexivity|]
    | intros H; left; split; [reflexivity|];
      exact (throw_DgcError_failure _ _ _ _ H)].
  revert H.
  destruct (new_X509Certificate E _) as [m|c]; cbn [from_lib bind];
    [intros [= <-]; eauto 6|].
  destruct (publicKey_export E c) as [m|pk]; cbn [from_lib bind];
    [intros [= <-]; eauto 6|].
  destruct (getThumbprint E c) as [m|t1]; cbn [from_lib bind];
    [intros [= <-]; eauto 6|].
  destruct (publicKey_getThumbprint E c) as [m|t2]; cbn [from_lib bind];
    [intros [= <-]; eauto 6|].
  destruct (exportPublicKeyToPEM E pk) as [e'|pem] eqn:Hpem; cbn [bind].
  - intros [= <-].
    destruct (exportPublicKeyToPEM_failure _ _ _ Hpem) as [->|[m ->]]; eauto 6.
  - destruct ((Date_now E >? x_notAfter c) || (Date_now E <? x_notBefore c));
      [|discriminate].
    intros H. destruct (throw_DgcError_failure _ _ _ _ H) as [->| ->]; auto.
Qed.

Lemma verifyDGC_inr (E : Env) (dgc : UnsafeDGC) (rawCoseData : value)
    (code : string) (verified : DGC) :
  verifyDGC E dgc rawCoseData code = inr verified ->
  verifyDGCClaims E dgc = inr tt
  /\ exists certificate public_key,
       findDGCPublicKey E dgc = inr (certificate, public_key)
       /\ verify E rawCoseData public_key = inr tt
       /\ verified = {| unsafe := dgc; certificate := certificate; code := code |}.
Proof.
  unfold verifyDGC.
  destruct (verifyDGCClaims E dgc) as [e|[]]; cbn [bind]; [discriminate|].
  destruct (findDGCPublicKey E dgc) as [e|[certificate public_key]]; cbn [bind];
    [discriminate|].
  destruct (verify E rawCoseData public_key) as [m|[]] eqn:Hverify;
    cbn [from_lib bind ret]; [discriminate|].
  intros [= <-]. split; [reflexivity|].
  exists certificate, public_key. repeat split. exact Hverify.
Qed.

Lemma getCertificateInfo_failure (E : Env) (cert : DGC) (e : exn) :
  getCertificateInfo E cert = inl e ->
  e = TypeError
  \/ exists text, e = Error ("Unsupported or empty certificate: " +:+ text).
Proof.
  unfold getCertificateInfo.
  repeat lazymatch goal with
  | |- bind ?m _ = inl _ -> _ =>
      let H := fresh "H" in
      destruct m as [?|?] eqn:H; cbn [bind]
  | |- (if ?b then _ else _) = inl _ -> _ => destruct b
  | |- match JSON_stringify ?E ?c with _ => _ end = inl _ -> _ =>
      destruct (JSON_stringify E c)
  | |- inl _ = inl _ -> _ => intros [= <-]
  | |- ret _ = inl _ -> _ => discriminate
  | |- throw _ = inl _ -> _ => intros [= <-]
  end;
  try (right; eexists; reflexivity);
  left; try reflexivity;
  repeat match goal with
  | H : bind ?m _ = inl _ |- _ =>
      let H' := fresh "H" in
      destruct m as [?|?] eqn:H'; cbn [bind] in H; [injection H as <-|]
  | H : (if ?b then _ else _) = inl _ |- _ => destruct b
  | H : ret _ = inl _ |- _ => discriminate H
  | H : get _ _ = inl _ |- _ => exact (get_failure _ _ _ H)
  | H : first _ = inl _ |- _ => exact (first_failure _ _ H)
  | H : nonempty _ = inl _ |- _ => exact (nonempty_failure _ _ H)
  | H : call_replace_lt _ = inl _ |- _ => exact (call_replace_lt_failure _ _ H)
  end.
Qed.

Lemma validate_schema_inr (E : Env) (hcert : value) :
  validate_schema E hcert = inr tt -> (ajv_validate E hcert).1 = true.
Proof.
  unfold validate_schema.
  destruct (ajv_validate E hcert) as [[|] errors]; [reflexivity | discriminate].
Qed.

(** ** The signer *)

(** X9.  A signer is returned only from the trust list: the certificate
    read from the entry of the key identifier is within its validity
    window at the time of the lookup, the key returned is the key exported
    from that certificate, and the description returned with it is that of
    this certificate: its serial number, subject and issuer, its two dates
    in ISO form, its signature in base64, its two thumbprints in
    hexadecimal (two characters a byte) and the PEM text of the key. *)
Theorem returned_signer_is_trusted (E : Env) (dgc : UnsafeDGC)
    (certificate : DSC.t) (public_key : CryptoKey) :
  findDGCPublicKey E dgc = inr (certificate, public_key) ->
  (DCCCerts E !! kid dgc <> None \/ inherited (kid dgc) = true)
  /\ exists c thumbprint pkThumbprint,
       new_X509Certificate E (js_index (DCCCerts E) (kid dgc)) = inr c
       /\ publicKey_export E c = inr public_key
       /\ within_window E c
       /\ DSC.serialNumber certificate = x_serialNumber c
       /\ DSC.subject certificate = x_subject c
       /\ DSC.issuer certificate = x_issuer c
       /\ DSC.notBefore certificate = toISOString E (x_notBefore c)
       /\ DSC.notAfter certificate = toISOString E (x_notAfter c)
       /\ DSC.signature certificate = toString_base64 (x_signature c)
       /\ getThumbprint E c = inr thumbprint
       /\ DSC.fingerprint certificate = toString_hex thumbprint
       /\ String.length (DSC.fingerprint certificate) = (2 * length thumbprint)%nat
       /\ publicKey_getThumbprint E c = inr pkThumbprint
       /\ DSC.publicKeyFingerprint certificate = toString_hex pkThumbprint
       /\ exportPublicKeyToPEM E public_key = inr (DSC.publicKeyPem certificate).
Proof.
  intros Hfind.
  destruct (findDGCPublicKey_inr E dgc certificate public_key Hfind)
    as (Hin & c & t1 & t2 & pem & Hc & Hpk & Ht1 & Ht2 & Hpem & Hwin & ->).
  split.
  - unfold js_in in Hin. destruct (DCCCerts E !! kid dgc); [left; discriminate | auto].
  - exists c, t1, t2. cbn [DSC.serialNumber DSC.subject DSC.issuer DSC.notBefore
      DSC.notAfter DSC.signature DSC.fingerprint DSC.publicKeyFingerprint
      DSC.publicKeyPem].
    repeat (split; [first [assumption | reflexivity]|]);
      try first [assumption | reflexivity].
    split; [|repeat (split; [first [assumption | reflexivity]|]); assumption].
    clear. induction t1 as [|x t1 IH]; [reflexivity|].
    cbn [toString_hex String.length length]. rewrite IH. lia.
Qed.

Lemma returned_signer_is_trusted_witness :
  exists c,
    new_X509Certificate (Fixture.env Fixture.scan_time)
      (js_index (DCCCerts (Fixture.env Fixture.scan_time))
         (kid (unsafe (Fixture.verified VNull)))) = inr c
    /\ within_window (Fixture.env Fixture.scan_time) c.
Proof.
  destruct (returned_signer_is_trusted (Fixture.env Fixture.scan_time)
              (unsafe (Fixture.verified VNull)) Fixture.trusted_dsc Fixture.trusted_key)
    as (_ & c & _ & _ & Hc & _ & Hwin & _).
  - vm_compute. reflexivity.
  - exists c. split; [exact Hc | exact Hwin].
Defined.

(** X10.  Verification of a record fails with one of the four certificate
    errors, each carrying the very record under verification, with a
    TypeError, or with what the certificate, cryptography or signature
    package throws.  The signature is the last check: when the signature
    package rejects, the claims were in order, a signer was found within
    its validity window, and it is the key of this signer that the
    signature was checked against. *)
Theorem verification_failures (E : Env) (dgc : UnsafeDGC)
    (rawCoseData : value) (code : string) (e : exn) :
  verifyDGC E dgc rawCoseData code = inl e ->
  (e = DgcIssuedInFutureError dgc \/ e = ExpiredDgcError dgc
   \/ e = UnknownKidError dgc \/ e = InvalidCertificateError dgc
   \/ e = TypeError
   \/ (exists m, e = Thrown LX509 m) \/ (exists m, e = Thrown LWebCrypto m)
   \/ (exists m, e = Thrown LCosette m))
  /\ (forall m, e = Thrown LCosette m ->
      verifyDGCClaims E dgc = inr tt
      /\ exists certificate public_key,
           findDGCPublicKey E dgc = inr (certificate, public_key)
           /\ verify E rawCoseData public_key = inl m).
Proof.
  unfold verifyDGC.
  destruct (verifyDGCClaims E dgc) as [e'|[]] eqn:Hclaims; cbn [bind].
  { intros [= <-].
    destruct (verifyDGCClaims_failure _ _ _ Hclaims) as [->|[->| ->]];
      (split; [auto 10 | discriminate]). }
  destruct (findDGCPublicKey E dgc) as [e'|[certificate public_key]] eqn:Hfind;
    cbn [bind].
  { intros [= <-].
    destruct (findDGCPublicKey_failure _ _ _ Hfind)
      as [[_ [->| ->]]|[_ [->|[->|[[m ->]|[m ->]]]]]];
      (split; [eauto 12 | discriminate]). }
  destruct (verify E rawCoseData public_key) as [m|[]] eqn:Hverify;
    cbn [from_lib bind ret]; [|discriminate].
  intros [= <-]. split; [eauto 12|].
  intros m' [= <-]. split; [reflexivity|].
  exists certificate, public_key. split; [reflexivity | exact Hverify].
Qed.

Lemma verification_failures_witness :
  verifyDGCClaims (Fixture.env Fixture.scan_time)
    (unsafe (Fixture.verified VNull)) = inr tt
  /\ exists certificate public_key,
       findDGCPublicKey (Fixture.env Fixture.scan_time)
         (unsafe (Fixture.verified VNull)) = inr (certificate, public_key)
       /\ verify (Fixture.env Fixture.scan_time)
            (VBytes (Fixture.bytes_of_string "XXXX")) public_key
          = inl "Signature missmatch".
Proof.
  refine (proj2 (verification_failures (Fixture.env Fixture.scan_time)
                   (unsafe (Fixture.verified VNull))
                   (VBytes (Fixture.bytes_of_string "XXXX")) ""
                   (Thrown LCosette "Signature missmatch") _) _ eq_refl).
  vm_compute. reflexivity.
Defined.

Lemma getCertificateInfo_inr (E : Env) (cert : DGC) (info : CommonCertificateInfo) :
  getCertificateInfo E cert = inr info ->
  (type_of info = "vaccination" \/ type_of info = "test")
  /\ common_code (common_of info) = code cert
  /\ source (common_of info) = {| format := "dgc"; cert := cert |}.
Proof.
  unfold getCertificateInfo.
  repeat lazymatch goal with
  | |- bind ?m _ = inr _ -> _ => destruct m as [?|?]; cbn [bind]
  | |- (if ?b then _ else _) = inr _ -> _ => destruct b
  | |- match JSON_stringify ?E ?c with _ => _ end = inr _ -> _ =>
      destruct (JSON_stringify E c)
  | |- inl _ = inr _ -> _ => discriminate
  | |- throw _ = inr _ -> _ => discriminate
  | |- ret _ = inr _ -> _ => intros [= <-]
  end;
  cbn [type_of common_of common_code source]; auto.
Qed.

(** ** The whole pipeline *)

(** X11.  A document is accepted only after every check has passed: the
    text carries the prefix and decodes to bytes, the bytes decode to a
    record whose body has passed schema validation, the claims of the
    record are in order, its key identifier leads to a certificate within
    its validity window, and the signature package has accepted these very
    bytes under the key of this certificate.  The normalized record then
    has type "vaccination" or "test", format "dgc", and carries the text
    it was scanned from and the record that was verified. *)
Theorem accepted_document_passed_every_check (E : Env) (doc : string)
    (info : CommonCertificateInfo) :
  parse E doc = inr info ->
  exists rawCoseData dgc c public_key,
    startsWith doc DGC_PREFIX = true
    /\ extractCoseFromQRCode E doc = inr rawCoseData
    /\ unsafeDGCFromCoseData E rawCoseData = inr dgc
    /\ (ajv_validate E (hcert dgc)).1 = true
    /\ verifyDGCClaims E dgc = inr tt
    /\ js_in (kid dgc) (DCCCerts E) = true
    /\ new_X509Certificate E (js_index (DCCCerts E) (kid dgc)) = inr c
    /\ publicKey_export E c = inr public_key
    /\ within_window E c
    /\ verify E rawCoseData public_key = inr tt
    /\ (type_of info = "vaccination" \/ type_of info = "test")
    /\ common_code (common_of info) = doc
    /\ format (source (common_of info)) = "dgc"
    /\ unsafe (cert (source (common_of info))) = dgc
    /\ code (cert (source (common_of info))) = doc.
Proof.
  unfold parse.
  destruct (extractCoseFromQRCode E doc) as [e|rawCoseData] eqn:Hraw;
    cbn [bind]; [discriminate|].
  destruct (unsafeDGCFromCoseData E rawCoseData) as [e|dgc] eqn:Hdgc;
    cbn [bind]; [discriminate|].
  destruct (verifyDGC E dgc rawCoseData doc) as [e|verified] eqn:Hver;
    cbn [bind]; [discriminate|].
  intros Hinfo.
  destruct (verifyDGC_inr _ _ _ _ _ Hver)
    as (Hclaims & certificate & public_key & Hfind & Hverify & ->).
  destruct (findDGCPublicKey_inr _ _ _ _ Hfind)
    as (Hin & c & t1 & t2 & pem & Hc & Hpk & _ & _ & _ & Hwin & _).
  destruct (unsafeDGCFromCoseData_inr _ _ _ Hdgc)
    as (phdrs & payload & rawKid & kidBuffer & cborData & body & _ & _ & _ & _ & _
        & Hschema & Hrecord).
  exists rawCoseData, dgc, c, public_key.
  split.
  { unfold extractCoseFromQRCode in Hraw.
    destruct (startsWith doc DGC_PREFIX); [reflexivity | discriminate Hraw]. }
  do 2 (split; [first [assumption | reflexivity]|]).
  split; [rewrite Hrecord; exact (validate_schema_inr _ _ Hschema)|].
  do 6 (split; [first [assumption | reflexivity]|]).
  destruct (getCertificateInfo_inr _ _ _ Hinfo) as (Htype & Hcode & Hsource).
  rewrite Hsource, Hcode. cbn [format cert unsafe code]. auto 6.
Qed.

Lemma accepted_document_passed_every_check_witness :
  exists rawCoseData public_key,
    extractCoseFromQRCode (Fixture.env Fixture.scan_time) Fixture.doc_valid
    = inr rawCoseData
    /\ verify (Fixture.env Fixture.scan_time) rawCoseData public_key = inr tt.
Proof.
  edestruct (accepted_document_passed_every_check (Fixture.env Fixture.scan_time)
               Fixture.doc_valid)
    as (raw & dgc & c & pk & _ & Hraw & _ & _ & _ & _ & _ & _ & _ & Hverify & _).
  - vm_compute. reflexivity.
  - exists raw, pk. split; [exact Hraw | exact Hverify].
Defined.

(** X12.  When [parse] rejects a document with one of the four
    certificate errors, the error carries the record decoded from this
    very document, so that the data of a rejected certificate can be
    inspected; a document is never rejected with such an error before it
    has been decoded and has passed schema validation. *)
Theorem certificate_errors_carry_the_record (E : Env) (doc : string) (e : exn) :
  parse E doc = inl e ->
  class_of e = IssuedInFuture \/ class_of e = Expired
  \/ class_of e = UnknownKid \/ class_of e = InvalidCertificate ->
  exists rawCoseData dgc,
    extractCoseFromQRCode E doc = inr rawCoseData
    /\ unsafeDGCFromCoseData E rawCoseData = inr dgc
    /\ (ajv_validate E (hcert dgc)).1 = true
    /\ (e = DgcIssuedInFutureError dgc \/ e = ExpiredDgcError dgc
        \/ e = UnknownKidError dgc \/ e = InvalidCertificateError dgc).
Proof.
  unfold parse. intros Hparse Hclass.
  destruct (extractCoseFromQRCode E doc) as [e0|rawCoseData] eqn:Hraw;
    cbn [bind] in Hparse.
  { injection Hparse as <-. exfalso. unfold extractCoseFromQRCode in Hraw.
    destruct (negb (startsWith doc DGC_PREFIX)).
    - injection Hraw as <-. cbn in Hclass. intuition discriminate.
    - destruct (decodeb45 E _); cbn in Hraw; [|discriminate Hraw].
      injection Hraw as <-. cbn in Hclass. intuition discriminate. }
  destruct (unsafeDGCFromCoseData E rawCoseData) as [e0|dgc] eqn:Hdgc;
    cbn [bind] in Hparse.
  { injection Hparse as <-. exfalso.
    destruct (decoder_failure_cases _ _ _ Hdgc)
      as [->|[->|[[? ->]|[->|[[? ->]|[? ->]]]]]];
      cbn in Hclass; intuition discriminate. }
  exists rawCoseData, dgc.
  do 2 (split; [first [assumption | reflexivity]|]).
  split.
  { destruct (unsafeDGCFromCoseData_inr _ _ _ Hdgc)
      as (? & ? & ? & ? & ? & ? & _ & _ & _ & _ & _ & Hschema & ->).
    exact (validate_schema_inr _ _ Hschema). }
  destruct (verifyDGC E dgc rawCoseData doc) as [e0|verified] eqn:Hver;
    cbn [bind] in Hparse.
  - injection Hparse as <-. unfold verifyDGC in Hver.
    destruct (verifyDGCClaims E dgc) as [e'|[]] eqn:Hclaims; cbn [bind] in Hver.
    { injection Hver as <-.
      destruct (verifyDGCClaims_failure _ _ _ Hclaims) as [->|[->| ->]]; auto;
        exfalso; cbn in Hclass; intuition discriminate. }
    destruct (findDGCPublicKey E dgc) as [e'|[certificate public_key]] eqn:Hfind;
      cbn [bind] in Hver.
    { injection Hver as <-.
      destruct (findDGCPublicKey_failure _ _ _ Hfind)
        as [[_ [->| ->]]|[_ [->|[->|[[m ->]|[m ->]]]]]]; auto;
        exfalso; cbn in Hclass; intuition discriminate. }
    destruct (verify E rawCoseData public_key) as [m|[]];
      cbn [from_lib bind ret] in Hver; [|discriminate Hver].
    injection Hver as <-. exfalso. cbn in Hclass. intuition discriminate.
  - exfalso. destruct (getCertificateInfo_failure _ _ _ Hparse) as [->|[text ->]];
      cbn in Hclass; intuition discriminate.
Qed.

Lemma certificate_errors_carry_the_record_witness :
  exists rawCoseData dgc,
    extractCoseFromQRCode (Fixture.env Fixture.scan_time)
      Fixture.doc_expired_unknown = inr rawCoseData
    /\ unsafeDGCFromCoseData (Fixture.env Fixture.scan_time) rawCoseData = inr dgc
    /\ parse (Fixture.env Fixture.scan_time) Fixture.doc_expired_unknown
       = inl (ExpiredDgcError dgc).
Proof.
  edestruct (certificate_errors_carry_the_record (Fixture.env Fixture.scan_time)
               Fixture.doc_expired_unknown)
    as (raw & dgc & Hraw & Hdgc & _ & Hcases).
  - vm_compute. reflexivity.
  - right. left. reflexivity.
  - exists raw, dgc. split; [exact Hraw|]. split; [exact Hdgc|].
    destruct Hcases as [Hc|[Hc|[Hc|Hc]]]; try discriminate Hc.
    injection Hc as <-. vm_compute. reflexivity.
Defined.

(** ** The normalized record *)

Lemma strict_eq_str_true (v : value) (s : string) :
  strict_eq_str v s = true -> v = VStr s.
Proof.
  destruct v; cbn; try discriminate. intros H. apply String.eqb_eq in H. now subst.
Qed.

(** X13.  A normalized record says "negative" only for a body without a
    populated vaccination list whose test list is populated and whose
    first test entry has the result ["260415000"], as a text: a recovery
    entry, or a result given as a number, is never reported negative. *)
Theorem negative_only_from_test_entry (E : Env) (cert : DGC) (type : string)
    (test_date : Date) (common : Common) :
  getCertificateInfo E cert = inr (TestInfo type test_date true common) ->
  exists v t t0 sc,
    get (hcert (unsafe cert)) "v" = inr v /\ nonempty v = inr false
    /\ get (hcert (unsafe cert)) "t" = inr t /\ nonempty t = inr true
    /\ first t = inr t0
    /\ get t0 "tr" = inr (VStr "260415000")
    /\ get t0 "sc" = inr sc /\ test_date = NewDate sc.
Proof.
  unfold getCertificateInfo.
  repeat lazymatch goal with
  | |- bind ?m _ = inr _ -> _ =>
      let H := fresh "Hstep" in destruct m as [?|?] eqn:H; cbn [bind]
  | |- (if ?b then _ else _) = inr _ -> _ => destruct b
  | |- match JSON_stringify ?E ?c with _ => _ end = inr _ -> _ =>
      destruct (JSON_stringify E c)
  | |- inl _ = inr _ -> _ => discriminate
  | |- throw _ = inr _ -> _ => discriminate
  | |- ret _ = inr _ -> _ => intros Hret; injection Hret; clear Hret
  end; try discriminate.
  intros _ Hneg <- _. apply strict_eq_str_true in Hneg. subst.
  repeat eexists; eassumption.
Qed.

Lemma negative_only_from_test_entry_witness :
  exists t t0,
    get (HCert.to_value nameless_body) "t" = inr t
    /\ first t = inr t0
    /\ get t0 "tr" = inr (VStr "260415000").
Proof.
  edestruct (negative_only_from_test_entry (Fixture.env Fixture.scan_time)
               (Fixture.verified (HCert.to_value nameless_body)))
    as (v & t & t0 & sc & _ & _ & Ht & _ & Hfirst & Htr & _).
  - vm_compute. reflexivity.
  - exists t, t0. split; [exact Ht|]. split; [exact Hfirst | exact Htr].
Defined.

(** ** The certificate view and the ticket *)

(** X14.  For a document that [parse] accepts the view shows the syringe
    and the heading "Vaccin" when the record is a vaccination, and the
    test tube and the heading "Test de dépistage" otherwise: the third
    heading, "Certificat de rétablissement", is never shown for such a
    document, a recovery being normalized as a test. *)
Theorem recovery_heading_never_shown (E : Env) (doc : string)
    (info : CommonCertificateInfo) :
  parse E doc = inr info ->
  (type_of info = "vaccination"
   /\ CertificateView.heading info = "Vaccin"
   /\ CertificateView.emoji info = "💉")
  \/ (type_of info = "test"
      /\ CertificateView.heading info = "Test de dépistage"
      /\ CertificateView.emoji info = "🧪").
Proof.
  unfold parse.
  destruct (extractCoseFromQRCode E doc) as [e|rawCoseData]; cbn [bind];
    [discriminate|].
  destruct (unsafeDGCFromCoseData E rawCoseData) as [e|dgc]; cbn [bind];
    [discriminate|].
  destruct (verifyDGC E dgc rawCoseData doc) as [e|verified]; cbn [bind];
    [discriminate|].
  intros Hinfo.
  destruct (getCertificateInfo_inr _ _ _ Hinfo) as ([Htype|Htype] & _);
    unfold CertificateView.heading, CertificateView.emoji; rewrite Htype;
    [left | right]; repeat split.
Qed.

Lemma recovery_heading_never_shown_witness :
  exists info,
    parse (Fixture.env Fixture.scan_time) Fixture.doc_valid = inr info
    /\ CertificateView.heading info <> "Certificat de rétablissement".
Proof.
  eexists. split; [vm_compute; reflexivity|].
  match goal with
  | |- CertificateView.heading ?info <> _ =>
      destruct (recovery_heading_never_shown (Fixture.env Fixture.scan_time)
                  Fixture.doc_valid info) as [(_ & H & _)|(_ & H & _)]
  end.
  - vm_compute. reflexivity.
  - rewrite H. discriminate.
  - rewrite H. discriminate.
Defined.

(** X15.  Printing from the certificate view never prints.  The view
    asks for a ticket with a name and a date and no configuration.  Unless
    the ticket was already printed, in which case nothing is attempted,
    either the attempt ends in a TypeError with no handler installed (the
    first name is not a text, or no window opens), or [printTicket]
    returns normally with its handler installed on the window: whenever
    this handler runs, it sets the title of the window and ends in a
    TypeError, before it sets the body, prints or closes.  A handler made
    with a configuration sets the title and the body, prints and closes,
    and ends normally. *)
Theorem print_from_view_never_prints (B : CertificateView.Browser)
    (info : CommonCertificateInfo) :
  CertificateView.launchPrint B info true = None
  /\ ((CertificateView.launchPrint B info false = Some (inl TypeError)
       /\ (CertificateView.window_open B = false
           \/ forall s, first_name (common_of info) <> VStr s))
      \/ (CertificateView.window_open B = true
          /\ exists handler,
               CertificateView.launchPrint B info false = Some (inr handler)
               /\ forall checked,
                    handler checked
                    = ([Ticket.SetTitle "Sanipasse impression"], Some TypeError)))
  /\ (forall name date_of_birth config checked,
        exists html,
          Ticket.getTicketHtml checked name date_of_birth (Some config) = inr html
          /\ Ticket.onload name date_of_birth (Some config) checked
             = ([Ticket.SetTitle "Sanipasse impression"; Ticket.SetBody html;
                 Ticket.Print; Ticket.Close], None)).
Proof.
  split; [reflexivity|]. split.
  - unfold CertificateView.launchPrint, Ticket.printTicket.
    destruct (first_name (common_of info)) as [| |? |? |s |? |? |? |? |? ? |?];
      try (left; split; [reflexivity | right; intros s; discriminate]).
    cbn [bind ret]. destruct (CertificateView.window_open B).
    + right. split; [reflexivity|]. eexists. split; [reflexivity|].
      intros checked. reflexivity.
    + left. split; [reflexivity | left; reflexivity].
  - intros name date_of_birth config checked.
    unfold Ticket.onload, Ticket.getTicketHtml, ret.
    eexists. split; reflexivity.
Qed.

(** ** The remote validation endpoint *)

Lemma split_commas_cons (s : string) : exists x rest, ValidatePass.split_commas s = x :: rest.
Proof.
  induction s as [|c s (x & rest & IH)]; cbn [ValidatePass.split_commas]; [eauto|].
  destruct (Ascii.eqb c ","); [eauto|]. rewrite IH. eauto.
Qed.

Lemma split_commas_no_comma (s k : string) :
  In k (ValidatePass.split_commas s) -> ~ In ","%char (chars k).
Proof.
  revert k. induction s as [|c s IH]; cbn [ValidatePass.split_commas]; intros k Hk.
  - destruct Hk as [<-|[]]. intros [].
  - destruct (Ascii.eqb c ",") eqn:Hc.
    + destruct Hk as [<-|Hk]; [intros [] | exact (IH k Hk)].
    + destruct (split_commas_cons s) as (x & rest & Hs). rewrite Hs in Hk, IH.
      destruct Hk as [<-|Hk].
      * cbn [chars]. intros [->|Hin]; [discriminate Hc|].
        exact (IH x (or_introl eq_refl) Hin).
      * exact (IH k (or_intror Hk)).
Qed.

Lemma join_split_commas (s : string) : join "," (ValidatePass.split_commas s) = s.
Proof.
  induction s as [|c s IH]; [reflexivity|]. cbn [ValidatePass.split_commas].
  destruct (split_commas_cons s) as (x & rest & Hs). rewrite Hs in IH |- *.
  destruct (Ascii.eqb_spec c ",") as [->|Hc].
  - change (join "," ("" :: x :: rest)) with (String "," (join "," (x :: rest))).
    now rewrite IH.
  - destruct rest as [|y rest].
    + cbn [join] in IH |- *. now rewrite IH.
    + change (join "," (String c x :: y :: rest))
        with (String c (join "," (x :: y :: rest))).
      now rewrite IH.
Qed.

Lemma has_In (keys : list string) (k : string) :
  ValidatePass.has keys k = true <-> In k keys.
Proof.
  unfold ValidatePass.has. rewrite existsb_exists. split.
  - intros (x & Hx & Heq). apply String.eqb_eq in Heq. now subst.
  - intros Hk. exists k. split; [exact Hk | apply String.eqb_refl].
Qed.

Lemma absent_false (o : option string) :
  ValidatePass.absent o = false <-> exists x, o = Some x /\ x <> "".
Proof.
  unfold ValidatePass.absent. destruct o as [x|].
  - rewrite String.eqb_neq. split; [eauto | intros (y & [= <-] & Hy); exact Hy].
  - split; [discriminate | intros (y & Hy & _); discriminate Hy].
Qed.

Lemma ACCEPTED_KEYS_pieces (D : ValidatePass.Deps) :
  ValidatePass.ACCEPTED_KEYS D
  = ValidatePass.split_commas (default "" (ValidatePass.env_ACCEPTED_KEYS D)).
Proof.
  unfold ValidatePass.ACCEPTED_KEYS, ValidatePass.absent.
  destruct (ValidatePass.env_ACCEPTED_KEYS D) as [x|]; [|reflexivity].
  cbn [default]. destruct (String.eqb_spec x "") as [->|]; reflexivity.
Qed.

(** The three answers of the handler. *)
Lemma post_cases (D : ValidatePass.Deps) (input : ValidatePass.Input) :
  (ValidatePass.status (ValidatePass.post D input) = 400
   /\ (ValidatePass.absent (ValidatePass.code input) = true
       \/ ValidatePass.absent (ValidatePass.key input) = true)
   /\ ValidatePass.body (ValidatePass.post D input)
      = {| ValidatePass.validated := None;
           ValidatePass.error :=
             Some "Expected JSON body parameters: {code: string, key: string }";
           ValidatePass.person := None |})
  \/ (exists c k,
        ValidatePass.code input = Some c /\ c <> ""
        /\ ValidatePass.key input = Some k /\ k <> ""
        /\ ((~ In k (ValidatePass.ACCEPTED_KEYS D)
             /\ ValidatePass.status (ValidatePass.post D input) = 403
             /\ ValidatePass.body (ValidatePass.post D input)
                = {| ValidatePass.validated := None;
                     ValidatePass.error :=
                       Some ("Invalid API key '" +:+ k
                               +:+ "'. contact@ophir.dev to get an API key.");
                     ValidatePass.person := None |})
            \/ (In k (ValidatePass.ACCEPTED_KEYS D)
                /\ ValidatePass.status (ValidatePass.post D input) = 200
                /\ ValidatePass.body (ValidatePass.post D input)
                   = match ValidatePass.parse_any D c with
                     | inl m =>
                         {| ValidatePass.validated := Some (ValidatePass.absent m);
                            ValidatePass.error := m;
                            ValidatePass.person := None |}
                     | inr parsed =>
                         let m := match ValidatePass.findCertificateError D parsed with
                                  | inl m => m
                                  | inr m => m
                                  end in
                         {| ValidatePass.validated := Some (ValidatePass.absent m);
                            ValidatePass.error := m;
                            ValidatePass.person :=
                              Some {| ValidatePass.person_first_name :=
                                        first_name (common_of parsed);
                                      ValidatePass.person_last_name :=
                                        last_name (common_of parsed);
                                      ValidatePass.person_date_of_birth :=
                                        date_of_birth (common_of parsed) |} |}
                     end))).
Proof.
  unfold ValidatePass.post.
  destruct (ValidatePass.absent (ValidatePass.code input)) eqn:Hc; cbn [orb];
    [left; auto|].
  destruct (ValidatePass.absent (ValidatePass.key input)) eqn:Hk;
    [left; auto|].
  right.
  apply absent_false in Hc as (c & Hc & Hcne).
  apply absent_false in Hk as (k & Hk & Hkne).
  exists c, k. rewrite Hc, Hk. cbn [from_option id].
  do 4 (split; [first [reflexivity | assumption]|]).
  destruct (ValidatePass.has (ValidatePass.ACCEPTED_KEYS D) k) eqn:Hhas; cbn [negb].
  - right. apply has_In in Hhas. split; [exact Hhas|].
    destruct (ValidatePass.parse_any D c) as [m|parsed]; [split; reflexivity|].
    destruct (ValidatePass.findCertificateError D parsed); split; reflexivity.
  - left. split; [|split; reflexivity].
    intros Hin. apply has_In in Hin. congruence.
Qed.

(** X16.  The endpoint answers 400 exactly when the code or the key is
    missing or empty, 403 exactly when both are there and the key is not
    an accepted one, and 200 exactly when both are there and the key is
    accepted.  The accepted keys are the pieces of the variable
    [ACCEPTED_KEYS] between its commas: joined by commas they give the
    variable back, and none contains a comma.  When the variable is unset
    or empty no request is answered 200, although the set of accepted
    keys then holds the empty text.  An answer other than 200 has an error
    text and neither a verdict nor a person. *)
Theorem endpoint_access_control (D : ValidatePass.Deps) (input : ValidatePass.Input) :
  let r := ValidatePass.post D input in
  (ValidatePass.status r = 400 <->
   ValidatePass.absent (ValidatePass.code input) = true
   \/ ValidatePass.absent (ValidatePass.key input) = true)
  /\ (ValidatePass.status r = 403 <->
      exists c k, ValidatePass.code input = Some c /\ c <> ""
                  /\ ValidatePass.key input = Some k /\ k <> ""
                  /\ ~ In k (ValidatePass.ACCEPTED_KEYS D))
  /\ (ValidatePass.status r = 200 <->
      exists c k, ValidatePass.code input = Some c /\ c <> ""
                  /\ ValidatePass.key input = Some k /\ k <> ""
                  /\ In k (ValidatePass.ACCEPTED_KEYS D))
  /\ join "," (ValidatePass.ACCEPTED_KEYS D)
     = default "" (ValidatePass.env_ACCEPTED_KEYS D)
  /\ (forall k, In k (ValidatePass.ACCEPTED_KEYS D) -> ~ In ","%char (chars k))
  /\ (ValidatePass.absent (ValidatePass.env_ACCEPTED_KEYS D) = true ->
      In "" (ValidatePass.ACCEPTED_KEYS D) /\ ValidatePass.status r <> 200)
  /\ (ValidatePass.status r <> 200 ->
      ValidatePass.validated (ValidatePass.body r) = None
      /\ ValidatePass.person (ValidatePass.body r) = None
      /\ ValidatePass.absent (ValidatePass.error (ValidatePass.body r)) = false).
Proof.
  intros r. subst r.
  assert (Hempty : ValidatePass.absent (ValidatePass.env_ACCEPTED_KEYS D) = true ->
                   ValidatePass.ACCEPTED_KEYS D = [""]).
  { intros Habs. unfold ValidatePass.ACCEPTED_KEYS. rewrite Habs. reflexivity. }
  split; [|split; [|split; [|split; [|split; [|split]]]]].
  - destruct (post_cases D input)
      as [(-> & Habs & _)|(c & k & Hc & Hcne & Hk & Hkne & [(_ & -> & _)|(_ & -> & _)])].
    + tauto.
    + split; [discriminate|]. intros [Habs|Habs];
        [rewrite Hc in Habs | rewrite Hk in Habs];
        apply String.eqb_eq in Habs; congruence.
    + split; [discriminate|]. intros [Habs|Habs];
        [rewrite Hc in Habs | rewrite Hk in Habs];
        apply String.eqb_eq in Habs; congruence.
  - destruct (post_cases D input)
      as [(-> & Habs & _)|(c & k & Hc & Hcne & Hk & Hkne & [(Hin & -> & _)|(Hin & -> & _)])].
    + split; [discriminate|]. intros (c & k & Hc & Hcne & Hk & Hkne & _).
      destruct Habs as [Habs|Habs]; [rewrite Hc in Habs | rewrite Hk in Habs];
        apply String.eqb_eq in Habs; congruence.
    + split; [intros _; exists c, k; auto|reflexivity].
    + split; [discriminate|]. intros (c' & k' & _ & _ & Hk' & _ & Hnin).
      rewrite Hk in Hk'. injection Hk' as <-. contradiction.
  - destruct (post_cases D input)
      as [(-> & Habs & _)|(c & k & Hc & Hcne & Hk & Hkne & [(Hin & -> & _)|(Hin & -> & _)])].
    + split; [discriminate|]. intros (c & k & Hc & Hcne & Hk & Hkne & _).
      destruct Habs as [Habs|Habs]; [rewrite Hc in Habs | rewrite Hk in Habs];
        apply String.eqb_eq in Habs; congruence.
    + split; [discriminate|]. intros (c' & k' & _ & _ & Hk' & _ & Hin').
      rewrite Hk in Hk'. injection Hk' as <-. contradiction.
    + split; [intros _; exists c, k; auto|reflexivity].
  - rewrite ACCEPTED_KEYS_pieces. apply join_split_commas.
  - intros k. rewrite ACCEPTED_KEYS_pieces. apply split_commas_no_comma.
  - intros Habs. rewrite (Hempty Habs). split; [left; reflexivity|].
    destruct (post_cases D input)
      as [(-> & _)|(c & k & _ & _ & _ & Hkne & [(_ & -> & _)|(Hin & _)])];
      [discriminate | discriminate |].
    rewrite (Hempty Habs) in Hin. destruct Hin as [<-|[]]. congruence.
  - destruct (post_cases D input)
      as [(_ & _ & ->)|(c & k & _ & _ & _ & _ & [(_ & _ & ->)|(_ & -> & _)])];
      [intros _; repeat split | intros _; repeat split | congruence].
Qed.

(** X17.  The verdict of the endpoint.  An answer says "validated"
    exactly when it is an answer 200 whose error is missing or empty, and
    "not validated" exactly when it is an answer 200 with an error text.
    A person is given exactly when the parser returned a record, of which
    it is the two names and the date of birth, whatever the later checks
    say.  When the parser throws, the error is the message of what it
    threw; so a failure that has no message, or an empty one, is answered
    as validated, without a person. *)
Theorem endpoint_verdict (D : ValidatePass.Deps) (input : ValidatePass.Input) :
  let r := ValidatePass.post D input in
  (ValidatePass.validated (ValidatePass.body r) = Some true <->
   ValidatePass.status r = 200
   /\ ValidatePass.absent (ValidatePass.error (ValidatePass.body r)) = true)
  /\ (ValidatePass.validated (ValidatePass.body r) = Some false <->
      ValidatePass.status r = 200
      /\ ValidatePass.absent (ValidatePass.error (ValidatePass.body r)) = false)
  /\ (forall p, ValidatePass.person (ValidatePass.body r) = Some p <->
      ValidatePass.status r = 200
      /\ exists c parsed,
           ValidatePass.code input = Some c
           /\ ValidatePass.parse_any D c = inr parsed
           /\ p = {| ValidatePass.person_first_name := first_name (common_of parsed);
                     ValidatePass.person_last_name := last_name (common_of parsed);
                     ValidatePass.person_date_of_birth :=
                       date_of_birth (common_of parsed) |})
  /\ (forall c m, ValidatePass.status r = 200 ->
      ValidatePass.code input = Some c ->
      ValidatePass.parse_any D c = inl m ->
      ValidatePass.body r
      = {| ValidatePass.validated := Some (ValidatePass.absent m);
           ValidatePass.error := m;
           ValidatePass.person := None |}).
Proof.
  intros r. subst r.
  destruct (post_cases D input)
    as [(Hs & _ & Hb)|(c & k & Hc & _ & _ & _ & [(_ & Hs & Hb)|(_ & Hs & Hb)])];
    rewrite Hs, Hb.
  - cbn. repeat split; try discriminate; try (intros [? _]; discriminate);
      intros; discriminate.
  - cbn -[String.append]. repeat split; try discriminate;
      try (intros [? _]; discriminate); intros; discriminate.
  - rewrite Hc.
    destruct (ValidatePass.parse_any D c) as [m|parsed] eqn:Hparse.
    + cbn [ValidatePass.validated ValidatePass.error ValidatePass.person].
      split; [|split; [|split]].
      * split; [intros [= ->]; auto | intros [_ ->]; reflexivity].
      * split; [intros [= ->]; auto | intros [_ ->]; reflexivity].
      * intros p. split; [discriminate|].
        intros (_ & c' & parsed & [= <-] & Hp & _). congruence.
      * intros c' m' _ [= <-] Hm. rewrite Hparse in Hm. injection Hm as <-.
        reflexivity.
    + cbv zeta.
      cbn [ValidatePass.validated ValidatePass.error ValidatePass.person].
      split; [|split; [|split]].
      * split; [intros [= ->]; auto | intros [_ ->]; reflexivity].
      * split; [intros [= ->]; auto | intros [_ ->]; reflexivity].
      * intros p. split.
        -- intros [= <-]. split; [reflexivity|]. exists c, parsed. auto.
        -- intros (_ & c' & parsed' & [= <-] & Hp & ->).
           rewrite Hparse in Hp. injection Hp as <-. reflexivity.
      * intros c' m' _ [= <-] Hm. rewrite Hparse in Hm. discriminate Hm.
Qed.
